(** * Drift E3 training-data pipeline: a shallow embedding

    The development follows the scripts of [training/scripts]:
    - [extract_backtest_data.py]: pairing of backtest trades into derived
      signals ([Backtest]) and the table they are saved to
      ([BacktestStore]);
    - [prepare_data.py]: loading, combining, windowed join, text rendering,
      splitting and statistics ([Prepare], [Pipeline]);
    - [evaluate_model.py]: the substring based scoring rule ([Evaluate])
      and the metrics computed from it ([Metrics]);
    - [train_lora.py]: the text built for the tokenizer ([Trainer]).

    Conventions of the embedding.
    - A Python [float] is the rational [Q] that the binary64 number
      denotes; NaN, the infinities and the sign of zero are not
      represented.  Where the scripts compute a float on which a discrete
      outcome depends (the size of the training set, the sum of the matched
      PnL and what is derived from it) the result is rounded to the nearest
      binary64 number, ties to even ([Py.nearest_double]); the differences
      and quotients that are only stored or compared with zero are kept
      exact, which decides those comparisons as the rounded value does.
      Fixed precision rendering ([:.2f]) rounds the exact value, ties to
      even, as CPython does.
    - A Python [int] is a [Z]; [len] is a [nat].
    - A Python [str] is a [string]; the literals searched for are ASCII, so
      searching bytes and searching code points agree.
    - A raised exception is a value of [exn]; code that can raise returns
      in [exn + A]. *)

From Stdlib Require Import ZArith QArith Qround Qabs.
From Stdlib Require Import Ascii String Numbers.DecimalString.
From Stdlib Require Import Lqa Qfield.
From stdpp Require Import base list strings gmap sorting.

Local Open Scope string_scope.
Local Open Scope Z_scope.
Local Open Scope list_scope.

(** ** Python values shared by the three scripts *)

Module Py.

(** [needle in haystack] on [str]. *)
Fixpoint startswith (p s : string) : bool :=
  match p, s with
  | EmptyString, _ => true
  | String _ _, EmptyString => false
  | String a p', String b s' => if Ascii.eqb a b then startswith p' s' else false
  end.

Fixpoint contains (p s : string) : bool :=
  startswith p s ||
  match s with
  | EmptyString => false
  | String _ s' => contains p s'
  end.

(** Membership of a character in a string, and strings made only of
    characters that another string does not use. *)
Fixpoint char_in (c : ascii) (s : string) : bool :=
  match s with
  | EmptyString => false
  | String a s' => Ascii.eqb c a || char_in c s'
  end.

Fixpoint avoids (p s : string) : bool :=
  match s with
  | EmptyString => true
  | String a s' => negb (char_in a p) && avoids p s'
  end.

(** Strings written over an alphabet. *)
Fixpoint made_of (alphabet s : string) : bool :=
  match s with
  | EmptyString => true
  | String a s' => char_in a alphabet && made_of alphabet s'
  end.

(** [str(n)] for an [int]. *)
Definition str_int (n : Z) : string := NilZero.string_of_int (Z.to_int n).

Definition str_nat (n : nat) : string := str_int (Z.of_nat n).

(** [str(b)] for a [bool]. *)
Definition str_bool (b : bool) : string := if b then "True" else "False".

(** [x > 0], [x > y] on floats. *)
Definition Qgtb (x y : Q) : bool :=
  (Qnum y * Zpos (Qden x) <? Qnum x * Zpos (Qden y))%Z.

(** [int(x)]: truncation toward zero. *)
Definition int_of_float (x : Q) : Z := Z.quot (Qnum x) (Zpos (Qden x)).

(** *** Binary floating point

    Every finite binary64 number is a whole number of units of [2^-1074],
    the spacing of the subnormal numbers, of the form [m * 2^k] with
    [m < 2^53]: around a value of [v >= 2^52] units the spacing is
    [2^(log2 v - 52)] units, below [2^52] units it is one unit. *)
Definition unit_scale : positive := (2 ^ 1074)%positive.

(** The exponent [k] of the spacing [2^k] around [n / d] units
    ([0 <= n], [0 < d]). *)
Definition spacing (n d : Z) : Z := Z.max 0 (Z.log2 (n / d) - 52).

(** The integer nearest to [n / d], ties to the even one ([0 <= n], [0 < d]). *)
Definition round_half_even (n d : Z) : Z :=
  let q := n / d in
  let r := n mod d in
  if 2 * r <? d then q
  else if d <? 2 * r then q + 1
  else if Z.even q then q else q + 1.

(** The binary64 number nearest to [n / d] units, in units. *)
Definition round_units (n d : Z) : Z :=
  let k := spacing n d in
  round_half_even n (d * 2 ^ k) * 2 ^ k.

(** The binary64 number nearest to [x], ties to even, first in units and
    with the sign of [x]: what [float] of a
    decimal literal is, and what an arithmetic operation returns for the
    exact result [x].  A result beyond the largest finite binary64 number
    is [inf] in Python; such values are outside the model. *)
Definition signed_units (x : Q) : Z :=
  Z.sgn (Qnum x) * round_units (Z.abs (Qnum x) * Zpos unit_scale) (Zpos (Qden x)).

Definition nearest_double (x : Q) : Q :=
  Qred (Qmake (signed_units (Qred x)) unit_scale).

(** Used in statements only: [x] is a binary64 number. *)
Definition is_double (x : Q) : Prop := (nearest_double x == x)%Q.


(** [a + b] and [a * b] on floats, and [float(n)] for an [int]. *)
Definition float_add (a b : Q) : Q := nearest_double (a + b).

Definition float_mul (a b : Q) : Q := nearest_double (a * b).

Definition float_of_int (n : Z) : Q := nearest_double (inject_Z n).

(** Zero padding on the left up to [width] characters. *)
Fixpoint zeros (n : nat) : string :=
  match n with
  | O => ""
  | S n' => String "0" (zeros n')
  end.

Definition zfill (width : nat) (s : string) : string :=
  zeros (width - String.length s) +:+ s.

(** [format(x, '.<prec>f')]: sign, integer part, and [prec] decimals of
    the exact value rounded half to even. *)
Definition format_f (prec : nat) (x : Q) : string :=
  let scale := 10 ^ Z.of_nat prec in
  let r := round_half_even (Z.abs (Qnum x) * scale) (Zpos (Qden x)) in
  let sign := if Qnum x <? 0 then "-" else "" in
  let frac :=
    match prec with
    | O => ""
    | S _ => "." +:+ zfill prec (str_int (r mod scale))
    end in
  sign +:+ str_int (r / scale) +:+ frac.

(** [seq[:k]] and [seq[k:]]: a negative bound counts from the end, and
    bounds are clipped to the sequence. *)
Definition slice_stop {A} (l : list A) (k : Z) : list A :=
  if k <? 0 then take (Z.to_nat (Z.of_nat (length l) + k)) l
  else take (Z.to_nat k) l.

Definition slice_start {A} (l : list A) (k : Z) : list A :=
  if k <? 0 then drop (Z.to_nat (Z.of_nat (length l) + k)) l
  else drop (Z.to_nat k) l.

(** Exceptions that the modelled code can raise. *)
Inductive exn : Type :=
  | ValueError (msg : string)
  | KeyError (key : string)
  | OutOfBoundsDatetime
  | ZeroDivisionError
  | OverflowError.

End Py.


(** ** [extract_backtest_data.py] *)

Module Backtest.

(** One element of [backtest_data['trades']]. *)
Record trade : Type := Trade {
  side : string;
  price : Q;
  ts : Z
}.

(** The dictionary appended to [signals]. *)
Record signal : Type := Signal {
  timestamp : Z;
  signal_side : string;
  entry_price : Q;
  exit_price : Q;
  pnl : Q;
  hold_time : Q;
  profitable : bool;
  entry_time : string;
  exit_time : string
}.

Definition is_entry (t : trade) : bool :=
  bool_decide (side t = "LONG") || bool_decide (side t = "SHORT").

Definition is_flat (t : trade) : bool := bool_decide (side t = "FLAT").

Section Pairing.

(** [datetime.fromtimestamp(ms / 1000).isoformat()].  The rendering is in
    the local time of the host and raises for instants outside the years
    the platform supports; [None] stands for the raised exception. *)
Variable isoformat_local : Z → option string.

(** The body of [if exit_trade:]. *)
Definition make_signal (entry_trade exit_trade : trade) : option signal :=
  let entry_price := price entry_trade in
  let exit_price := price exit_trade in
  let entry_time := ts entry_trade in
  let exit_time := ts exit_trade in
  let pnl :=
    if bool_decide (side entry_trade = "LONG")
    then (exit_price - entry_price)%Q
    else (entry_price - exit_price)%Q in
  let hold_time := (inject_Z (exit_time - entry_time) / inject_Z (1000 * 60))%Q in
  let profitable := Py.Qgtb pnl 0 in
  entry_iso ← isoformat_local entry_time;
  exit_iso ← isoformat_local exit_time;
  Some {|
    timestamp := entry_time;
    signal_side := side entry_trade;
    entry_price := entry_price;
    exit_price := exit_price;
    pnl := pnl;
    hold_time := hold_time;
    profitable := profitable;
    entry_time := entry_iso;
    exit_time := exit_iso
  |}.

(** [extract_trading_signals], for a [backtest_data] that has its two keys
    [trades] and [equityCurve]; the equity curve is read and not used.

    [for i, trade in enumerate(trades)], with [rest] the trades from
    position [i] on and [signals] the list built so far.  A trade is a
    dictionary with a ['side'] key, hence truthy in [if exit_trade:]. *)
Fixpoint extract_loop (trades : list trade) (i : nat) (rest : list trade)
    (signals : list signal) : option (list signal) :=
  match rest with
  | [] => Some signals
  | trade :: rest' =>
    if is_entry trade then
      let exit_trade :=
        if bool_decide (i + 1 < length trades)%nat then
          match trades !! (i + 1)%nat with
          | Some next_trade => if is_flat next_trade then Some next_trade else None
          | None => None
          end
        else None in
      match exit_trade with
      | Some exit_trade =>
        signal ← make_signal trade exit_trade;
        extract_loop trades (S i) rest' (signals ++ [signal])
      | None => extract_loop trades (S i) rest' signals
      end
    else extract_loop trades (S i) rest' signals
  end.

Definition extract_trading_signals (trades : list trade) : option (list signal) :=
  extract_loop trades 0 trades [].

(** The pairing as the specification words it: position [i] holds an entry
    and position [i + 1] holds its exit. *)
Definition entry_exit_at (trades : list trade) (i : nat) : option (trade * trade) :=
  entry ← trades !! i;
  exit ← trades !! S i;
  if is_entry entry && is_flat exit then Some (entry, exit) else None.

Definition entry_exit_pairs (trades : list trade) : list (trade * trade) :=
  omap (entry_exit_at trades) (seq 0 (length trades)).

Definition signal_of_pair (pair : trade * trade) : option signal :=
  make_signal pair.1 pair.2.

(** One derived signal per such position, in the order of the trades. *)
Definition paired_signals (trades : list trade) : option (list signal) :=
  mapM signal_of_pair (entry_exit_pairs trades).

End Pairing.

End Backtest.

(** ** [prepare_data.py] *)

Module Prepare.

(** *** Tables *)

(** The [features] cell of a signal row: SQL NULL or the empty string,
    text that [json.loads] rejects, or a JSON object, which the data model
    takes as a mapping from feature names to floats. *)
Inductive features_cell : Type :=
  | FeaturesMissing
  | FeaturesMalformed (text : string)
  | FeaturesObject (mapping : gmap string Q).

(** A row of the [signals] query (and of the combined signal table, of
    which only these five columns are read afterwards). *)
Record signal_row : Type := SignalRow {
  s_timestamp : Z;
  s_decision : string;
  s_confidence : Q;
  s_trigger : string;
  s_features : features_cell
}.

(** A row of the [pnl] query: [ts as timestamp], [symbol],
    [pnlUsd as pnl], [reason as exit_reason]. *)
Record pnl_row : Type := PnlRow {
  p_timestamp : Z;
  p_symbol : string;
  p_pnl : Q;
  p_exit_reason : string
}.

(** A row of the [backtest_signals] query, before the constant columns
    [1.0 as confidence] and ['backtest' as trigger] are added. *)
Record backtest_row : Type := BacktestRow {
  b_timestamp : Z;
  b_decision : string;
  b_features : features_cell;
  b_pnl : Q;
  b_profitable : Z;
  b_hold_time : Q
}.

(** A [pandas.DataFrame]: [pd.DataFrame()] has no columns at all, a query
    result has its columns even when it has no rows. *)
Inductive frame (R : Type) : Type :=
  | NoColumns
  | Table (rows : list R).
Arguments NoColumns {R}.
Arguments Table {R} rows.

(** [df.empty] *)
Definition empty {R} (df : frame R) : bool :=
  match df with
  | NoColumns => true
  | Table [] => true
  | Table (_ :: _) => false
  end.

(** [len(df)] *)
Definition len {R} (df : frame R) : nat :=
  match df with
  | NoColumns => 0
  | Table rows => length rows
  end.

(** *** Logging and exceptions *)

Inductive level : Type := ERROR | INFO.

Definition entry : Type := level * string.

(** A computation that appends to the log and either raises or returns. *)
Definition M (A : Type) : Type := list entry → list entry * (Py.exn + A).

#[global] Instance M_ret : MRet M := λ A x log, (log, inr x).

#[global] Instance M_bind : MBind M := λ A B f m log,
  match m log with
  | (log', inl e) => (log', inl e)
  | (log', inr x) => f x log'
  end.

Definition raise {A} (e : Py.exn) : M A := λ log, (log, inl e).

Definition logger (lv : level) (msg : string) : M unit :=
  λ log, ((log ++ [(lv, msg)])%list, inr tt).

(** *** The world the script runs in *)

Record world : Type := World {
  (** [config['trading']['data_sources'][0]] *)
  db_path : string;
  (** [os.path.exists(db_path)] *)
  db_exists : bool;
  (** the two query results, or the text of the exception raised while
      connecting or querying *)
  db_content : string + (list signal_row * list pnl_row);
  (** [os.path.exists("var/backtest_training_data.db")] *)
  backtest_exists : bool;
  backtest_content : string + list backtest_row;
  (** [config['data']['train_split']], as the number written in the
      configuration file *)
  train_split : Q
}.

(** *** [load_trading_data] *)

(** What [load_trading_data] hands back: a lone [pd.DataFrame()] on the
    missing-file path, a pair of frames on the two other paths. *)
Inductive returned : Type :=
  | Single (df : frame signal_row)
  | Pair (signals_df : frame signal_row) (pnl_df : frame pnl_row).

Definition load_trading_data (w : world) : M returned :=
  if negb (db_exists w) then
    logger ERROR ("Database not found: " +:+ db_path w);;
    mret (Single NoColumns)
  else
    match db_content w with
    | inr (signals, pnl) =>
      logger INFO ("Loaded " +:+ Py.str_nat (length signals) +:+ " signals and "
                   +:+ Py.str_nat (length pnl) +:+ " PnL records");;
      mret (Pair (Table signals) (Table pnl))
    | inl e =>
      logger ERROR ("Error loading trading data: " +:+ e);;
      mret (Pair NoColumns NoColumns)
    end.

(** [signals_df, pnl_df = value]: a tuple gives its two components;
    a DataFrame is iterated over its column labels, none for
    [pd.DataFrame()] and five for the signal query. *)
Definition unpack_two (value : returned) : M (frame signal_row * frame pnl_row) :=
  match value with
  | Pair signals_df pnl_df => mret (signals_df, pnl_df)
  | Single NoColumns =>
    raise (Py.ValueError "not enough values to unpack (expected 2, got 0)")
  | Single (Table _) =>
    raise (Py.ValueError "too many values to unpack (expected 2)")
  end.

(** *** [load_backtest_data] *)

Definition load_backtest_data (w : world) : M (frame backtest_row) :=
  if negb (backtest_exists w) then
    logger INFO "No backtest data available";;
    mret NoColumns
  else
    match backtest_content w with
    | inr rows =>
      logger INFO ("Loaded " +:+ Py.str_nat (length rows) +:+ " backtest signals");;
      mret (Table rows)
    | inl e =>
      logger ERROR ("Error loading backtest data: " +:+ e);;
      mret NoColumns
    end.

(** *** [parse_features] *)

Definition parse_features (features_json : features_cell) : gmap string Q :=
  match features_json with
  | FeaturesObject mapping => mapping
  | FeaturesMissing => ∅
  | FeaturesMalformed _ => ∅
  end.

(** *** Training examples *)

Record input_features : Type := InputFeatures {
  price : Q;
  volume : Q;
  volatility : Q;
  bodyOverAtr : Q;
  volumeZ : Q;
  spreadBps : Q;
  premiumPct : Q;
  realizedVol : Q;
  openInterest : Q;
  fundingRate : Q
}.

Record labels : Type := Labels {
  profitable : bool;
  pnl : Q;
  hold_time : Z;
  exit_reason : string
}.

Record example : Type := Example {
  timestamp : Z;
  features_of : input_features;
  ai_decision : string;
  ai_confidence : Q;
  e3_trigger : string;
  labels_of : labels
}.

(** [pd.to_datetime(value)] on a number: with no [unit] given, pandas
    reads a number as a count of nanoseconds since the epoch.  The result
    is the instant in nanoseconds. *)
Definition to_datetime (value : Z) : Z := value.

(** An instant is held as a 64-bit count of nanoseconds, of which the
    least, [NaT], stands for no instant and compares false with
    everything.  The timestamp columns are SQLite INTEGER columns, whose
    values are 64-bit integers. *)
Definition NaT : Z := - 2 ^ 63.

Definition Timestamp_max : Z := 2 ^ 63 - 1.

(** [pd.Timedelta(hours=h)], in nanoseconds. *)
Definition Timedelta_hours (h : Z) : Z := h * 3600 * 1000000000.

(** The mask selecting [pnl_window]. *)
Definition in_window (signal_time : Z) (row : pnl_row) : Prop :=
  signal_time ≤ to_datetime (p_timestamp row) ∧
  to_datetime (p_timestamp row) ≤ signal_time + Timedelta_hours 1.

#[global] Instance in_window_dec signal_time row : Decision (in_window signal_time row).
Proof. unfold in_window. apply _. Defined.

Definition pnl_window (pnl_df : list pnl_row) (signal : signal_row) : list pnl_row :=
  filter (in_window (to_datetime (s_timestamp signal))) pnl_df.

(** [features.get(key, 0)] *)
Definition get (features : gmap string Q) (key : string) : Q :=
  default 0%Q (features !! key).

(** [pnl_window['pnl'].sum()] adds binary64 numbers in the order of
    NumPy's pairwise summation: fewer than 8 numbers are added one after
    the other to 0; up to 128 numbers are added into 8 running sums, one
    per position modulo 8, which are then added in pairs, and the last
    [n mod 8] numbers are added to that; a longer array is cut near its
    middle at a multiple of 8, and the sums of the two parts are added. *)
Definition sum_loop (res : Q) (a : list Q) : Q := foldl Py.float_add res a.

Fixpoint add_blocks (blocks : nat) (r a : list Q) : list Q * list Q :=
  match blocks with
  | O => (r, a)
  | S blocks' =>
    add_blocks blocks' (zip_with Py.float_add r (take 8 a)) (drop 8 a)
  end.

Definition sum_accumulators (r : list Q) : Q :=
  match r with
  | [r0; r1; r2; r3; r4; r5; r6; r7] =>
    Py.float_add
      (Py.float_add (Py.float_add r0 r1) (Py.float_add r2 r3))
      (Py.float_add (Py.float_add r4 r5) (Py.float_add r6 r7))
  | _ => 0%Q
  end.

Definition sum_block (a : list Q) : Q :=
  let '(r, rest) := add_blocks (length a / 8 - 1)%nat (take 8 a) (drop 8 a) in
  sum_loop (sum_accumulators r) rest.

(** [depth] bounds the number of cuts; the length of the array is more
    than enough. *)
Fixpoint pairwise_sum (depth : nat) (a : list Q) : Q :=
  let n := length a in
  if (n <? 8)%nat then sum_loop 0%Q a
  else
    match depth with
    | O => sum_block a
    | S depth' =>
      if (n <=? 128)%nat then sum_block a
      else
        let n2 := (n / 2 - (n / 2) mod 8)%nat in
        Py.float_add (pairwise_sum depth' (take n2 a))
          (pairwise_sum depth' (drop n2 a))
    end.

Definition sum_pnl (window : list pnl_row) : Q :=
  pairwise_sum (length window) (map p_pnl window).

(** The four label variables at the end of one loop iteration;
    [last window] is [None] exactly when [len(pnl_window) > 0] fails. *)
Definition derive_labels (window : list pnl_row) : labels :=
  match last window with
  | None =>
    {| profitable := false; pnl := 0%Q; hold_time := 0; exit_reason := "no_trade" |}
  | Some last_row =>
    let actual_pnl := sum_pnl window in
    {| profitable := Py.Qgtb actual_pnl 0;
       pnl := actual_pnl;
       hold_time := Z.of_nat (length window) * 60;
       exit_reason := p_exit_reason last_row |}
  end.

(** One iteration of the loop over [signals_df.iterrows()]: [None] for
    [continue], otherwise the example appended. *)
Definition build_example (pnl_df : list pnl_row) (signal : signal_row) : option example :=
  let features := parse_features (s_features signal) in
  if bool_decide (features = ∅) then None
  else
    Some {|
      timestamp := s_timestamp signal;
      features_of := {|
        price := get features "price";
        volume := get features "volume";
        volatility := get features "volatility";
        bodyOverAtr := get features "bodyOverAtr";
        volumeZ := get features "volumeZ";
        spreadBps := get features "spreadBps";
        premiumPct := get features "premiumPct";
        realizedVol := get features "realizedVol";
        openInterest := get features "openInterest";
        fundingRate := get features "fundingRate"
      |};
      ai_decision := s_decision signal;
      ai_confidence := s_confidence signal;
      e3_trigger := s_trigger signal;
      labels_of := derive_labels (pnl_window pnl_df signal)
    |}.

(** The list [training_examples] when both frames have their columns and
    no iteration raises. *)
Definition training_examples (signals : list signal_row) (pnl_df : list pnl_row)
    : list example :=
  omap (build_example pnl_df) signals.

(** Used in statements: the timestamp is an instant whose window ends at
    an instant, and the timestamp makes the iteration raise. *)
Definition within_bounds (value : Z) : Prop :=
  NaT < value ∧ value + Timedelta_hours 1 ≤ Timestamp_max.

Definition out_of_bounds (value : Z) : Prop :=
  value < NaT ∨ Timestamp_max < value + Timedelta_hours 1.

(** One iteration on frames, with what it can raise, in the order of
    evaluation: [pd.to_datetime(signal['timestamp'])] needs a 64-bit
    value; [pnl_df['timestamp']] needs the column; [signal_time +
    pd.Timedelta(hours=1)] needs the sum to be an instant.  When
    [signal_time] is [NaT], so is the sum, both comparisons are false for
    every row, and the window is empty. *)
Definition example_of_signal (pnl_df : frame pnl_row) (signal : signal_row)
    : Py.exn + option example :=
  if bool_decide (parse_features (s_features signal) = ∅) then inr None
  else
    let value := s_timestamp signal in
    if bool_decide (value < NaT ∨ Timestamp_max < value)
    then inl Py.OutOfBoundsDatetime
    else
      match pnl_df with
      | NoColumns => inl (Py.KeyError "timestamp")
      | Table pnl =>
        if bool_decide (to_datetime value = NaT) then inr (build_example [] signal)
        else if bool_decide (Timestamp_max < to_datetime value + Timedelta_hours 1)
        then inl Py.OutOfBoundsDatetime
        else inr (build_example pnl signal)
      end.

(** [for idx, signal in signals_df.iterrows()], with [training_examples]
    the list built so far. *)
Fixpoint examples_loop (pnl_df : frame pnl_row) (signals : list signal_row)
    (training_examples : list example) : Py.exn + list example :=
  match signals with
  | [] => inr training_examples
  | signal :: rest =>
    match example_of_signal pnl_df signal with
    | inl e => inl e
    | inr None => examples_loop pnl_df rest training_examples
    | inr (Some example) =>
      examples_loop pnl_df rest (training_examples ++ [example])
    end
  end.

(** [create_training_examples] on frames: [signals_df['features']] needs
    the column. *)
Definition create_training_examples (signals_df : frame signal_row)
    (pnl_df : frame pnl_row) : M (list example) :=
  match signals_df with
  | NoColumns => raise (Py.KeyError "features")
  | Table signals =>
    match examples_loop pnl_df signals [] with
    | inl e => raise e
    | inr examples =>
      logger INFO ("Created " +:+ Py.str_nat (length examples)
                   +:+ " training examples");;
      mret examples
    end
  end.

(** *** [format_for_training] *)

Record formatted_example : Type := Formatted {
  instruction : string;
  output : string;
  input : string
}.

Definition nl : string := String (ascii_of_nat 10) EmptyString.

Definition render_instruction (ex : example) : string :=
  let features := features_of ex in
  "Analyze this trading signal:" +:+ nl +:+
  "Price: $" +:+ Py.format_f 2 (price features) +:+ nl +:+
  "Volume Z-Score: " +:+ Py.format_f 2 (volumeZ features) +:+ nl +:+
  "Body/ATR Ratio: " +:+ Py.format_f 3 (bodyOverAtr features) +:+ nl +:+
  "Spread: " +:+ Py.format_f 1 (spreadBps features) +:+ " bps" +:+ nl +:+
  "Realized Vol: " +:+ Py.format_f 2 (realizedVol features) +:+ "%" +:+ nl +:+
  "Funding Rate: " +:+ Py.format_f 4 (fundingRate features) +:+ "%" +:+ nl +:+
  nl +:+
  "AI Decision: " +:+ ai_decision ex +:+ nl +:+
  "AI Confidence: " +:+ Py.format_f 2 (ai_confidence ex) +:+ nl +:+
  "E3 Trigger: " +:+ e3_trigger ex +:+ nl +:+
  nl +:+
  "Based on these market conditions, predict the trade outcome:".

Definition market_regime (l : labels) : string :=
  if Py.Qgtb (Qabs (pnl l)) 1 then "trending" else "ranging".

Definition render_target (l : labels) : string :=
  "Trade Analysis:" +:+ nl +:+
  "Profitable: " +:+ Py.str_bool (profitable l) +:+ nl +:+
  "Expected PnL: $" +:+ Py.format_f 2 (pnl l) +:+ nl +:+
  "Optimal Hold Time: " +:+ Py.str_int (hold_time l) +:+ " minutes" +:+ nl +:+
  "Exit Strategy: " +:+ exit_reason l +:+ nl +:+
  "Market Regime: " +:+ market_regime l.

Definition format_example (ex : example) : formatted_example :=
  {| instruction := render_instruction ex;
     output := render_target (labels_of ex);
     input := "" |}.

Definition format_for_training (examples : list example) : list formatted_example :=
  map format_example examples.

(** *** [save_training_data] *)

(** [dataset_stats.json], without [created_at] (the wall clock). *)
Record stats : Type := Stats {
  total_examples : nat;
  train_examples : nat;
  eval_examples : nat;
  profitable_trades : nat;
  unprofitable_trades : nat
}.

(** The three files under [training/data]. *)
Record dataset : Type := Dataset {
  train_json : list formatted_example;
  eval_json : list formatted_example;
  dataset_stats : stats
}.

(** [sum(1 for ex in examples if needle in ex['output'])] *)
Definition count_outputs (needle : string) (examples : list formatted_example) : nat :=
  length (List.filter (λ ex, Py.contains needle (output ex)) examples).

(** Used in statements only: the exit reason of the example contains the
    literal of the label that the example does not have. *)
Definition opposite_literal_in_reason (ex : example) : bool :=
  let l := labels_of ex in
  if profitable l then Py.contains "Profitable: False" (exit_reason l)
  else Py.contains "Profitable: True" (exit_reason l).

(** [int(len(examples) * train_split)]: the length is converted to a
    float and the product is a float; [split] is the number written in
    the configuration, which YAML reads as the nearest binary64 number. *)
Definition train_size (n : nat) (split : Q) : Z :=
  Py.int_of_float
    (Py.float_mul (Py.float_of_int (Z.of_nat n)) (Py.nearest_double split)).

Definition compute_stats (examples train eval : list formatted_example) : stats :=
  {| total_examples := length examples;
     train_examples := length train;
     eval_examples := length eval;
     profitable_trades := count_outputs "Profitable: True" examples;
     unprofitable_trades := count_outputs "Profitable: False" examples |}.

Definition save_training_data (split : Q) (examples : list formatted_example)
    : M dataset :=
  let size := train_size (length examples) split in
  let train := Py.slice_stop examples size in
  let eval := Py.slice_start examples size in
  logger INFO ("Saved " +:+ Py.str_nat (length train)
               +:+ " training examples to training/data/train.json");;
  logger INFO ("Saved " +:+ Py.str_nat (length eval)
               +:+ " evaluation examples to training/data/eval.json");;
  logger INFO "Dataset statistics saved to training/data/dataset_stats.json";;
  mret {| train_json := train;
          eval_json := eval;
          dataset_stats := compute_stats examples train eval |}.

(** *** Combining the live and the backtest source *)

(** [df.sort_values('timestamp')]: rows are ordered by the key alone.
    pandas sorts with NumPy's quicksort, which promises nothing about rows
    with the same key; here they stay in their input order, and the
    statements below either do not depend on the order of such rows or
    say for which order they are made. *)
Fixpoint insert_by {A} (key : A → Z) (x : A) (sorted : list A) : list A :=
  match sorted with
  | [] => [x]
  | y :: sorted' =>
    if key x <=? key y then x :: y :: sorted'
    else y :: insert_by key x sorted'
  end.

Definition sort_values {A} (key : A → Z) (rows : list A) : list A :=
  foldr (insert_by key) [] rows.

(** Used in statements only: the order that [sort_values] establishes. *)
Definition key_le {A} (key : A → Z) (x y : A) : Prop := key x ≤ key y.

(** A backtest row seen through the five signal columns. *)
Definition signal_of_backtest (row : backtest_row) : signal_row :=
  {| s_timestamp := b_timestamp row;
     s_decision := b_decision row;
     s_confidence := 1%Q;
     s_trigger := "backtest";
     s_features := b_features row |}.

(** The synthetic PnL record made for a backtest row. *)
Definition pnl_of_backtest (row : backtest_row) : pnl_row :=
  {| p_timestamp := b_timestamp row;
     p_symbol := "SOL-PERP";
     p_pnl := b_pnl row;
     p_exit_reason := "backtest" |}.

(** The two [pd.concat] and the two [sort_values] of [run]. *)
Definition combine_signals (signals : list signal_row) (backtest : list backtest_row)
    : list signal_row :=
  sort_values s_timestamp (signals ++ map signal_of_backtest backtest).

Definition combine_pnl (pnl_df : frame pnl_row) (backtest : list backtest_row)
    : list pnl_row :=
  let backtest_pnl := map pnl_of_backtest backtest in
  sort_values p_timestamp
    (if empty pnl_df then backtest_pnl
     else match pnl_df with
          | Table pnl => pnl ++ backtest_pnl
          | NoColumns => backtest_pnl
          end).

(** The same step with the operands of both [pd.concat] exchanged.  The
    script never does this; the definition only serves to state that the
    order of concatenation is not observable. *)
Definition combine_signals_swapped (signals : list signal_row)
    (backtest : list backtest_row) : list signal_row :=
  sort_values s_timestamp (map signal_of_backtest backtest ++ signals).

Definition combine_pnl_swapped (pnl_df : frame pnl_row) (backtest : list backtest_row)
    : list pnl_row :=
  let backtest_pnl := map pnl_of_backtest backtest in
  sort_values p_timestamp
    (if empty pnl_df then backtest_pnl
     else match pnl_df with
          | Table pnl => backtest_pnl ++ pnl
          | NoColumns => backtest_pnl
          end).

(** *** [run] *)

(** The block under [if not backtest_df.empty:]. *)
Definition combine (signals_df : frame signal_row) (pnl_df : frame pnl_row)
    (backtest : list backtest_row) : M (frame signal_row * frame pnl_row) :=
  match signals_df with
  | NoColumns => raise (Py.KeyError "timestamp")
  | Table signals =>
    let signals' := combine_signals signals backtest in
    let pnl' := combine_pnl pnl_df backtest in
    logger INFO ("Combined dataset: " +:+ Py.str_nat (length signals')
                 +:+ " total signals (" +:+ Py.str_nat (length backtest)
                 +:+ " from backtest)");;
    mret (Table signals', Table pnl')
  end.

(** [run]: [None] is an early [return], [Some d] the files written. *)
Definition run (w : world) : M (option dataset) :=
  logger INFO "Starting data preparation for LoRA training...";;
  value ← load_trading_data w;
  '(signals_df, pnl_df) ← unpack_two value;
  backtest_df ← load_backtest_data w;
  '(signals_df, pnl_df) ←
    (if negb (empty backtest_df) then
       match backtest_df with
       | Table backtest => combine signals_df pnl_df backtest
       | NoColumns => mret (signals_df, pnl_df)
       end
     else mret (signals_df, pnl_df));
  if empty signals_df then
    logger ERROR "No trading data found. Cannot proceed with training.";;
    mret None
  else
    examples ← create_training_examples signals_df pnl_df;
    match examples with
    | [] =>
      logger ERROR "No training examples created. Check your data.";;
      mret None
    | _ :: _ =>
      let formatted_examples := format_for_training examples in
      d ← save_training_data (train_split w) formatted_examples;
      logger INFO "Data preparation completed successfully!";;
      mret (Some d)
    end.

End Prepare.

(** ** [evaluate_model.py] *)

Module Evaluate.

(** [is_prediction_correct] *)
Definition is_prediction_correct (prediction expected : string) : bool :=
  let pred_profitable := Py.contains "Profitable: True" prediction in
  let expected_profitable := Py.contains "Profitable: True" expected in
  Bool.eqb pred_profitable expected_profitable.

(** An element of [results[model]["predictions"]]. *)
Record prediction : Type := Prediction {
  prompt : string;
  expected : string;
  predicted : string;
  correct : bool
}.

(** [results[model]] *)
Record model_results : Type := ModelResults {
  correct_count : nat;
  total : nat;
  predictions : list prediction
}.

Section Predictions.

(** [generate_response(model, prompt)] samples from an external model;
    the parameter gives the text sampled for the [i]-th example.  The
    script runs the same steps for the base model and, when an adapter is
    loaded, for the adapted model; one model is followed here. *)
Variable generate_response : nat → string → string.

Definition response_prompt (ex : Prepare.formatted_example) : string :=
  "### Instruction:" +:+ Prepare.nl +:+ Prepare.instruction ex +:+ Prepare.nl
  +:+ Prepare.nl +:+ "### Response:" +:+ Prepare.nl.

(** The loop of [evaluate_predictions] for one model. *)
Fixpoint evaluate_loop (i : nat) (test_data : list Prepare.formatted_example)
    (results : model_results) : model_results :=
  match test_data with
  | [] => results
  | ex :: rest =>
    let expected := Prepare.output ex in
    let model_prediction := generate_response i (response_prompt ex) in
    let model_correct := is_prediction_correct model_prediction expected in
    evaluate_loop (S i) rest
      {| correct_count :=
           if model_correct then S (correct_count results) else correct_count results;
         total := S (total results);
         predictions :=
           predictions results ++
           [{| prompt := Prepare.instruction ex;
               expected := expected;
               predicted := model_prediction;
               correct := model_correct |}] |}
  end.

Definition evaluate_predictions (test_data : list Prepare.formatted_example)
    : model_results :=
  evaluate_loop 0 (take 50 test_data)
    {| correct_count := 0; total := 0; predictions := [] |}.

End Predictions.

End Evaluate.

(** ** Concrete inputs used in the statements below *)

Module Samples.

Import Prepare.

(** The labels of the round-trip example. *)
Definition labels_tp : labels :=
  {| profitable := true; pnl := 25 # 2; hold_time := 30; exit_reason := "tp" |}.

Definition example_tp : example :=
  {| timestamp := 1700000000000;
     features_of := InputFeatures (150 # 1) 0 0 0 0 0 0 0 0 0;
     ai_decision := "LONG"; ai_confidence := 9 # 10; e3_trigger := "e3";
     labels_of := labels_tp |}.

(** The labels of a signal without any PnL row in its window. *)
Definition labels_no_trade : labels :=
  {| profitable := false; pnl := 0%Q; hold_time := 0; exit_reason := "no_trade" |}.

Definition features_price : features_cell :=
  FeaturesObject {[ "price" := 150 # 1 ]}.

(** A losing trade whose exit reason, as stored in the [reason] column,
    is the text [Profitable: True]. *)
Definition signal_loss : signal_row :=
  {| s_timestamp := 1700000000000; s_decision := "LONG"; s_confidence := 9 # 10;
     s_trigger := "e3"; s_features := features_price |}.

Definition pnl_loss : pnl_row :=
  {| p_timestamp := 1700000060000; p_symbol := "SOL-PERP"; p_pnl := -1 # 1;
     p_exit_reason := "Profitable: True" |}.

Definition labels_loss : labels :=
  {| profitable := false; pnl := -1 # 1; hold_time := 60;
     exit_reason := "Profitable: True" |}.

Definition example_loss : example :=
  {| timestamp := 1700000000000;
     features_of := InputFeatures (150 # 1) 0 0 0 0 0 0 0 0 0;
     ai_decision := "LONG"; ai_confidence := 9 # 10; e3_trigger := "e3";
     labels_of := labels_loss |}.

(** A PnL record one millisecond after the hour that follows
    [signal_loss]. *)
Definition pnl_late : pnl_row :=
  {| p_timestamp := 1700000000000 + 3600001; p_symbol := "SOL-PERP";
     p_pnl := 7 # 1; p_exit_reason := "tp" |}.

(** A live signal, a live PnL record and a backtest row that all carry
    the same timestamp. *)
Definition signal_live : signal_row :=
  {| s_timestamp := 1000; s_decision := "LONG"; s_confidence := 1 # 2;
     s_trigger := "e3"; s_features := features_price |}.

Definition pnl_live : pnl_row :=
  {| p_timestamp := 1000; p_symbol := "SOL-PERP"; p_pnl := 1 # 1;
     p_exit_reason := "tp" |}.

Definition row_backtest : backtest_row :=
  {| b_timestamp := 1000; b_decision := "SHORT";
     b_features := FeaturesObject {[ "hold_time_minutes" := 2 # 1 ]};
     b_pnl := 5 # 1; b_profitable := 1; b_hold_time := 2 # 1 |}.

(** The examples built from them, with the sources concatenated as [run]
    does and with the operands of [pd.concat] exchanged. *)
Definition examples_tied : list example :=
  training_examples
    (combine_signals [signal_live] [row_backtest])
    (combine_pnl (Table [pnl_live]) [row_backtest]).

Definition examples_tied_swapped : list example :=
  training_examples
    (combine_signals_swapped [signal_live] [row_backtest])
    (combine_pnl_swapped (Table [pnl_live]) [row_backtest]).

(** The decision and the exit reason of an example. *)
Definition decision_and_reason (ex : example) : string * string :=
  (ai_decision ex, exit_reason (labels_of ex)).

(** The same three with distinct timestamps. *)
Definition pnl_live_later : pnl_row :=
  {| p_timestamp := 1500; p_symbol := "SOL-PERP"; p_pnl := 1 # 1;
     p_exit_reason := "tp" |}.

Definition row_backtest_later : backtest_row :=
  {| b_timestamp := 2000; b_decision := "SHORT";
     b_features := FeaturesObject {[ "hold_time_minutes" := 2 # 1 ]};
     b_pnl := 5 # 1; b_profitable := 1; b_hold_time := 2 # 1 |}.

(** A configuration whose live database file is absent. *)
Definition world_without_db : world :=
  {| db_path := "var/trading.db"; db_exists := false;
     db_content := inl "unable to open database file";
     backtest_exists := false;
     backtest_content := inl "unable to open database file";
     train_split := 8 # 10 |}.

(** Renders every instant as its number of milliseconds. *)
Definition iso_stub (ms : Z) : option string := Some (Py.str_int ms).

End Samples.

(** ** The backtest signal store

    [save_backtest_signals] of [extract_backtest_data.py] writes the table
    [backtest_signals] that [load_backtest_data] of [prepare_data.py]
    reads.  The table is the list of its rows in insertion order.  The
    [id] column, which SQLite assigns and no query of the scripts selects,
    is left out, and so is the line printed at the end. *)

Module BacktestStore.

(** The dictionary [features] built for each signal; the [features]
    column holds its [json.dumps]. *)
Record features : Type := Features {
  price_change_pct : Q;
  hold_time_minutes : Q;
  features_side : string
}.

(** A row of [backtest_signals]. *)
Record stored_signal : Type := Stored {
  timestamp : Z;
  side : string;
  entry_price : Q;
  exit_price : Q;
  pnl : Q;
  hold_time : Q;
  profitable : Z;
  entry_time : string;
  exit_time : string;
  features_json : features
}.

(** The database file: absent, or holding the table. *)
Definition store : Type := option (list stored_signal).

(** What a call leaves behind: the committed table, and whether the call
    returned or raised. *)
Inductive outcome : Type :=
  | Saved (table : list stored_signal)
  | Raised (e : Py.exn) (table : list stored_signal).

(** The integers that SQLite stores: the binding of a Python [int]
    outside 64 bits raises [OverflowError]. *)
Definition sqlite_integer (n : Z) : Prop := - 2 ^ 63 ≤ n ≤ 2 ^ 63 - 1.

(** The [features] dictionary; the division raises for a zero entry
    price ([None]). *)
Definition features_of_signal (signal : Backtest.signal) : option features :=
  if Qeq_bool (Backtest.entry_price signal) 0 then None
  else
    Some {|
      price_change_pct :=
        ((Backtest.exit_price signal - Backtest.entry_price signal)
         / Backtest.entry_price signal)%Q;
      hold_time_minutes := Backtest.hold_time signal;
      features_side := Backtest.signal_side signal
    |}.

(** One iteration up to the [INSERT]: the [features] dictionary is built
    first, then the tuple is bound and the row inserted. *)
Definition row_of_signal (signal : Backtest.signal) : Py.exn + stored_signal :=
  match features_of_signal signal with
  | None => inl Py.ZeroDivisionError
  | Some features =>
    if bool_decide (sqlite_integer (Backtest.timestamp signal)) then
      inr {|
        timestamp := Backtest.timestamp signal;
        side := Backtest.signal_side signal;
        entry_price := Backtest.entry_price signal;
        exit_price := Backtest.exit_price signal;
        pnl := Backtest.pnl signal;
        hold_time := Backtest.hold_time signal;
        profitable := if Backtest.profitable signal then 1 else 0;
        entry_time := Backtest.entry_time signal;
        exit_time := Backtest.exit_time signal;
        features_json := features
      |}
    else inl Py.OverflowError
  end.

(** Used in statements: a signal whose iteration does not raise. *)
Definition insertable (signal : Backtest.signal) : Prop :=
  ¬ (Backtest.entry_price signal == 0)%Q ∧
  sqlite_integer (Backtest.timestamp signal).

(** [for signal in signals]: the rows inserted so far in the open
    transaction. *)
Fixpoint insert_signals (signals : list Backtest.signal)
    (inserted : list stored_signal) : Py.exn + list stored_signal :=
  match signals with
  | [] => inr inserted
  | signal :: rest =>
    match row_of_signal signal with
    | inl e => inl e
    | inr row => insert_signals rest (inserted ++ [row])
    end
  end.

(** [save_backtest_signals]: [connect] creates the file, [CREATE TABLE IF
    NOT EXISTS] the table; the inserts are committed together at the end,
    and an exception leaves the connection without a commit, so none of
    them persists. *)
Definition save_backtest_signals (signals : list Backtest.signal) (db : store)
    : outcome :=
  let table := default [] db in
  match insert_signals signals [] with
  | inr inserted => Saved (table ++ inserted)
  | inl e => Raised e table
  end.

(** The file after the call. *)
Definition store_after (result : outcome) : store :=
  match result with
  | Saved table => Some table
  | Raised _ table => Some table
  end.

(** [json.loads] of the [features] column, as [parse_features] sees it:
    the numeric entries of the dictionary (the entry [side] is a string;
    it is no feature that the example builder reads). *)
Definition features_cell_of (f : features) : Prepare.features_cell :=
  Prepare.FeaturesObject
    (<["price_change_pct" := price_change_pct f]>
       {["hold_time_minutes" := hold_time_minutes f]}).

(** One row of the query of [load_backtest_data]. *)
Definition query_row (row : stored_signal) : Prepare.backtest_row :=
  {| Prepare.b_timestamp := timestamp row;
     Prepare.b_decision := side row;
     Prepare.b_features := features_cell_of (features_json row);
     Prepare.b_pnl := pnl row;
     Prepare.b_profitable := profitable row;
     Prepare.b_hold_time := hold_time row |}.

(** [SELECT ... FROM backtest_signals ORDER BY timestamp].  The order of
    rows with the same timestamp is the one [sort_values] gives; no
    statement below depends on it. *)
Definition backtest_query (table : list stored_signal) : list Prepare.backtest_row :=
  Prepare.sort_values Prepare.b_timestamp (map query_row table).

(** The world of [prepare_data.py] when the backtest database is [db]. *)
Definition with_store (w : Prepare.world) (db : store) : Prepare.world :=
  {| Prepare.db_path := Prepare.db_path w;
     Prepare.db_exists := Prepare.db_exists w;
     Prepare.db_content := Prepare.db_content w;
     Prepare.backtest_exists := bool_decide (is_Some db);
     Prepare.backtest_content := inr (backtest_query (default [] db));
     Prepare.train_split := Prepare.train_split w |}.

End BacktestStore.

(** ** What [run] prepares, for the statements about it *)

Module Pipeline.

Import Prepare.

(** The rows of [backtest_df]: none when the file is absent or the query
    raises. *)
Definition loaded_backtest (w : world) : list backtest_row :=
  if backtest_exists w then
    match backtest_content w with
    | inr rows => rows
    | inl _ => []
    end
  else [].

(** The two tables that [run] hands to [create_training_examples] when
    the live queries succeed: the combining step is skipped when there is
    no backtest row. *)
Definition prepared_signals (signals : list signal_row)
    (backtest : list backtest_row) : list signal_row :=
  match backtest with
  | [] => signals
  | _ :: _ => combine_signals signals backtest
  end.

Definition prepared_pnl (pnl : list pnl_row) (backtest : list backtest_row)
    : list pnl_row :=
  match backtest with
  | [] => pnl
  | _ :: _ => combine_pnl (Table pnl) backtest
  end.

(** The live signals and the backtest rows, as signals. *)
Definition all_signals (signals : list signal_row) (backtest : list backtest_row)
    : list signal_row :=
  signals ++ map signal_of_backtest backtest.

Definition all_pnl (pnl : list pnl_row) (backtest : list backtest_row)
    : list pnl_row :=
  pnl ++ map pnl_of_backtest backtest.

(** The rows of a frame. *)
Definition frame_rows {R} (df : frame R) : list R :=
  match df with
  | NoColumns => []
  | Table rows => rows
  end.

(** The signal has a non-empty parsed feature mapping. *)
Definition has_features (signal : signal_row) : Prop :=
  parse_features (s_features signal) ≠ ∅.

#[global] Instance has_features_dec signal : Decision (has_features signal).
Proof. unfold has_features. apply _. Defined.

(** The iteration for this signal raises [OutOfBoundsDatetime]. *)
Definition raises_out_of_bounds (signal : signal_row) : Prop :=
  has_features signal ∧ out_of_bounds (s_timestamp signal).

(** No iteration raises and no signal with features is [NaT]. *)
Definition timestamps_within_bounds (signals : list signal_row) : Prop :=
  ∀ signal, signal ∈ signals → has_features signal →
            within_bounds (s_timestamp signal).

End Pipeline.

(** ** [calculate_metrics] of [evaluate_model.py] *)

Module Metrics.

(** An entry of the dictionary [metrics]. *)
Record metrics : Type := MetricsOf {
  accuracy : Q;
  precision : Q;
  recall : Q;
  f1_score : Q;
  total_examples : nat;
  correct_predictions : nat
}.

(** [a / b] on two [int]. *)
Definition ratio (a b : nat) : Q :=
  (inject_Z (Z.of_nat a) / inject_Z (Z.of_nat b))%Q.

(** [sum(1 for pred in predictions if p in pred["predicted"] and e in
    pred["expected"])] *)
Definition count_predictions (p e : string) (predictions : list Evaluate.prediction)
    : nat :=
  length (List.filter
    (λ pred, Py.contains p (Evaluate.predicted pred) &&
             Py.contains e (Evaluate.expected pred)) predictions).

Definition true_positives (r : Evaluate.model_results) : nat :=
  count_predictions "Profitable: True" "Profitable: True" (Evaluate.predictions r).

Definition false_positives (r : Evaluate.model_results) : nat :=
  count_predictions "Profitable: True" "Profitable: False" (Evaluate.predictions r).

Definition false_negatives (r : Evaluate.model_results) : nat :=
  count_predictions "Profitable: False" "Profitable: True" (Evaluate.predictions r).

(** The body of the loop of [calculate_metrics]. *)
Definition model_metrics (model_results : Evaluate.model_results) : metrics :=
  let accuracy :=
    if bool_decide (0 < Evaluate.total model_results)%nat
    then ratio (Evaluate.correct_count model_results) (Evaluate.total model_results)
    else 0%Q in
  let true_positives := true_positives model_results in
  let false_positives := false_positives model_results in
  let false_negatives := false_negatives model_results in
  let precision :=
    if bool_decide (0 < true_positives + false_positives)%nat
    then ratio true_positives (true_positives + false_positives)
    else 0%Q in
  let recall :=
    if bool_decide (0 < true_positives + false_negatives)%nat
    then ratio true_positives (true_positives + false_negatives)
    else 0%Q in
  let f1_score :=
    if Py.Qgtb (precision + recall) 0
    then (2 * (precision * recall) / (precision + recall))%Q
    else 0%Q in
  {| accuracy := accuracy;
     precision := precision;
     recall := recall;
     f1_score := f1_score;
     total_examples := Evaluate.total model_results;
     correct_predictions := Evaluate.correct_count model_results |}.

(** [calculate_metrics]: the models whose results are [None] are skipped. *)
Definition calculate_metrics (results : list (string * option Evaluate.model_results))
    : list (string * metrics) :=
  omap (λ '(model_name, model_results),
          r ← model_results; Some (model_name, model_metrics r)) results.

End Metrics.

(** ** [tokenize_function] of [train_lora.py] *)

Module Trainer.

(** The text built for one pair of the batch, before the tokenizer. *)
Definition training_text (eos_token instruction output : string) : string :=
  "### Instruction:" +:+ Prepare.nl +:+ instruction +:+ Prepare.nl +:+ Prepare.nl
  +:+ "### Response:" +:+ Prepare.nl +:+ output +:+ eos_token.

(** [texts], for the columns [examples['instruction']] and
    [examples['output']]. *)
Definition training_texts (eos_token : string) (instructions outputs : list string)
    : list string :=
  zip_with (training_text eos_token) instructions outputs.

End Trainer.

(** ** More concrete inputs *)

Module Cases.

Import Prepare.

(** The live database exists and cannot be queried; no backtest file. *)
Definition world_unreadable : world :=
  {| db_path := "var/trading.db"; db_exists := true;
     db_content := inl "no such table: signals";
     backtest_exists := false;
     backtest_content := inl "unable to open database file";
     train_split := 8 # 10 |}.

(** The live database holds one signal and one PnL record; no backtest
    file. *)
Definition world_live : world :=
  {| db_path := "var/trading.db"; db_exists := true;
     db_content := inr ([Samples.signal_loss], [Samples.pnl_loss]);
     backtest_exists := false;
     backtest_content := inl "unable to open database file";
     train_split := 8 # 10 |}.

(** A signal stamped less than one hour of nanoseconds before the last
    instant, and a live database that holds it alone. *)
Definition signal_far_future : signal_row :=
  {| s_timestamp := 2 ^ 63 - 1; s_decision := "LONG"; s_confidence := 9 # 10;
     s_trigger := "e3"; s_features := Samples.features_price |}.

Definition world_far_future : world :=
  {| db_path := "var/trading.db"; db_exists := true;
     db_content := inr ([signal_far_future], []);
     backtest_exists := false;
     backtest_content := inl "unable to open database file";
     train_split := 8 # 10 |}.


(** The signal derived from [SHORT@50@t=0, FLAT@45@t=120000], and the
    table that holds it alone. *)
Definition signal_short : Backtest.signal :=
  {| Backtest.timestamp := 0; Backtest.signal_side := "SHORT";
     Backtest.entry_price := 50; Backtest.exit_price := 45;
     Backtest.pnl := 50 - 45;
     Backtest.hold_time := inject_Z (120000 - 0) / inject_Z (1000 * 60);
     Backtest.profitable := true;
     Backtest.entry_time := "0"; Backtest.exit_time := "120000" |}.

(** The same signal stamped beyond the 64-bit integers. *)
Definition signal_too_large : Backtest.signal :=
  {| Backtest.timestamp := 2 ^ 63; Backtest.signal_side := "SHORT";
     Backtest.entry_price := 50; Backtest.exit_price := 45;
     Backtest.pnl := 50 - 45;
     Backtest.hold_time := inject_Z (120000 - 0) / inject_Z (1000 * 60);
     Backtest.profitable := true;
     Backtest.entry_time := "0"; Backtest.exit_time := "120000" |}.

Definition stored_short : BacktestStore.stored_signal :=
  {| BacktestStore.timestamp := 0; BacktestStore.side := "SHORT";
      BacktestStore.entry_price := 50; BacktestStore.exit_price := 45;
      BacktestStore.pnl := 50 - 45;
      BacktestStore.hold_time := inject_Z (120000 - 0) / inject_Z (1000 * 60);
      BacktestStore.profitable := 1;
      BacktestStore.entry_time := "0"; BacktestStore.exit_time := "120000";
      BacktestStore.features_json :=
        {| BacktestStore.price_change_pct := (45 - 50) / 50;
           BacktestStore.hold_time_minutes :=
             inject_Z (120000 - 0) / inject_Z (1000 * 60);
           BacktestStore.features_side := "SHORT" |} |}.

Definition table_short : list BacktestStore.stored_signal := [stored_short].

(** The live database of [world_live], with the backtest database
    holding [table_short]. *)
Definition world_both : world :=
  BacktestStore.with_store world_live (Some table_short).


Definition results_always_false : Evaluate.model_results :=
  Evaluate.evaluate_predictions (λ _ _, "Profitable: False")
    (format_for_training [Samples.example_tp]).

End Cases.

(** * Facts *)

(** ** Rendering and substring search *)

Example format_f_examples :
  Py.format_f 2 (25 # 2) = "12.50" /\
  Py.format_f 2 0 = "0.00" /\
  Py.format_f 2 (-1 # 1000) = "-0.00" /\
  Py.format_f 2 (1 # 8) = "0.12" /\
  Py.format_f 2 (3 # 8) = "0.38" /\
  Py.format_f 3 (-7 # 3) = "-2.333" /\
  Py.format_f 1 (1999 # 100) = "20.0" /\
  Py.str_int (-42) = "-42" /\
  Py.str_int 0 = "0".
Proof. repeat split; reflexivity. Qed.

Section Substring.

Import Py.

Lemma append_cons x (a b : string) : String x a +:+ b = String x (a +:+ b).
Proof. reflexivity. Qed.

Lemma append_nil_l (b : string) : "" +:+ b = b.
Proof. reflexivity. Qed.

Lemma append_nil_r (a : string) : a +:+ "" = a.
Proof. induction a as [|x a IH]; [done | by rewrite append_cons, IH]. Qed.

Lemma append_assoc (a b c : string) : (a +:+ b) +:+ c = a +:+ (b +:+ c).
Proof. induction a as [|x a IH]; [done | by rewrite !append_cons, IH]. Qed.

Lemma char_in_head_false x c p :
  char_in x (String c p) = false → Ascii.eqb c x = false ∧ char_in x p = false.
Proof.
  simpl. intros [H1 H2]%orb_false_elim. split; [|done].
  by rewrite Ascii.eqb_sym.
Qed.

(** A character that the needle does not use stops every match. *)
Lemma startswith_stop p a x b :
  char_in x p = false →
  startswith p (a +:+ String x b) = startswith p a.
Proof.
  revert a. induction p as [|c p IH]; intros a Hx; [by destruct a|].
  apply char_in_head_false in Hx as [Hc Hp].
  destruct a as [|y a]; [rewrite append_nil_l | rewrite append_cons]; simpl.
  - by rewrite Hc.
  - destruct (Ascii.eqb c y); [by apply IH | done].
Qed.

(** ... so the search can be done on either side of it. *)
Lemma contains_split p a x b :
  char_in x p = false →
  contains p (a +:+ String x b) = contains p a || contains p b.
Proof.
  intros Hx. induction a as [|y a IH].
  - rewrite append_nil_l. simpl. rewrite <- (append_nil_l (String x b)).
    rewrite (startswith_stop p "" x b Hx).
    by destruct p.
  - change (String y a +:+ String x b) with (String y (a +:+ String x b)).
    change (contains p (String y (a +:+ String x b)))
      with (startswith p (String y (a +:+ String x b)) || contains p (a +:+ String x b)).
    change (String y (a +:+ String x b)) with (String y a +:+ String x b).
    rewrite (startswith_stop p (String y a) x b Hx), IH.
    simpl. by rewrite !orb_assoc.
Qed.

Lemma contains_nil_nonempty c p : contains (String c p) "" = false.
Proof. done. Qed.

(** A text written with characters foreign to the needle contributes
    nothing, neither alone nor in front of another text. *)
Lemma contains_avoids_app c p s b :
  avoids (String c p) s = true →
  contains (String c p) (s +:+ b) = contains (String c p) b.
Proof.
  induction s as [|x s IH]; [done|].
  simpl avoids. intros [Hx Hs]%andb_prop. apply negb_true_iff in Hx.
  change (String x s +:+ b) with ("" +:+ String x (s +:+ b)).
  rewrite contains_split by done. by rewrite IH.
Qed.

Lemma contains_avoids c p s :
  avoids (String c p) s = true → contains (String c p) s = false.
Proof.
  intros Hs. rewrite <- (append_nil_r s).
  by rewrite (contains_avoids_app c p s "" Hs).
Qed.

(** A prefix in which the first character of the needle does not occur
    can be dropped. *)
Lemma contains_skip c p a s :
  char_in c a = false →
  contains (String c p) (a +:+ s) = contains (String c p) s.
Proof.
  induction a as [|y a IH]; [done|].
  intros [Hy Ha]%char_in_head_false.
  change (String y a +:+ s) with (String y (a +:+ s)).
  simpl. rewrite Ascii.eqb_sym in Hy. rewrite Hy. simpl. by apply IH.
Qed.

Lemma made_of_app alphabet s t :
  made_of alphabet (s +:+ t) = made_of alphabet s && made_of alphabet t.
Proof.
  induction s as [|x s IH]; [done|].
  rewrite append_cons. simpl. by rewrite IH, andb_assoc.
Qed.

Lemma char_in_avoids p alphabet x :
  avoids p alphabet = true → char_in x alphabet = true → char_in x p = false.
Proof.
  induction alphabet as [|a alphabet IH]; simpl; [done|].
  intros [Ha Hrest]%andb_prop [Hx | Hx]%orb_prop.
  - apply Ascii.eqb_eq in Hx as ->. by apply negb_true_iff.
  - by apply IH.
Qed.

Lemma made_of_avoids p alphabet s :
  avoids p alphabet = true → made_of alphabet s = true → avoids p s = true.
Proof.
  intros Hp. induction s as [|x s IH]; simpl; [done|].
  intros [Hx Hs]%andb_prop.
  rewrite (char_in_avoids p alphabet x Hp Hx). simpl. by apply IH.
Qed.

Lemma made_of_uint d : made_of "-.0123456789" (NilEmpty.string_of_uint d) = true.
Proof. induction d; simpl; done. Qed.

Lemma made_of_str_int z : made_of "-.0123456789" (str_int z) = true.
Proof.
  unfold str_int, NilZero.string_of_int.
  assert (Hd : ∀ d, made_of "-.0123456789" (NilZero.string_of_uint d) = true).
  { intros d. pose proof (made_of_uint d) as H. by destruct d. }
  destruct (Z.to_int z); simpl; by rewrite ?Hd.
Qed.

Lemma str_int_nonempty z : ∃ x s, str_int z = String x s.
Proof.
  unfold str_int, NilZero.string_of_int.
  destruct (Z.to_int z) as [d|d]; [|by eauto].
  destruct d; simpl; eauto.
Qed.

Lemma made_of_zeros n : made_of "-.0123456789" (zeros n) = true.
Proof. induction n; simpl; done. Qed.

Lemma made_of_format_f prec x : made_of "-.0123456789" (format_f prec x) = true.
Proof.
  unfold format_f, zfill.
  destruct prec as [|prec];
    rewrite !made_of_app, ?made_of_zeros, !made_of_str_int;
    by destruct (Qnum x <? 0).
Qed.

End Substring.

(** ** Rounding to binary64 *)

Section Rounding.

Import Py.

(** [round_half_even n d] is within one half of [n / d], and even when
    [n / d] is half way between two integers. *)
Lemma round_half_even_spec (n d : Z) :
  0 < d →
  let m := round_half_even n d in
  2 * n - d ≤ 2 * d * m ≤ 2 * n + d ∧
  (2 * d * m = 2 * n + d → Z.even m = true) ∧
  (2 * d * m = 2 * n - d → Z.even m = true).
Proof.
  intros Hd. cbv zeta. unfold round_half_even.
  pose proof (Z.div_mod n d ltac:(lia)) as Hn.
  pose proof (Z.mod_pos_bound n d Hd) as Hr.
  set (q := n / d) in *. set (r := n mod d) in *.
  destruct (Z.ltb_spec (2 * r) d) as [Hlt | Hge]; [nia|].
  destruct (Z.ltb_spec d (2 * r)) as [Hgt | Hle]; [nia|].
  destruct (Z.even q) eqn:Heven; [split; [nia | done]|].
  split; [nia|].
  assert (Hodd : Z.even (q + 1) = true).
  { rewrite Z.even_add, Heven. reflexivity. }
  done.
Qed.

Lemma round_half_even_mono (n1 d1 n2 d2 : Z) :
  0 < d1 → 0 < d2 → n1 * d2 ≤ n2 * d1 →
  round_half_even n1 d1 ≤ round_half_even n2 d2.
Proof.
  intros Hd1 Hd2 Hle.
  destruct (round_half_even_spec n1 d1 Hd1) as ([_ Hup] & Hup_even & _).
  destruct (round_half_even_spec n2 d2 Hd2) as ([Hdown _] & _ & Hdown_even).
  cbv zeta in *.
  set (m1 := round_half_even n1 d1) in *. set (m2 := round_half_even n2 d2) in *.
  destruct (Z_le_gt_dec m1 m2) as [|Hgt]; [done|]. exfalso.
  assert (H1 : 2 * d1 * d2 * m1 ≤ 2 * n2 * d1 + d1 * d2) by nia.
  assert (H2 : 2 * n2 * d1 - d1 * d2 ≤ 2 * d1 * d2 * m2) by nia.
  assert (Hm : m1 = m2 + 1) by nia.
  assert (Ht1 : 2 * d1 * m1 = 2 * n1 + d1) by nia.
  assert (Ht2 : 2 * d2 * m2 = 2 * n2 - d2) by nia.
  specialize (Hup_even Ht1). specialize (Hdown_even Ht2).
  rewrite Hm, Z.even_add, Hdown_even in Hup_even. discriminate.
Qed.

Lemma round_half_even_exact (k d : Z) : 0 < d → round_half_even (k * d) d = k.
Proof.
  intros Hd. unfold round_half_even.
  rewrite Z.div_mul, Z.mod_mul by lia.
  destruct (Z.ltb_spec (2 * 0) d); [done | lia].
Qed.

Lemma round_half_even_lower (k n d : Z) :
  0 < d → k * d ≤ n → k ≤ round_half_even n d.
Proof.
  intros Hd Hle. rewrite <- (round_half_even_exact k d Hd).
  apply round_half_even_mono; [done | done | nia].
Qed.

Lemma round_half_even_upper (k n d : Z) :
  0 < d → n ≤ k * d → round_half_even n d ≤ k.
Proof.
  intros Hd Hle.
  etrans; [|apply Z.eq_le_incl, (round_half_even_exact k d Hd)].
  apply round_half_even_mono; [done | done | nia].
Qed.

Lemma div_mono_fraction (n1 d1 n2 d2 : Z) :
  0 < d1 → 0 < d2 → n1 * d2 ≤ n2 * d1 → n1 / d1 ≤ n2 / d2.
Proof.
  intros Hd1 Hd2 Hle. apply Z.div_le_lower_bound; [done|].
  pose proof (Z.mul_div_le n1 d1 Hd1). nia.
Qed.

Lemma spacing_nonneg (n d : Z) : 0 ≤ spacing n d.
Proof. unfold spacing. lia. Qed.

Lemma spacing_mono (n1 d1 n2 d2 : Z) :
  0 < d1 → 0 < d2 → n1 * d2 ≤ n2 * d1 → spacing n1 d1 ≤ spacing n2 d2.
Proof.
  intros Hd1 Hd2 Hle. unfold spacing.
  pose proof (Z.log2_le_mono _ _ (div_mono_fraction n1 d1 n2 d2 Hd1 Hd2 Hle)). lia.
Qed.

(** [n / d] lies below [2^(k + 53)] units, and from [2^(k + 52)] units on
    when [k] is positive. *)
Lemma spacing_upper (n d : Z) :
  0 < d → n < 2 ^ (spacing n d + 53) * d.
Proof.
  intros Hd. pose proof (spacing_nonneg n d) as Hk.
  assert (Hq : n / d < 2 ^ (spacing n d + 53)).
  { destruct (Z_le_gt_dec (n / d) 0) as [Hle | Hpos].
    - pose proof (Z.pow_pos_nonneg 2 (spacing n d + 53)). lia.
    - pose proof (Z.log2_spec (n / d) ltac:(lia)) as [_ Hlt].
      eapply Z.lt_le_trans; [exact Hlt|].
      apply Z.pow_le_mono_r; [lia|]. unfold spacing. lia. }
  pose proof (Z.div_mod n d ltac:(lia)). pose proof (Z.mod_pos_bound n d Hd). nia.
Qed.

Lemma spacing_lower (n d : Z) :
  0 < d → 0 < spacing n d → 2 ^ (spacing n d + 52) * d ≤ n.
Proof.
  intros Hd Hk. unfold spacing in *.
  assert (Hlog : 52 < Z.log2 (n / d)) by lia.
  assert (Hpos : 0 < n / d).
  { destruct (Z_le_gt_dec (n / d) 0) as [Hle | ?]; [|lia].
    rewrite (Z.log2_nonpos _ Hle) in Hlog. lia. }
  pose proof (Z.log2_spec (n / d) Hpos) as [Hle _].
  replace (Z.max 0 (Z.log2 (n / d) - 52) + 52) with (Z.log2 (n / d)) by lia.
  pose proof (Z.mul_div_le n d Hd). nia.
Qed.

Lemma round_units_upper (n d : Z) :
  0 < d → round_units n d ≤ 2 ^ 53 * 2 ^ spacing n d.
Proof.
  intros Hd. unfold round_units. pose proof (spacing_nonneg n d) as Hk.
  pose proof (Z.pow_pos_nonneg 2 (spacing n d) ltac:(lia) Hk) as Hp.
  apply Z.mul_le_mono_nonneg_r; [lia|].
  apply round_half_even_upper; [nia|].
  pose proof (spacing_upper n d Hd) as Hn.
  rewrite Z.pow_add_r in Hn by lia. nia.
Qed.

Lemma round_units_lower (n d : Z) :
  0 < d → 0 < spacing n d → 2 ^ 52 * 2 ^ spacing n d ≤ round_units n d.
Proof.
  intros Hd Hk. unfold round_units.
  pose proof (Z.pow_pos_nonneg 2 (spacing n d) ltac:(lia) ltac:(lia)) as Hp.
  apply Z.mul_le_mono_nonneg_r; [lia|].
  apply round_half_even_lower; [nia|].
  pose proof (spacing_lower n d Hd Hk) as Hn.
  rewrite Z.pow_add_r in Hn by lia. nia.
Qed.

Lemma round_units_nonneg (n d : Z) : 0 ≤ n → 0 < d → 0 ≤ round_units n d.
Proof.
  intros Hn Hd. unfold round_units. pose proof (spacing_nonneg n d) as Hk.
  pose proof (Z.pow_pos_nonneg 2 (spacing n d) ltac:(lia) Hk) as Hp.
  apply Z.mul_nonneg_nonneg; [|lia].
  apply (round_half_even_lower 0); nia.
Qed.

Lemma round_units_mono (n1 d1 n2 d2 : Z) :
  0 < d1 → 0 < d2 → n1 * d2 ≤ n2 * d1 →
  round_units n1 d1 ≤ round_units n2 d2.
Proof.
  intros Hd1 Hd2 Hle.
  pose proof (spacing_mono n1 d1 n2 d2 Hd1 Hd2 Hle) as Hk.
  pose proof (spacing_nonneg n1 d1) as Hk1.
  destruct (Z.eq_dec (spacing n1 d1) (spacing n2 d2)) as [Heq | Hne].
  - unfold round_units. rewrite Heq.
    pose proof (Z.pow_pos_nonneg 2 (spacing n2 d2) ltac:(lia) ltac:(lia)) as Hp.
    apply Z.mul_le_mono_nonneg_r; [lia|].
    apply round_half_even_mono; nia.
  - eapply Z.le_trans; [apply round_units_upper; done|].
    eapply Z.le_trans; [|apply round_units_lower; [done | lia]].
    rewrite <- !Z.pow_add_r by lia. apply Z.pow_le_mono_r; lia.
Qed.

(** Every [m * 2^j] with [m <= 2^53] is a binary64 number of units. *)
Lemma round_units_fixed (m j : Z) :
  0 ≤ m ≤ 2 ^ 53 → 0 ≤ j → round_units (m * 2 ^ j) 1 = m * 2 ^ j.
Proof.
  intros Hm Hj. unfold round_units.
  set (u := m * 2 ^ j). set (k := spacing u 1).
  assert (Hk : 0 ≤ k) by apply spacing_nonneg.
  assert (Hdiv : ∃ c, u = c * 2 ^ k).
  { destruct (Z.eq_dec k 0) as [-> | Hk0]; [exists u; lia|].
    assert (Hlog : k = Z.log2 u - 52).
    { unfold k, spacing in *. rewrite Z.div_1_r in *. lia. }
    assert (Hu : 0 < u).
    { destruct (Z_le_gt_dec u 0) as [Hle | ?]; [|lia].
      rewrite (Z.log2_nonpos _ Hle) in Hlog. lia. }
    assert (Hmpos : 0 < m).
    { pose proof (Z.pow_pos_nonneg 2 j ltac:(lia) Hj). unfold u in Hu. nia. }
    assert (Hlogu : Z.log2 u = j + Z.log2 m).
    { unfold u. by rewrite Z.log2_mul_pow2. }
    assert (Hlogm : Z.log2 m ≤ 53).
    { pose proof (Z.log2_le_mono m (2 ^ 53) ltac:(lia)) as Hmono.
      by rewrite Z.log2_pow2 in Hmono by lia. }
    destruct (Z.eq_dec (Z.log2 m) 53) as [H53 | Hn53].
    - assert (m = 2 ^ 53) as ->.
      { pose proof (Z.log2_spec m Hmpos) as [Hlow _]. rewrite H53 in Hlow. lia. }
      exists (2 ^ 52). unfold u. rewrite <- !Z.pow_add_r by lia. f_equal. lia.
    - exists (m * 2 ^ (j - k)). unfold u.
      rewrite <- Z.mul_assoc, <- Z.pow_add_r by lia. do 2 f_equal. lia. }
  destruct Hdiv as [c Hc]. rewrite Hc, Z.mul_1_l.
  rewrite round_half_even_exact; [done|].
  apply Z.pow_pos_nonneg; lia.
Qed.


End Rounding.

Section NearestDouble.

Import Py.

Lemma unit_scale_pow : Zpos unit_scale = 2 ^ 1074.
Proof. reflexivity. Qed.

Lemma round_units_zero (d : Z) : 0 < d → round_units 0 d = 0.
Proof.
  intros Hd. apply Z.le_antisymm; [|by apply round_units_nonneg].
  etrans; [apply (round_units_mono 0 d 0 1); lia|].
  by rewrite <- (Z.mul_0_l (2 ^ 0)), round_units_fixed.
Qed.


Lemma signed_units_nonneg (x : Q) :
  0 ≤ Qnum x →
  signed_units x = round_units (Qnum x * Zpos unit_scale) (Zpos (Qden x)).
Proof.
  intros Hx. unfold signed_units. rewrite Z.abs_eq by done.
  destruct (Z.eq_dec (Qnum x) 0) as [-> | Hne].
  - by rewrite Z.mul_0_l, round_units_zero.
  - rewrite Z.sgn_pos by lia. lia.
Qed.

Lemma signed_units_nonpos (x : Q) :
  Qnum x ≤ 0 →
  signed_units x = - round_units (- Qnum x * Zpos unit_scale) (Zpos (Qden x)).
Proof.
  intros Hx. unfold signed_units. rewrite Z.abs_neq by done.
  destruct (Z.eq_dec (Qnum x) 0) as [-> | Hne].
  - by rewrite Z.mul_0_l, round_units_zero.
  - rewrite Z.sgn_neg by lia. lia.
Qed.

Lemma signed_units_mono (x y : Q) :
  (x <= y)%Q → signed_units x ≤ signed_units y.
Proof.
  unfold Qle. intros Hle.
  destruct (Z_le_gt_dec 0 (Qnum x)) as [Hx | Hx].
  - assert (Hy : 0 ≤ Qnum y) by nia.
    rewrite !signed_units_nonneg by done.
    apply round_units_mono; [done | done | nia].
  - destruct (Z_le_gt_dec 0 (Qnum y)) as [Hy | Hy].
    + rewrite signed_units_nonpos, signed_units_nonneg by lia.
      pose proof (round_units_nonneg (- Qnum x * Zpos unit_scale) (Zpos (Qden x))
                    ltac:(nia) ltac:(done)).
      pose proof (round_units_nonneg (Qnum y * Zpos unit_scale) (Zpos (Qden y))
                    ltac:(nia) ltac:(done)).
      lia.
    + rewrite !signed_units_nonpos by lia.
      apply Z.opp_le_mono. rewrite !Z.opp_involutive.
      apply round_units_mono; [done | done | nia].
Qed.

Lemma signed_units_proper (x y : Q) : (x == y)%Q → signed_units x = signed_units y.
Proof.
  intros Heq. apply Z.le_antisymm; apply signed_units_mono; rewrite Heq; apply Qle_refl.
Qed.

Lemma nearest_double_units (x : Q) :
  (nearest_double x == signed_units x # unit_scale)%Q.
Proof.
  unfold nearest_double. rewrite Qred_correct.
  by rewrite (signed_units_proper (Qred x) x) by apply Qred_correct.
Qed.

Lemma nearest_double_proper (x y : Q) :
  (x == y)%Q → nearest_double x = nearest_double y.
Proof. intros Heq. unfold nearest_double. by rewrite (Qred_complete x y Heq). Qed.

Lemma nearest_double_mono (x y : Q) :
  (x <= y)%Q → (nearest_double x <= nearest_double y)%Q.
Proof.
  intros Hle. rewrite !nearest_double_units.
  pose proof (signed_units_mono x y Hle) as Hunits.
  unfold Qle. cbn. nia.
Qed.




(** The integers up to [2^53] are binary64 numbers. *)
Lemma nearest_double_int (z : Z) :
  Z.abs z ≤ 2 ^ 53 → (nearest_double (inject_Z z) == inject_Z z)%Q.
Proof.
  intros Hz. rewrite nearest_double_units.
  unfold signed_units, inject_Z. cbn [Qnum Qden].
  rewrite unit_scale_pow, round_units_fixed by lia.
  unfold Qeq. cbn [Qnum Qden]. rewrite unit_scale_pow. lia.
Qed.


Lemma nearest_double_lower (z : Z) (x : Q) :
  Z.abs z ≤ 2 ^ 53 → (inject_Z z <= x)%Q → (inject_Z z <= nearest_double x)%Q.
Proof.
  intros Hz Hle. rewrite <- (nearest_double_int z Hz) at 1.
  by apply nearest_double_mono.
Qed.

Lemma nearest_double_upper (z : Z) (x : Q) :
  Z.abs z ≤ 2 ^ 53 → (x <= inject_Z z)%Q → (nearest_double x <= inject_Z z)%Q.
Proof.
  intros Hz Hle. rewrite <- (nearest_double_int z Hz).
  by apply nearest_double_mono.
Qed.


Lemma is_double_upper (a x : Q) :
  is_double a → (x <= a)%Q → (nearest_double x <= a)%Q.
Proof.
  intros Ha Hle. unfold is_double in Ha. rewrite <- Ha.
  by apply nearest_double_mono.
Qed.

(** [int(x)] of a non-negative float between two integers. *)
Lemma int_of_float_bounds (x : Q) (a b : Z) :
  0 ≤ a → (inject_Z a <= x)%Q → (x <= inject_Z b)%Q →
  a ≤ int_of_float x ≤ b.
Proof.
  destruct x as [n d]. unfold Qle, int_of_float, inject_Z. cbn [Qnum Qden].
  intros Ha Hlow Hup.
  rewrite Z.quot_div_nonneg by nia.
  split; [apply Z.div_le_lower_bound; nia|].
  pose proof (Z.mul_div_le n (Zpos d) ltac:(done)).
  pose proof (Z.div_mod n (Zpos d) ltac:(done)).
  pose proof (Z.mod_pos_bound n (Zpos d) ltac:(done)).
  nia.
Qed.

Lemma int_of_float_floor (x : Q) : (0 <= x)%Q → int_of_float x = Qfloor x.
Proof.
  destruct x as [n d]. unfold Qle, int_of_float, Qfloor. cbn [Qnum Qden].
  intros Hx. apply Z.quot_div_nonneg; lia.
Qed.

End NearestDouble.

(** ** The floating-point sum of the matched PnL *)

Section FloatSum.

Import Py Prepare.




(** What holds of 0 and is kept by the addition holds of every sum. *)
Section Closed.

Variable P : Q → Prop.
Hypothesis P_zero : P 0%Q.
Hypothesis P_add : ∀ a b, P a → P b → P (float_add a b).







End Closed.











(** The bound on the number of cuts is never reached. *)
Lemma pairwise_sum_depth (depth depth' : nat) (a : list Q) :
  (length a ≤ depth + 128)%nat → (depth ≤ depth')%nat →
  pairwise_sum depth' a = pairwise_sum depth a.
Proof.
  revert depth' a. induction depth as [|depth IH]; intros depth' a Hlen Hdepth.
  - destruct depth' as [|depth']; [done|]. cbn [pairwise_sum].
    destruct (length a <? 8)%nat; [done|].
    by destruct (Nat.leb_spec (length a) 128); [|lia].
  - destruct depth' as [|depth']; [lia|]. cbn [pairwise_sum].
    destruct (length a <? 8)%nat; [done|].
    destruct (Nat.leb_spec (length a) 128); [done|].
    set (n2 := (length a / 2 - (length a / 2) mod 8)%nat).
    assert (Hn2 : (length a / 2 - 7 ≤ n2 ≤ length a / 2)%nat).
    { unfold n2. pose proof (Nat.mod_upper_bound (length a / 2) 8). lia. }
    assert (Hhalf : (2 * (length a / 2) ≤ length a < 2 * (length a / 2) + 2)%nat).
    { pose proof (Nat.div_mod_eq (length a) 2).
      pose proof (Nat.mod_upper_bound (length a) 2). lia. }
    rewrite (IH depth' (take n2 a)), (IH depth' (drop n2 a));
      rewrite ?length_take, ?length_drop; try lia. done.
Qed.


End FloatSum.

(** ** The rendered target under substring search *)

Section Target.

Import Py Prepare.

(** The needle, its first character apart. *)
Variables (c : ascii) (p : string).

(** The needle uses neither the newline, nor the dollar sign, nor any
    character of a rendered number ... *)
Hypothesis needle_foreign :
  avoids (String c p) (nl +:+ "$-.0123456789") = true.

(** ... and its first character is not in the label of the last field
    but one. *)
Hypothesis needle_head : char_in c "Exit Strategy: " = false.

Lemma nl_app (s : string) : nl +:+ s = String (ascii_of_nat 10) s.
Proof. reflexivity. Qed.

Lemma foreign_char x :
  char_in x (nl +:+ "$-.0123456789") = true → char_in x (String c p) = false.
Proof. apply char_in_avoids, needle_foreign. Qed.

Lemma foreign_number s :
  made_of "-.0123456789" s = true → avoids (String c p) s = true.
Proof.
  apply made_of_avoids.
  pose proof needle_foreign as H. rewrite nl_app in H.
  simpl in H. apply andb_prop in H as [_ H]. apply andb_prop in H as [_ H].
  exact H.
Qed.

Lemma contains_cons_foreign x s :
  char_in x (String c p) = false →
  contains (String c p) (String x s) = contains (String c p) s.
Proof.
  intros Hx. rewrite <- (append_nil_l (String x s)).
  by rewrite contains_split, contains_nil_nonempty.
Qed.

(** The search in a rendered target reduces to the search in its fixed
    parts and in the exit reason. *)
Lemma contains_render_target (l : labels) :
  contains (String c p) (render_target l) =
    contains (String c p) "Trade Analysis:" ||
    contains (String c p) ("Profitable: " +:+ str_bool (profitable l)) ||
    contains (String c p) "Expected PnL: " ||
    contains (String c p) "Optimal Hold Time: " ||
    contains (String c p) " minutes" ||
    contains (String c p) (exit_reason l) ||
    contains (String c p) ("Market Regime: " +:+ market_regime l).
Proof.
  assert (Hnl : char_in (ascii_of_nat 10) (String c p) = false)
    by (by apply foreign_char).
  assert (Hdollar : char_in "$"%char (String c p) = false)
    by (by apply foreign_char).
  unfold render_target. rewrite !nl_app.
  rewrite (contains_split _ "Trade Analysis:") by done.
  rewrite <- (append_assoc "Profitable: ").
  rewrite (contains_split _ ("Profitable: " +:+ _)) by done.
  change ("Expected PnL: $" +:+ ?s) with ("Expected PnL: " +:+ String "$" s).
  rewrite (contains_split _ "Expected PnL: ") by done.
  rewrite (contains_avoids_app c p (format_f 2 (pnl l)))
    by apply foreign_number, made_of_format_f.
  rewrite (contains_cons_foreign (ascii_of_nat 10)) by done.
  destruct (str_int_nonempty (hold_time l)) as (d & ds & Hhold).
  pose proof (foreign_number _ (made_of_str_int (hold_time l))) as Hav.
  rewrite Hhold in *. simpl in Hav. apply andb_prop in Hav as [Hd Hds].
  apply negb_true_iff in Hd.
  rewrite (append_cons d ds), (contains_split _ "Optimal Hold Time: ") by done.
  rewrite (contains_avoids_app c p ds) by done.
  rewrite (contains_split _ " minutes") by done.
  rewrite <- (append_assoc "Exit Strategy: ").
  rewrite (contains_split _ ("Exit Strategy: " +:+ _)) by done.
  rewrite (contains_skip c p "Exit Strategy: ") by apply needle_head.
  by rewrite !orb_assoc.
Qed.

End Target.

Lemma contains_true_render_target (l : Prepare.labels) :
  Py.contains "Profitable: True" (Prepare.render_target l) =
    Prepare.profitable l || Py.contains "Profitable: True" (Prepare.exit_reason l).
Proof.
  rewrite (contains_render_target "P" "rofitable: True") by reflexivity.
  unfold Prepare.market_regime.
  generalize (Py.contains "Profitable: True" (Prepare.exit_reason l)); intros r.
  by destruct (Prepare.profitable l), (Py.Qgtb _ _), r.
Qed.

Lemma contains_false_render_target (l : Prepare.labels) :
  Py.contains "Profitable: False" (Prepare.render_target l) =
    negb (Prepare.profitable l) || Py.contains "Profitable: False" (Prepare.exit_reason l).
Proof.
  rewrite (contains_render_target "P" "rofitable: False") by reflexivity.
  unfold Prepare.market_regime.
  generalize (Py.contains "Profitable: False" (Prepare.exit_reason l)); intros r.
  by destruct (Prepare.profitable l), (Py.Qgtb _ _), r.
Qed.

(** ** The scoring rule of the evaluator *)

Section Scoring.

Import Py Prepare Evaluate.

Lemma evaluate_loop_predictions generate i data results :
  predictions (evaluate_loop generate i data results) =
    (predictions results ++
     imap (λ k ex,
       let text := generate (i + k)%nat (response_prompt ex) in
       {| prompt := instruction ex; expected := output ex; predicted := text;
          correct := is_prediction_correct text (output ex) |}) data)%list.
Proof.
  revert i results. induction data as [|ex data IH]; intros i results.
  - simpl. by rewrite app_nil_r.
  - cbn [evaluate_loop]. rewrite IH. cbn [predictions imap].
    rewrite <- app_assoc. cbn [app]. rewrite Nat.add_0_r. do 2 f_equal.
    apply imap_ext. intros k x _. cbn. by rewrite Nat.add_succ_r.
Qed.

Lemma evaluate_loop_counts generate i data results :
  let final := evaluate_loop generate i data results in
  let added := drop (length (predictions results)) (predictions final) in
  total final = (total results + length added)%nat ∧
  correct_count final =
    (correct_count results + length (List.filter correct added))%nat.
Proof.
  revert i results. induction data as [|ex data IH]; intros i results.
  - cbn. rewrite drop_all. cbn. lia.
  - cbn [evaluate_loop].
    set (results' := {| correct_count := _ |}).
    specialize (IH (S i) results'). cbv zeta in IH |- *.
    destruct IH as [IHt IHc]. rewrite IHt, IHc.
    rewrite !evaluate_loop_predictions.
    rewrite !drop_app_length.
    subst results'. cbn [predictions total correct_count].
    rewrite <- app_assoc, drop_app_length. cbn [app imap].
    set (text := generate _ _).
    cbn [length List.filter correct].
    destruct (is_prediction_correct text (output ex)); cbn [length]; lia.
Qed.

End Scoring.

(** C10: [is_prediction_correct] answers [True] exactly when the literal
    [Profitable: True] occurs in both texts or in neither; hence a
    prediction with neither literal counts as correct against an expected
    text without [Profitable: True], and the tally of
    [evaluate_predictions] counts exactly the records so marked. *)
Theorem is_prediction_correct_presence_only :
  (∀ prediction expected : string,
     Evaluate.is_prediction_correct prediction expected = true ↔
     Py.contains "Profitable: True" prediction =
       Py.contains "Profitable: True" expected) ∧
  (∀ prediction expected : string,
     Py.contains "Profitable: True" prediction = false →
     Py.contains "Profitable: False" prediction = false →
     Py.contains "Profitable: True" expected = false →
     Evaluate.is_prediction_correct prediction expected = true) ∧
  (∀ generate test_data,
     let results := Evaluate.evaluate_predictions generate test_data in
     Evaluate.total results = length (Evaluate.predictions results) ∧
     Evaluate.correct_count results =
       length (List.filter Evaluate.correct (Evaluate.predictions results)) ∧
     Forall (λ r, Evaluate.correct r =
                  Evaluate.is_prediction_correct (Evaluate.predicted r)
                    (Evaluate.expected r))
       (Evaluate.predictions results)).
Proof.
  split; [|split].
  - intros prediction expected. unfold Evaluate.is_prediction_correct.
    apply Bool.eqb_true_iff.
  - intros prediction expected Hp _ He.
    unfold Evaluate.is_prediction_correct. by rewrite Hp, He.
  - intros generate test_data results. subst results.
    unfold Evaluate.evaluate_predictions.
    pose proof (evaluate_loop_counts generate 0 (take 50 test_data)
      {| Evaluate.correct_count := 0; Evaluate.total := 0;
         Evaluate.predictions := [] |}) as [Ht Hc].
    cbn in Ht, Hc. split; [done | split; [done|]].
    rewrite evaluate_loop_predictions. cbn.
    apply Forall_forall. intros r Hr.
    apply elem_of_lookup_imap in Hr as (k & ex & -> & _). done.
Qed.

Lemma is_prediction_correct_presence_only_witness :
  Evaluate.is_prediction_correct ""
    (Prepare.render_target Samples.labels_no_trade) = true.
Proof.
  apply (proj1 (proj2 is_prediction_correct_presence_only)); reflexivity.
Defined.

(** ** The label through the text template *)

(** C3, as stated, fails: the labels of a losing trade whose exit reason
    reads [Profitable: True] render to a target from which the extraction
    rule recovers [True]. *)
Lemma extraction_misled_by_exit_reason :
  Prepare.profitable Samples.labels_loss = false ∧
  Py.contains "Profitable: True" (Prepare.render_target Samples.labels_loss) = true ∧
  Prepare.training_examples [Samples.signal_loss] [Samples.pnl_loss]
    = [Samples.example_loss].
Proof. repeat split; vm_compute; reflexivity. Qed.

(** C3, amended: the labels [{profitable: True, pnl: 12.5, hold_time: 30,
    exit_reason: "tp"}] render to a target that contains
    [Profitable: True] and [Expected PnL: $12.50], from which the
    extraction rule recovers [True]; and for every example the rule
    applied to the rendered target yields the [profitable] label or-ed
    with the occurrence of [Profitable: True] in the exit reason, so it
    recovers the label of every example whose label is [True] or whose
    exit reason does not contain that literal. *)
Theorem extraction_of_rendered_label :
  (∀ ex : Prepare.example,
     Prepare.labels_of ex = Samples.labels_tp →
     let target := Prepare.output (Prepare.format_example ex) in
     Py.contains "Profitable: True" target = true ∧
     Py.contains "Expected PnL: $12.50" target = true) ∧
  (∀ ex : Prepare.example,
     let l := Prepare.labels_of ex in
     Py.contains "Profitable: True" (Prepare.output (Prepare.format_example ex)) =
       Prepare.profitable l || Py.contains "Profitable: True" (Prepare.exit_reason l)) ∧
  (∀ ex : Prepare.example,
     let l := Prepare.labels_of ex in
     Prepare.profitable l = true ∨
       Py.contains "Profitable: True" (Prepare.exit_reason l) = false →
     Py.contains "Profitable: True" (Prepare.output (Prepare.format_example ex)) =
       Prepare.profitable l).
Proof.
  split; [|split].
  - intros ex Hl. cbn. rewrite Hl. split; vm_compute; reflexivity.
  - intros ex l. cbn. apply contains_true_render_target.
  - intros ex l H. cbn. fold l. rewrite contains_true_render_target.
    destruct H as [-> | ->]; [done | apply orb_false_r].
Qed.

Lemma extraction_of_rendered_label_witness :
  Py.contains "Profitable: True"
    (Prepare.output (Prepare.format_example Samples.example_tp)) =
    Prepare.profitable (Prepare.labels_of Samples.example_tp) ∧
  Py.contains "Expected PnL: $12.50"
    (Prepare.output (Prepare.format_example Samples.example_tp)) = true.
Proof.
  split.
  - apply (proj2 (proj2 extraction_of_rendered_label) Samples.example_tp).
    left. reflexivity.
  - apply (proj1 extraction_of_rendered_label Samples.example_tp). reflexivity.
Defined.

(** ** Statistics of the written data set *)

Section Statistics.

Import Py Prepare.

Lemma count_outputs_cons needle ex examples :
  count_outputs needle (ex :: examples) =
    ((if contains needle (output ex) then 1 else 0) +
     count_outputs needle examples)%nat.
Proof.
  unfold count_outputs. cbn [List.filter].
  by destruct (contains needle (output ex)).
Qed.

Lemma count_outputs_formatted (examples : list example) :
  (count_outputs "Profitable: True" (format_for_training examples) +
   count_outputs "Profitable: False" (format_for_training examples) =
   length examples + length (List.filter opposite_literal_in_reason examples))%nat.
Proof.
  unfold format_for_training.
  induction examples as [|ex examples IH]; [done|].
  cbn [map]. rewrite !count_outputs_cons.
  cbn [length List.filter output format_example].
  rewrite contains_true_render_target, contains_false_render_target.
  unfold opposite_literal_in_reason at 1. cbv zeta.
  set (rT := contains "Profitable: True" (exit_reason (labels_of ex))).
  set (rF := contains "Profitable: False" (exit_reason (labels_of ex))).
  destruct (profitable (labels_of ex)), rT, rF; cbn [negb orb length]; lia.
Qed.

Lemma save_training_data_returns split examples log :
  ∃ log',
    save_training_data split examples log =
      (log', inr {| train_json := slice_stop examples (train_size (length examples) split);
                    eval_json := slice_start examples (train_size (length examples) split);
                    dataset_stats :=
                      compute_stats examples
                        (slice_stop examples (train_size (length examples) split))
                        (slice_start examples (train_size (length examples) split)) |}).
Proof. eexists. reflexivity. Qed.

End Statistics.

(** C9, as stated, fails: for the single losing example whose exit reason
    reads [Profitable: True], both counters are 1 while there is one
    example. *)
Lemma statistics_count_twice :
  ∃ d log,
    Prepare.save_training_data (8 # 10)
      (Prepare.format_for_training [Samples.example_loss]) [] = (log, inr d) ∧
    Prepare.total_examples (Prepare.dataset_stats d) = 1%nat ∧
    Prepare.profitable_trades (Prepare.dataset_stats d) = 1%nat ∧
    Prepare.unprofitable_trades (Prepare.dataset_stats d) = 1%nat.
Proof. do 2 eexists. repeat split; vm_compute; reflexivity. Qed.

(** C9, amended: for every list of examples rendered by the Prompt
    Formatter and passed to the Splitter/Writer, [profitable_trades +
    unprofitable_trades] is [total_examples] plus the number of examples
    whose exit reason contains the literal of the opposite label; so the
    two counters sum to [total_examples] whenever no exit reason contains
    [Profitable: True] or [Profitable: False]. *)
Theorem statistics_counts_sum (split : Q) (examples : list Prepare.example)
    (log : list Prepare.entry) :
  ∃ log' d,
    Prepare.save_training_data split (Prepare.format_for_training examples) log
      = (log', inr d) ∧
    let s := Prepare.dataset_stats d in
    Prepare.total_examples s = length examples ∧
    (Prepare.profitable_trades s + Prepare.unprofitable_trades s =
     Prepare.total_examples s +
     length (List.filter Prepare.opposite_literal_in_reason examples))%nat ∧
    (Forall (λ ex,
       Py.contains "Profitable: True" (Prepare.exit_reason (Prepare.labels_of ex)) = false ∧
       Py.contains "Profitable: False" (Prepare.exit_reason (Prepare.labels_of ex)) = false)
       examples →
     (Prepare.profitable_trades s + Prepare.unprofitable_trades s =
      Prepare.total_examples s)%nat).
Proof.
  destruct (save_training_data_returns split (Prepare.format_for_training examples) log)
    as [log' Hrun].
  eexists _, _. split; [exact Hrun|].
  cbn [Prepare.dataset_stats Prepare.compute_stats Prepare.total_examples
       Prepare.profitable_trades Prepare.unprofitable_trades].
  assert (Hlen : length (Prepare.format_for_training examples) = length examples)
    by apply length_map.
  split; [exact Hlen|].
  split; [rewrite Hlen; apply count_outputs_formatted|].
  intros Hclean. rewrite count_outputs_formatted, Hlen.
  assert (List.filter Prepare.opposite_literal_in_reason examples = []) as ->; [|cbn; lia].
  clear Hrun Hlen.
  induction Hclean as [|ex examples [HT HF] _ IH]; [done|].
  cbn [List.filter]. unfold Prepare.opposite_literal_in_reason at 1.
  cbv zeta. rewrite HT, HF. destruct (Prepare.profitable _); exact IH.
Qed.

Lemma statistics_counts_sum_witness :
  ∃ log' d,
    Prepare.save_training_data (8 # 10)
      (Prepare.format_for_training [Samples.example_tp]) [] = (log', inr d) ∧
    (Prepare.profitable_trades (Prepare.dataset_stats d) +
     Prepare.unprofitable_trades (Prepare.dataset_stats d) =
     Prepare.total_examples (Prepare.dataset_stats d))%nat.
Proof.
  destruct (statistics_counts_sum (8 # 10) [Samples.example_tp] [])
    as (log' & d & Hrun & _ & _ & Hsum).
  exists log', d. split; [exact Hrun|].
  apply Hsum. repeat constructor.
Defined.
(** ** The prefix split *)

Section Split.

Import Py Prepare.

Lemma float_of_nat_exact (n : nat) :
  Z.of_nat n ≤ 2 ^ 53 →
  (float_of_int (Z.of_nat n) == inject_Z (Z.of_nat n))%Q.
Proof. intros Hn. apply nearest_double_int. lia. Qed.

(** The product computed for [train_size], as the double nearest to the
    exact product of the length and the configured double. *)
Lemma train_size_product (n : nat) (split : Q) :
  Z.of_nat n ≤ 2 ^ 53 →
  train_size n split =
    int_of_float (nearest_double (inject_Z (Z.of_nat n) * nearest_double split)).
Proof.
  intros Hn. unfold train_size, float_mul. f_equal.
  apply nearest_double_proper. by rewrite float_of_nat_exact.
Qed.

Lemma nearest_double_fraction (split : Q) :
  (0 <= split)%Q → (split <= 1)%Q →
  (0 <= nearest_double split)%Q ∧ (nearest_double split <= 1)%Q.
Proof.
  intros H0 H1. split.
  - apply (nearest_double_lower 0); [lia | done].
  - apply (nearest_double_upper 1); [lia | done].
Qed.

(** The size of the training set for a fraction between 0 and 1: the
    integer part of the exact product, or the next integer when the
    product rounds up to it. *)
Lemma train_size_floor_or_next (n : nat) (split : Q) :
  (0 <= split)%Q → (split <= 1)%Q → Z.of_nat n ≤ 2 ^ 53 →
  let product := (inject_Z (Z.of_nat n) * nearest_double split)%Q in
  Qfloor product ≤ train_size n split ≤ Qfloor product + 1 ∧
  0 ≤ Qfloor product ∧
  train_size n split ≤ Z.of_nat n ∧
  (train_size n split = Qfloor product + 1 →
   (nearest_double product == inject_Z (Qfloor product + 1))%Q).
Proof.
  intros H0 H1 Hn product.
  destruct (nearest_double_fraction split H0 H1) as [Hf0 Hf1].
  assert (Hn0 : (0 <= inject_Z (Z.of_nat n))%Q).
  { change 0%Q with (inject_Z 0). rewrite <- Zle_Qle. lia. }
  assert (Hp0 : (0 <= product)%Q) by (unfold product; nra).
  assert (Hpn : (product <= inject_Z (Z.of_nat n))%Q) by (unfold product; nra).
  pose proof (Qfloor_le product) as Hfloor.
  pose proof (Qlt_floor product) as Hnext.
  assert (Ha0 : 0 ≤ Qfloor product).
  { change 0 with (Qfloor 0). by apply Qfloor_resp_le. }
  assert (Han : Qfloor product ≤ Z.of_nat n).
  { rewrite <- (Qfloor_Z (Z.of_nat n)). by apply Qfloor_resp_le. }
  rewrite train_size_product by done. fold product.
  assert (Hlow : (inject_Z (Qfloor product) <= nearest_double product)%Q).
  { apply nearest_double_lower; [lia | done]. }
  assert (Hupn : (nearest_double product <= inject_Z (Z.of_nat n))%Q).
  { apply nearest_double_upper; [lia | done]. }
  assert (Hup : (nearest_double product <= inject_Z (Qfloor product + 1))%Q).
  { destruct (Z.eq_dec (Qfloor product) (2 ^ 53)) as [Heq | Hne].
    - eapply Qle_trans; [exact Hupn|]. rewrite <- Zle_Qle. lia.
    - apply nearest_double_upper; [lia|]. by apply Qlt_le_weak. }
  pose proof (int_of_float_bounds _ _ _ Ha0 Hlow Hup) as Hk.
  pose proof (int_of_float_bounds _ _ _ Ha0 Hlow Hupn) as Hkn.
  split; [done|]. split; [done|]. split; [lia|].
  intros Heq. apply Qle_antisym; [done|].
  rewrite <- Heq. rewrite int_of_float_floor; [apply Qfloor_le|].
  eapply Qle_trans; [|exact Hlow]. change 0%Q with (inject_Z 0). rewrite <- Zle_Qle. lia.
Qed.

(** Whatever the bound, the two slices partition the list. *)
Lemma slices_partition {A} (l : list A) (k : Z) :
  slice_stop l k ++ slice_start l k = l.
Proof. unfold slice_stop, slice_start. destruct (k <? 0); apply take_drop. Qed.

End Split.

(** C4, as stated, fails: the product [n * f] is a binary64 product.  For
    10 examples and the fraction 0.7 the training set has 7 examples,
    while the integer part of 10 times the binary64 number 0.7 is 6; for
    100 examples and the fraction 0.29 the training set has 28 examples,
    while the integer part of 100 times 29/100 is 29. *)
Lemma prefix_split_rounds_the_product :
  (∃ log d,
     Prepare.save_training_data (7 # 10)
       (replicate 10 (Prepare.format_example Samples.example_tp)) [] = (log, inr d) ∧
     length (Prepare.train_json d) = 7%nat ∧
     Qfloor (inject_Z 10 * Py.nearest_double (7 # 10)) = 6) ∧
  (∃ log d,
     Prepare.save_training_data (29 # 100)
       (replicate 100 (Prepare.format_example Samples.example_tp)) [] = (log, inr d) ∧
     length (Prepare.train_json d) = 28%nat ∧
     Qfloor (inject_Z 100 * (29 # 100)) = 29).
Proof.
  split; (eexists _, _; split; [reflexivity|]); split; vm_compute; reflexivity.
Qed.

(** C4, amended: the training set and the evaluation set concatenated
    are the input, in the same order, whatever the split fraction; and
    for a split fraction strictly between 0 and 1 the training set is the
    first [k] examples and the evaluation set the remaining [n - k],
    where [k] is the integer part of the binary64 product of [n] and the
    fraction: [k] is [floor(n * f)] for the binary64 number [f] that the
    fraction denotes, or the next integer when the product rounds up to
    it. *)
Theorem prefix_split (split : Q) (examples : list Prepare.formatted_example)
    (log : list Prepare.entry) :
  ∃ log' d,
    Prepare.save_training_data split examples log = (log', inr d) ∧
    Prepare.train_json d ++ Prepare.eval_json d = examples ∧
    ((0 < split)%Q → (split < 1)%Q → Z.of_nat (length examples) ≤ 2 ^ 53 →
     let n := length examples in
     let product := (inject_Z (Z.of_nat n) * Py.nearest_double split)%Q in
     let k := Z.to_nat (Py.int_of_float (Py.nearest_double product)) in
     (Z.to_nat (Qfloor product) ≤ k ≤ Z.to_nat (Qfloor product) + 1)%nat ∧
     (k = (Z.to_nat (Qfloor product) + 1)%nat →
      (Py.nearest_double product == inject_Z (Z.of_nat k))%Q) ∧
     (k ≤ n)%nat ∧
     Prepare.train_json d = take k examples ∧
     Prepare.eval_json d = drop k examples ∧
     length (Prepare.train_json d) = k ∧
     length (Prepare.eval_json d) = (n - k)%nat ∧
     Prepare.train_examples (Prepare.dataset_stats d) = k ∧
     Prepare.eval_examples (Prepare.dataset_stats d) = (n - k)%nat).
Proof.
  destruct (save_training_data_returns split examples log) as [log' Hrun].
  eexists _, _. split; [exact Hrun|].
  cbn [Prepare.train_json Prepare.eval_json Prepare.dataset_stats
       Prepare.compute_stats Prepare.train_examples Prepare.eval_examples].
  split; [apply slices_partition|].
  intros Hpos Hlt Hn.
  destruct (train_size_floor_or_next (length examples) split
              ltac:(by apply Qlt_le_weak) ltac:(by apply Qlt_le_weak) Hn)
    as (Hk & Ha0 & Hkn & Hnext).
  cbv zeta in *. rewrite <- train_size_product by done.
  set (size := Prepare.train_size (length examples) split) in *.
  set (floor := Qfloor _) in *.
  unfold Py.slice_stop, Py.slice_start.
  destruct (Z.ltb_spec size 0); [lia|].
  rewrite length_take, length_drop.
  split; [lia|]. split.
  { intros Heq. rewrite Z2Nat.id by lia.
    replace size with (floor + 1) by lia. apply Hnext. lia. }
  repeat split; lia.
Qed.

Lemma prefix_split_witness :
  ∃ log' d,
    Prepare.save_training_data (8 # 10)
      (Prepare.format_for_training
         [Samples.example_tp; Samples.example_loss; Samples.example_tp]) []
      = (log', inr d) ∧
    Prepare.train_json d =
      Prepare.format_for_training [Samples.example_tp; Samples.example_loss] ∧
    Prepare.eval_json d = Prepare.format_for_training [Samples.example_tp].
Proof.
  destruct (prefix_split (8 # 10)
              (Prepare.format_for_training
                 [Samples.example_tp; Samples.example_loss; Samples.example_tp]) [])
    as (log' & d & Hrun & _ & Hprefix).
  destruct Hprefix as (_ & _ & _ & Htrain & Heval & _);
    [reflexivity | reflexivity | vm_compute; discriminate |].
  exists log', d. split; [exact Hrun|].
  split; [exact Htrain | exact Heval].
Defined.

(** ** The backtest signal extractor *)

Section Extractor.

Import Backtest.

Variable iso : Z → option string.

Lemma exit_lookup (trades : list trade) (i : nat) :
  (if bool_decide (i + 1 < length trades)%nat then
     match trades !! (i + 1)%nat with
     | Some next_trade => if is_flat next_trade then Some next_trade else None
     | None => None
     end
   else None) =
  (next_trade ← trades !! S i; if is_flat next_trade then Some next_trade else None).
Proof.
  rewrite Nat.add_1_r. case_bool_decide as Hlt; [by destruct (trades !! S i)|].
  rewrite lookup_ge_None_2 by lia. done.
Qed.

Lemma omap_cons {A B} (f : A → option B) (x : A) (l : list A) :
  omap f (x :: l) = match f x with Some y => y :: omap f l | None => omap f l end.
Proof. reflexivity. Qed.

Lemma mapM_cons {A B} (f : A → option B) (x : A) (l : list A) :
  mapM f (x :: l) = y ← f x; k ← mapM f l; Some (y :: k).
Proof. reflexivity. Qed.

(** The loop from position [i] on, against the pairing position by
    position. *)
Lemma extract_loop_pairs (trades rest : list trade) (i : nat) (acc : list signal) :
  drop i trades = rest →
  extract_loop iso trades i rest acc =
    (λ signals, acc ++ signals) <$>
      mapM (signal_of_pair iso) (omap (entry_exit_at trades) (seq i (length rest))).
Proof.
  revert i acc. induction rest as [|t rest IH]; intros i acc Hdrop.
  - cbn. by rewrite app_nil_r.
  - assert (Hi : trades !! i = Some t).
    { rewrite <- (Nat.add_0_r i), <- lookup_drop, Hdrop. done. }
    assert (Hrest : drop (S i) trades = rest).
    { rewrite (drop_S _ _ _ Hi) in Hdrop. by injection Hdrop. }
    cbn [extract_loop length seq]. rewrite exit_lookup, omap_cons.
    unfold entry_exit_at at 1. rewrite Hi. cbn [mbind option_bind].
    destruct (is_entry t) eqn:Hentry; cbn [andb].
    + destruct (trades !! S i) as [next|] eqn:Hnext; cbn [mbind option_bind].
      * destruct (is_flat next) eqn:Hflat.
        -- rewrite mapM_cons.
           change (signal_of_pair iso (t, next)) with (make_signal iso t next).
           destruct (make_signal iso t next) as [s|]; cbn [mbind option_bind]; [|done].
           rewrite (IH (S i) (acc ++ [s]) Hrest).
           destruct (mapM _ _); cbn; [|done].
           by rewrite <- app_assoc.
        -- by apply IH.
      * by apply IH.
    + destruct (trades !! S i) as [next|]; cbn [mbind option_bind]; by apply IH.
Qed.

Lemma extract_trading_signals_paired (trades : list trade) :
  extract_trading_signals iso trades = paired_signals iso trades.
Proof.
  unfold extract_trading_signals, paired_signals, entry_exit_pairs.
  rewrite (extract_loop_pairs trades trades 0 []) by done.
  by destruct (mapM _ _).
Qed.

Lemma entry_exit_at_spec (trades : list trade) (i : nat) (entry exit : trade) :
  entry_exit_at trades i = Some (entry, exit) ↔
  trades !! i = Some entry ∧ trades !! S i = Some exit ∧
  (side entry = "LONG" ∨ side entry = "SHORT") ∧ side exit = "FLAT".
Proof.
  assert (Hentry : ∀ e, is_entry e = true ↔ side e = "LONG" ∨ side e = "SHORT").
  { intros e. unfold is_entry.
    by rewrite orb_true_iff, !bool_decide_eq_true. }
  assert (Hflat : ∀ x, is_flat x = true ↔ side x = "FLAT").
  { intros x. unfold is_flat. by rewrite bool_decide_eq_true. }
  unfold entry_exit_at.
  destruct (trades !! i) as [e|]; cbn;
    [|split; [done | by intros [[=] _]]].
  destruct (trades !! S i) as [x|]; cbn;
    [|split; [done | by intros (_ & [=] & _)]].
  split.
  - destruct (is_entry e && is_flat x) eqn:Hc; [|done].
    intros [= <- <-]. apply andb_prop in Hc as [He Hx].
    apply Hentry in He. apply Hflat in Hx. done.
  - intros ([= <-] & [= <-] & He & Hx).
    apply Hentry in He. apply Hflat in Hx. by rewrite He, Hx.
Qed.

Lemma make_signal_fields (entry exit : trade) (s : signal) :
  make_signal iso entry exit = Some s →
  timestamp s = ts entry ∧
  pnl s = (if bool_decide (side entry = "LONG")
           then price exit - price entry else price entry - price exit)%Q ∧
  hold_time s = (inject_Z (ts exit - ts entry) / inject_Z 60000)%Q ∧
  profitable s = Py.Qgtb (pnl s) 0.
Proof.
  unfold make_signal.
  destruct (iso (ts entry)); cbn; [|done].
  destruct (iso (ts exit)); cbn; [|done].
  by intros [= <-].
Qed.

(** An entry followed by its exit, and nothing else. *)
Lemma extract_two_trades (entry exit : trade) :
  is_entry entry && is_flat exit = true →
  extract_trading_signals iso [entry; exit] =
    s ← make_signal iso entry exit; Some [s].
Proof.
  intros [Hentry Hflat]%andb_prop.
  unfold extract_trading_signals. cbn [extract_loop].
  rewrite !exit_lookup. cbn [lookup list_lookup mbind option_bind].
  rewrite Hentry, Hflat.
  assert (is_entry exit = false) as ->.
  { unfold is_entry, is_flat in *. apply bool_decide_eq_true in Hflat.
    rewrite Hflat. reflexivity. }
  by destruct (make_signal iso entry exit).
Qed.

Lemma Qgtb_zero (x : Q) : Py.Qgtb x 0 = true ↔ (0 < x)%Q.
Proof. unfold Py.Qgtb, Qlt. cbn. rewrite Z.ltb_lt. lia. Qed.

End Extractor.

(** C5: the extractor emits one derived signal for each position that
    holds a [LONG] or [SHORT] trade immediately followed by a [FLAT]
    trade, in the order of the trades, and nothing for any other
    position: an entry followed by something else, or at the end of the
    sequence, yields no signal ([LONG@100] gives no signal,
    [LONG@100, FLAT@110] gives one). *)
Theorem extractor_pairs_entry_with_flat_successor
    (iso : Z → option string) (trades : list Backtest.trade) :
  Backtest.extract_trading_signals iso trades =
    mapM (Backtest.signal_of_pair iso) (Backtest.entry_exit_pairs trades) ∧
  (∀ i entry exit,
     Backtest.entry_exit_at trades i = Some (entry, exit) ↔
     trades !! i = Some entry ∧ trades !! S i = Some exit ∧
     (Backtest.side entry = "LONG" ∨ Backtest.side entry = "SHORT") ∧
     Backtest.side exit = "FLAT") ∧
  ((∀ t, t ∈ trades → is_Some (iso (Backtest.ts t))) →
   ∃ signals,
     Backtest.extract_trading_signals iso trades = Some signals ∧
     Forall2 (λ pair s, Backtest.make_signal iso pair.1 pair.2 = Some s)
       (Backtest.entry_exit_pairs trades) signals) ∧
  (∀ t, Backtest.extract_trading_signals iso [Backtest.Trade "LONG" 100 t] = Some []) ∧
  (∀ t1 t2, is_Some (iso t1) → is_Some (iso t2) →
   ∃ s, Backtest.extract_trading_signals iso
          [Backtest.Trade "LONG" 100 t1; Backtest.Trade "FLAT" 110 t2] = Some [s]).
Proof.
  split; [apply extract_trading_signals_paired|].
  split; [apply entry_exit_at_spec|].
  split; [|split].
  - intros Hiso. rewrite extract_trading_signals_paired.
    unfold Backtest.paired_signals.
    assert (Hall : Forall (λ pair, is_Some (Backtest.signal_of_pair iso pair))
                     (Backtest.entry_exit_pairs trades)).
    { apply Forall_forall. intros [entry exit] Hin.
      apply list_elem_of_omap in Hin as (i & _ & Hat).
      apply entry_exit_at_spec in Hat as (He & Hx & _).
      apply list_elem_of_lookup_2 in He, Hx.
      destruct (Hiso _ He) as [ie Hie], (Hiso _ Hx) as [ix Hix].
      unfold Backtest.signal_of_pair, Backtest.make_signal. cbn [fst snd].
      rewrite Hie, Hix. cbn. eauto. }
    apply (mapM_is_Some_2 (Backtest.signal_of_pair iso)) in Hall as [signals Hsignals].
    exists signals. split; [done|]. by apply mapM_Some.
  - intros t. reflexivity.
  - intros t1 t2 [i1 H1] [i2 H2].
    rewrite (extract_two_trades iso) by reflexivity.
    unfold Backtest.make_signal. cbn [Backtest.ts]. rewrite H1, H2. cbn. eauto.
Qed.

Lemma extractor_pairs_entry_with_flat_successor_witness :
  ∃ signals,
    Backtest.extract_trading_signals Samples.iso_stub
      [Backtest.Trade "LONG" 100 0; Backtest.Trade "FLAT" 110 60000;
       Backtest.Trade "SHORT" 110 120000] = Some signals ∧
    length signals = 1%nat.
Proof.
  destruct (extractor_pairs_entry_with_flat_successor Samples.iso_stub
              [Backtest.Trade "LONG" 100 0; Backtest.Trade "FLAT" 110 60000;
               Backtest.Trade "SHORT" 110 120000])
    as (_ & _ & Hruns & _).
  destruct Hruns as (signals & Hrun & Hpairs).
  - intros t _. unfold Samples.iso_stub. eauto.
  - exists signals. split; [exact Hrun|].
    apply Forall2_length in Hpairs. rewrite <- Hpairs. reflexivity.
Defined.


(** ** The windowed join *)

Section Join.

Import Prepare Pipeline.

Lemma elem_of_pnl_window (pnl_df : list pnl_row) (signal : signal_row) (row : pnl_row) :
  row ∈ pnl_window pnl_df signal ↔
  row ∈ pnl_df ∧
  s_timestamp signal ≤ p_timestamp row ≤ s_timestamp signal + 3600000000000.
Proof.
  unfold pnl_window. rewrite list_elem_of_filter.
  unfold in_window, to_datetime, Timedelta_hours. intuition lia.
Qed.

Lemma build_example_labels (pnl_df : list pnl_row) (signal : signal_row) (ex : example) :
  build_example pnl_df signal = Some ex →
  timestamp ex = s_timestamp signal ∧
  ai_decision ex = s_decision signal ∧
  labels_of ex = derive_labels (pnl_window pnl_df signal).
Proof.
  unfold build_example. case_bool_decide; [done|]. by intros [= <-].
Qed.

Lemma build_example_is_Some (pnl_df : list pnl_row) (signal : signal_row) :
  parse_features (s_features signal) ≠ ∅ →
  is_Some (build_example pnl_df signal).
Proof.
  intros Hfeatures. unfold build_example.
  rewrite bool_decide_false by done. eauto.
Qed.

Lemma build_example_None (pnl_df : list pnl_row) (signal : signal_row) :
  build_example pnl_df signal = None ↔ ¬ has_features signal.
Proof.
  unfold build_example, has_features. case_bool_decide as H.
  - split; [by intros _ ? | done].
  - split; [done | by intros []].
Qed.

(** The three cases of a timestamp. *)
Lemma bounds_cases (value : Z) :
  out_of_bounds value ∨ value = NaT ∨ within_bounds value.
Proof. unfold out_of_bounds, within_bounds. lia. Qed.

Lemma within_bounds_not_out (value : Z) : within_bounds value → ¬ out_of_bounds value.
Proof. unfold out_of_bounds, within_bounds, NaT, Timestamp_max, Timedelta_hours. lia. Qed.

(** One iteration when the signal is within bounds or has no features. *)
Lemma example_of_signal_within (pnl : list pnl_row) (signal : signal_row) :
  (has_features signal → within_bounds (s_timestamp signal)) →
  example_of_signal (Table pnl) signal = inr (build_example pnl signal).
Proof.
  intros Hbounds. unfold example_of_signal.
  case_bool_decide as Hfeatures.
  - f_equal. symmetry. apply build_example_None. by intros Hf.
  - specialize (Hbounds Hfeatures).
    unfold within_bounds, NaT, Timestamp_max, Timedelta_hours, to_datetime in *.
    rewrite bool_decide_false by lia.
    rewrite bool_decide_false by lia.
    by rewrite bool_decide_false by lia.
Qed.

(** One iteration raises exactly for a signal with features whose
    timestamp is out of bounds. *)
Lemma example_of_signal_raises (pnl : list pnl_row) (signal : signal_row) (e : Py.exn) :
  example_of_signal (Table pnl) signal = inl e ↔
  raises_out_of_bounds signal ∧ e = Py.OutOfBoundsDatetime.
Proof.
  unfold example_of_signal, raises_out_of_bounds, has_features, out_of_bounds.
  unfold NaT, Timestamp_max, Timedelta_hours, to_datetime.
  case_bool_decide as Hfeatures; [split; [done | by intros [[? _] _]]|].
  case_bool_decide as Hvalue.
  { split; [intros [= <-]; split; [split; [done | lia] | done] | by intros [_ ->]]. }
  case_bool_decide as Hnat; [split; [done | intros [[_ ?] _]; lia]|].
  case_bool_decide as Hend.
  - split; [intros [= <-]; split; [split; [done | lia] | done] | by intros [_ ->]].
  - split; [done | intros [[_ ?] _]; lia].
Qed.

Lemma examples_loop_within (pnl : list pnl_row) (signals : list signal_row)
    (acc : list example) :
  timestamps_within_bounds signals →
  examples_loop (Table pnl) signals acc = inr (acc ++ training_examples signals pnl).
Proof.
  unfold timestamps_within_bounds, training_examples. revert acc.
  induction signals as [|signal signals IH]; intros acc Hbounds.
  - cbn. by rewrite app_nil_r.
  - cbn [examples_loop]. rewrite example_of_signal_within.
    + rewrite omap_cons. destruct (build_example pnl signal) as [ex|].
      * rewrite IH; [by rewrite <- app_assoc|].
        intros s Hs. apply Hbounds. by apply list_elem_of_further.
      * apply IH. intros s Hs. apply Hbounds. by apply list_elem_of_further.
    + apply Hbounds, list_elem_of_here.
Qed.

Lemma examples_loop_raises (pnl : list pnl_row) (signals : list signal_row)
    (acc : list example) (e : Py.exn) :
  examples_loop (Table pnl) signals acc = inl e ↔
  Exists raises_out_of_bounds signals ∧ e = Py.OutOfBoundsDatetime.
Proof.
  revert acc. induction signals as [|signal signals IH]; intros acc.
  - cbn. split; [done | intros [H _]; by apply Exists_nil in H].
  - cbn [examples_loop].
    destruct (example_of_signal (Table pnl) signal) as [e' | result] eqn:Hstep.
    + apply example_of_signal_raises in Hstep as [Hraises ->].
      split; [intros [= <-]; split; [by apply Exists_cons_hd | done] | by intros [_ ->]].
    + assert (Hnot : ¬ raises_out_of_bounds signal).
      { intros Hraises.
        assert (Hinl : example_of_signal (Table pnl) signal = inl Py.OutOfBoundsDatetime)
          by by apply example_of_signal_raises.
        congruence. }
      destruct result as [ex|]; rewrite IH, Exists_cons;
        (split; [intros [Hrest ->]; split; [by right | done]
                |intros [[Hhere | Hrest] ->]; done]).
Qed.

Lemma examples_loop_returns (pnl : list pnl_row) (signals : list signal_row)
    (acc : list example) :
  ¬ Exists raises_out_of_bounds signals →
  ∃ examples, examples_loop (Table pnl) signals acc = inr examples.
Proof.
  intros Hnone.
  destruct (examples_loop (Table pnl) signals acc) as [e | examples] eqn:Hloop; [|eauto].
  apply examples_loop_raises in Hloop as [? _]. done.
Qed.

Lemma create_training_examples_tables signals pnl log :
  timestamps_within_bounds signals →
  create_training_examples (Table signals) (Table pnl) log =
    (log ++ [(INFO, "Created " +:+ Py.str_nat (length (training_examples signals pnl))
                    +:+ " training examples")],
     inr (training_examples signals pnl)).
Proof.
  intros Hbounds. unfold create_training_examples.
  by rewrite examples_loop_within.
Qed.

Lemma derive_labels_no_trade (window : list pnl_row) :
  derive_labels window = Samples.labels_no_trade ↔ window = [].
Proof.
  split; [|by intros ->].
  destruct window as [|row window _] using rev_ind; [done|].
  unfold derive_labels. rewrite last_snoc.
  intros Heq. apply (f_equal hold_time) in Heq. cbn in Heq.
  rewrite length_app in Heq. cbn in Heq. lia.
Qed.

End Join.

(** Decides that the timestamps of a given table are within bounds. *)
Ltac within_bounds_of_table :=
  intros ? Hin _;
  repeat (apply elem_of_cons in Hin as [-> | Hin];
          [vm_compute; split; [reflexivity | discriminate]|]);
  by apply elem_of_nil in Hin.

(** C1, on the code: a PnL row is matched exactly when its timestamp lies
    in [[signal_ts, signal_ts + 3600000000000]], because [pd.to_datetime]
    reads the millisecond timestamps as nanoseconds while the width of the
    window is one hour in nanoseconds.  So the record one millisecond
    after the hour, at [signal_ts + 3600001], is matched and labels the
    example. *)
Theorem window_is_one_hour_of_nanoseconds :
  (∀ pnl_df signal row,
     row ∈ Prepare.pnl_window pnl_df signal ↔
     row ∈ pnl_df ∧
     Prepare.s_timestamp signal ≤ Prepare.p_timestamp row
       ≤ Prepare.s_timestamp signal + 3600000000000) ∧
  Prepare.p_timestamp Samples.pnl_late =
    Prepare.s_timestamp Samples.signal_loss + 3600001 ∧
  Prepare.pnl_window [Samples.pnl_late] Samples.signal_loss = [Samples.pnl_late] ∧
  Prepare.labels_of <$>
    Prepare.training_examples [Samples.signal_loss] [Samples.pnl_late] =
    [{| Prepare.profitable := true; Prepare.pnl := 7 # 1;
        Prepare.hold_time := 60; Prepare.exit_reason := "tp" |}].
Proof.
  split; [apply elem_of_pnl_window|].
  repeat split; vm_compute; reflexivity.
Qed.

(** C8, on the code: a signal with a non-empty parsed feature mapping
    yields an example, and the labels of that example are
    [{profitable: False, pnl: 0.0, hold_time: 0, exit_reason: "no_trade"}]
    exactly when no PnL row lies within 3600000000000 of the signal's
    timestamp, in the unit of the timestamps.  These are milliseconds, so
    a signal whose hour, 3600000 milliseconds, holds no PnL record is
    still labelled by a record that comes later: with the one record at
    [signal_ts + 3600001] the labels are [{True, 7, 60, "tp"}]. *)
Theorem no_trade_labels_need_an_empty_nanosecond_window :
  (∀ (signals : list Prepare.signal_row) (pnl_df : list Prepare.pnl_row)
     (signal : Prepare.signal_row) (log : list Prepare.entry),
     signal ∈ signals →
     Prepare.parse_features (Prepare.s_features signal) ≠ ∅ →
     Pipeline.timestamps_within_bounds signals →
     ∃ log' examples ex,
       Prepare.create_training_examples (Prepare.Table signals)
         (Prepare.Table pnl_df) log = (log', inr examples) ∧
       ex ∈ examples ∧
       Prepare.build_example pnl_df signal = Some ex ∧
       Prepare.timestamp ex = Prepare.s_timestamp signal ∧
       (Prepare.labels_of ex =
          {| Prepare.profitable := false; Prepare.pnl := 0%Q;
             Prepare.hold_time := 0; Prepare.exit_reason := "no_trade" |} ↔
        ∀ row, row ∈ pnl_df →
          ¬ (Prepare.s_timestamp signal ≤ Prepare.p_timestamp row
             ≤ Prepare.s_timestamp signal + 3600000000000))) ∧
  (∀ row, row ∈ [Samples.pnl_late] →
     ¬ (Prepare.s_timestamp Samples.signal_loss ≤ Prepare.p_timestamp row
        ≤ Prepare.s_timestamp Samples.signal_loss + 3600000)) ∧
  (∃ log' examples,
     Prepare.create_training_examples (Prepare.Table [Samples.signal_loss])
       (Prepare.Table [Samples.pnl_late]) [] = (log', inr examples) ∧
     Prepare.labels_of <$> examples =
       [{| Prepare.profitable := true; Prepare.pnl := 7 # 1;
           Prepare.hold_time := 60; Prepare.exit_reason := "tp" |}]).
Proof.
  split; [|split].
  - intros signals pnl_df signal log Hin Hfeatures Hbounds.
    destruct (build_example_is_Some pnl_df signal Hfeatures) as [ex Hex].
    eexists _, _, ex. split; [by apply create_training_examples_tables|].
    split; [|split; [done|]].
    + unfold Prepare.training_examples. apply list_elem_of_omap. eauto.
    + apply build_example_labels in Hex as (Hts & _ & Hlabels).
      split; [done|]. rewrite Hlabels.
      change (Prepare.Labels false 0 0 "no_trade") with Samples.labels_no_trade.
      rewrite derive_labels_no_trade. split.
      * intros Hempty row Hrow Hrange.
        assert (Hwindow : row ∈ Prepare.pnl_window pnl_df signal)
          by by apply elem_of_pnl_window.
        rewrite Hempty in Hwindow. by apply elem_of_nil in Hwindow.
      * intros Hnone. apply elem_of_nil_inv. intros row Hrow.
        apply elem_of_pnl_window in Hrow as [Hrow Hrange]. by apply (Hnone row).
  - intros row Hrow. apply list_elem_of_singleton in Hrow as ->. vm_compute.
    intros [_ Hle]. by apply Hle.
  - eexists _, _. split; vm_compute; reflexivity.
Qed.

Lemma no_trade_labels_need_an_empty_nanosecond_window_witness :
  ∃ log' examples ex,
    Prepare.create_training_examples (Prepare.Table [Samples.signal_loss])
      (Prepare.Table [Samples.pnl_live]) [] = (log', inr examples) ∧
    ex ∈ examples ∧
    Prepare.labels_of ex = Samples.labels_no_trade.
Proof.
  destruct (proj1 no_trade_labels_need_an_empty_nanosecond_window
              [Samples.signal_loss] [Samples.pnl_live] Samples.signal_loss [])
    as (log' & examples & ex & Hrun & Hin & _ & _ & Hlabels).
  - apply list_elem_of_here.
  - vm_compute. discriminate.
  - within_bounds_of_table.
  - exists log', examples, ex. split; [exact Hrun|]. split; [exact Hin|].
    apply Hlabels. intros row Hrow.
    apply list_elem_of_singleton in Hrow as ->. vm_compute.
    intros [Hle _]. by apply Hle.
Defined.

(** ** The missing live database *)

(** C2, on the code: when the database file is absent, the loader logs an
    error and returns one empty frame; [run] then fails to unpack it into
    two frames and raises [ValueError], before any check for emptiness. *)
Theorem missing_database_raises (w : Prepare.world) (log : list Prepare.entry) :
  Prepare.db_exists w = false →
  Prepare.load_trading_data w log =
    (log ++ [(Prepare.ERROR, "Database not found: " +:+ Prepare.db_path w)],
     inr (Prepare.Single Prepare.NoColumns)) ∧
  Prepare.run w log =
    (log ++ [(Prepare.INFO, "Starting data preparation for LoRA training...");
             (Prepare.ERROR, "Database not found: " +:+ Prepare.db_path w)],
     inl (Py.ValueError "not enough values to unpack (expected 2, got 0)")).
Proof.
  intros Hdb. split.
  - unfold Prepare.load_trading_data. rewrite Hdb. reflexivity.
  - unfold Prepare.run, Prepare.load_trading_data. rewrite Hdb.
    unfold mbind, Prepare.M_bind, Prepare.logger, mret, Prepare.M_ret.
    cbn. by rewrite <- app_assoc.
Qed.

Lemma missing_database_raises_witness :
  Prepare.run Samples.world_without_db [] =
    ([(Prepare.INFO, "Starting data preparation for LoRA training...");
      (Prepare.ERROR, "Database not found: var/trading.db")],
     inl (Py.ValueError "not enough values to unpack (expected 2, got 0)")).
Proof.
  apply (proj2 (missing_database_raises Samples.world_without_db [] eq_refl)).
Defined.

(** ** Combining the two sources *)

Section Combining.

Import Prepare.

Context {A : Type} (key : A → Z).

Lemma insert_by_perm (x : A) (l : list A) : insert_by key x l ≡ₚ x :: l.
Proof.
  induction l as [|y l IH]; cbn; [done|].
  destruct (key x <=? key y); [done|].
  rewrite IH. apply Permutation_swap.
Qed.

Lemma sort_values_perm (l : list A) : sort_values key l ≡ₚ l.
Proof.
  induction l as [|x l IH]; cbn; [done|].
  by rewrite insert_by_perm, IH.
Qed.

Lemma insert_by_sorted (x : A) (l : list A) :
  StronglySorted (key_le key) l → StronglySorted (key_le key) (insert_by key x l).
Proof.
  induction 1 as [|y l Hsorted IH Hy]; cbn.
  - repeat constructor.
  - destruct (Z.leb_spec (key x) (key y)) as [Hle | Hgt].
    + constructor; [by constructor|].
      constructor; [done|].
      eapply Forall_impl; [exact Hy|]. unfold key_le. intros; lia.
    + constructor; [done|].
      rewrite insert_by_perm. constructor; [unfold key_le; lia | done].
Qed.

Lemma sort_values_sorted (l : list A) : StronglySorted (key_le key) (sort_values key l).
Proof.
  induction l as [|x l IH]; cbn; [constructor | by apply insert_by_sorted].
Qed.

Lemma key_inj_on (l : list A) (x y : A) :
  NoDup (map key l) → x ∈ l → y ∈ l → key x = key y → x = y.
Proof.
  induction l as [|z l IH]; cbn; [by intros _ ?%elem_of_nil|].
  intros [Hz Hl]%NoDup_cons [-> | Hx]%elem_of_cons [-> | Hy]%elem_of_cons Hkey.
  - done.
  - destruct Hz. rewrite Hkey. apply (list_elem_of_fmap_2 key), Hy.
  - destruct Hz. rewrite <- Hkey. apply (list_elem_of_fmap_2 key), Hx.
  - by apply IH.
Qed.

(** Rows with pairwise distinct keys have one sorted arrangement. *)
Lemma sorted_unique (l l' : list A) :
  NoDup (map key l) → l ≡ₚ l' →
  StronglySorted (key_le key) l → StronglySorted (key_le key) l' → l = l'.
Proof.
  revert l'. induction l as [|x l IH]; intros l' Hnodup Hperm Hl Hl'.
  - by apply Permutation_nil_l in Hperm.
  - destruct l' as [|y l']; [by apply Permutation_nil_r in Hperm|].
    apply StronglySorted_inv in Hl as [Hl Hx], Hl' as [Hl' Hy].
    assert (x = y) as <-.
    { assert (Hxin : x ∈ y :: l') by (rewrite <- Hperm; left).
      assert (Hyin : y ∈ x :: l) by (rewrite Hperm; left).
      apply (key_inj_on (x :: l)); [done | left | done |].
      apply elem_of_cons in Hxin as [-> | Hxin]; [done|].
      apply elem_of_cons in Hyin as [-> | Hyin]; [done|].
      rewrite Forall_forall in Hx, Hy.
      specialize (Hx _ Hyin). specialize (Hy _ Hxin).
      unfold key_le in *. lia. }
    f_equal. apply IH; [|by apply Permutation_cons_inv in Hperm|done|done].
    cbn in Hnodup. by apply NoDup_cons in Hnodup as [_ ?].
Qed.

(** Hence the order of concatenation is invisible after sorting. *)
Lemma sort_values_app_comm (l1 l2 : list A) :
  NoDup (map key (l1 ++ l2)) →
  sort_values key (l1 ++ l2) = sort_values key (l2 ++ l1).
Proof.
  intros Hnodup. apply sorted_unique.
  - assert (map key (sort_values key (l1 ++ l2)) ≡ₚ map key (l1 ++ l2)) as ->
      by apply Permutation_map, sort_values_perm.
    done.
  - rewrite !sort_values_perm. apply Permutation_app_comm.
  - apply sort_values_sorted.
  - apply sort_values_sorted.
Qed.

End Combining.

(** C7, as stated, fails: a live signal, a live PnL record and a backtest
    row carry the same timestamp; with the sources concatenated as [run]
    does, every example gets the exit reason [backtest], with the operands
    exchanged every example gets [tp], and the examples come out in the
    other order.  (A sort that looks at the keys alone cannot tell the two
    inputs apart, whichever way it arranges equal keys.) *)
Lemma concatenation_order_leaks_on_ties :
  Samples.examples_tied ≠ Samples.examples_tied_swapped ∧
  Samples.decision_and_reason <$> Samples.examples_tied =
    [("LONG", "backtest"); ("SHORT", "backtest")] ∧
  Samples.decision_and_reason <$> Samples.examples_tied_swapped =
    [("SHORT", "tp"); ("LONG", "tp")].
Proof.
  assert (H1 : Samples.decision_and_reason <$> Samples.examples_tied =
               [("LONG", "backtest"); ("SHORT", "backtest")])
    by (vm_compute; reflexivity).
  assert (H2 : Samples.decision_and_reason <$> Samples.examples_tied_swapped =
               [("SHORT", "tp"); ("LONG", "tp")])
    by (vm_compute; reflexivity).
  split; [|split; assumption].
  intros Heq. rewrite Heq, H2 in H1. discriminate H1.
Qed.

(** C7, amended: when the timestamps of the combined signal collection are
    pairwise distinct, and so are those of the combined PnL collection,
    the sorted collections, and therefore the training examples built from
    them, do not depend on the order in which the live and the backtest
    source are concatenated. *)
Theorem concatenation_order_unobservable
    (signals : list Prepare.signal_row) (pnl : list Prepare.pnl_row)
    (backtest : list Prepare.backtest_row) :
  NoDup (map Prepare.s_timestamp (signals ++ map Prepare.signal_of_backtest backtest)) →
  NoDup (map Prepare.p_timestamp (pnl ++ map Prepare.pnl_of_backtest backtest)) →
  Prepare.combine_signals signals backtest =
    Prepare.combine_signals_swapped signals backtest ∧
  Prepare.combine_pnl (Prepare.Table pnl) backtest =
    Prepare.combine_pnl_swapped (Prepare.Table pnl) backtest ∧
  Prepare.training_examples
    (Prepare.combine_signals signals backtest)
    (Prepare.combine_pnl (Prepare.Table pnl) backtest) =
  Prepare.training_examples
    (Prepare.combine_signals_swapped signals backtest)
    (Prepare.combine_pnl_swapped (Prepare.Table pnl) backtest).
Proof.
  intros Hsignals Hpnl.
  assert (Hs : Prepare.combine_signals signals backtest =
               Prepare.combine_signals_swapped signals backtest).
  { unfold Prepare.combine_signals, Prepare.combine_signals_swapped.
    by apply sort_values_app_comm. }
  assert (Hp : Prepare.combine_pnl (Prepare.Table pnl) backtest =
               Prepare.combine_pnl_swapped (Prepare.Table pnl) backtest).
  { unfold Prepare.combine_pnl, Prepare.combine_pnl_swapped.
    destruct (Prepare.empty (Prepare.Table pnl)); [done|].
    by apply sort_values_app_comm. }
  by rewrite Hs, Hp.
Qed.

Lemma concatenation_order_unobservable_witness :
  Prepare.training_examples
    (Prepare.combine_signals [Samples.signal_live] [Samples.row_backtest_later])
    (Prepare.combine_pnl (Prepare.Table [Samples.pnl_live_later])
       [Samples.row_backtest_later]) =
  Prepare.training_examples
    (Prepare.combine_signals_swapped [Samples.signal_live] [Samples.row_backtest_later])
    (Prepare.combine_pnl_swapped (Prepare.Table [Samples.pnl_live_later])
       [Samples.row_backtest_later]).
Proof.
  apply (concatenation_order_unobservable [Samples.signal_live]
           [Samples.pnl_live_later] [Samples.row_backtest_later]).
  - apply (bool_decide_unpack _). vm_compute. exact I.
  - apply (bool_decide_unpack _). vm_compute. exact I.
Defined.
(** ** The outcomes of [run] *)

Section Run.

Import Prepare Pipeline.

Lemma training_examples_timestamps (signals : list signal_row) (pnl_df : list pnl_row) :
  map timestamp (training_examples signals pnl_df) =
    map s_timestamp (filter has_features signals).
Proof.
  unfold training_examples.
  induction signals as [|signal signals IH]; [done|].
  rewrite omap_cons, filter_cons.
  destruct (build_example pnl_df signal) as [ex|] eqn:Hex.
  - apply build_example_labels in Hex as Hfields. destruct Hfields as (Hts & _).
    assert (Hf : has_features signal).
    { destruct (decide (has_features signal)) as [|Hn]; [done|].
      apply (build_example_None pnl_df) in Hn. congruence. }
    rewrite decide_True by done. cbn. by rewrite Hts, IH.
  - apply build_example_None in Hex. by rewrite decide_False.
Qed.

Lemma training_examples_count (signals : list signal_row) (pnl_df : list pnl_row) :
  length (training_examples signals pnl_df) = length (filter has_features signals).
Proof.
  pose proof (training_examples_timestamps signals pnl_df) as Hts.
  apply (f_equal length) in Hts. by rewrite !length_map in Hts.
Qed.

(** The table that [run] iterates over holds the live signals and the
    backtest rows, and the PnL table the live records and one synthetic
    record per backtest row. *)
Lemma prepared_signals_perm (signals : list signal_row) (backtest : list backtest_row) :
  prepared_signals signals backtest ≡ₚ all_signals signals backtest.
Proof.
  unfold prepared_signals, all_signals, combine_signals.
  destruct backtest; [by rewrite app_nil_r | apply sort_values_perm].
Qed.

Lemma prepared_pnl_perm (pnl : list pnl_row) (backtest : list backtest_row) :
  prepared_pnl pnl backtest ≡ₚ all_pnl pnl backtest.
Proof.
  unfold prepared_pnl, all_pnl, combine_pnl.
  destruct backtest as [|row backtest]; [by rewrite app_nil_r|].
  rewrite sort_values_perm. by destruct pnl.
Qed.

Lemma prepared_within_bounds (signals : list signal_row) (backtest : list backtest_row) :
  timestamps_within_bounds (all_signals signals backtest) →
  timestamps_within_bounds (prepared_signals signals backtest).
Proof.
  intros Hbounds signal Hin. apply Hbounds. by rewrite <- prepared_signals_perm.
Qed.

(** Unfolding of the monad, for computing [run] on a given log. *)
Ltac run_steps :=
  unfold run, load_trading_data, load_backtest_data, unpack_two, combine,
    create_training_examples, save_training_data,
    mbind, M_bind, mret, M_ret, logger, raise.

Ltac run_reduce :=
  cbn -[examples_loop combine_signals combine_pnl format_for_training
        Py.str_nat train_size Py.slice_stop Py.slice_start compute_stats].

(** [run] when both queries of the live database succeed. *)
Lemma run_loaded (w : world) (log : list entry) signals pnl :
  db_exists w = true →
  db_content w = inr (signals, pnl) →
  ∃ log',
    run w log =
      (log',
       match examples_loop (Table (prepared_pnl pnl (loaded_backtest w)))
               (prepared_signals signals (loaded_backtest w)) [] with
       | inl e => inl e
       | inr [] => inr None
       | inr (ex :: exs) =>
         let formatted := format_for_training (ex :: exs) in
         let size := train_size (length formatted) (train_split w) in
         inr (Some {| train_json := Py.slice_stop formatted size;
                      eval_json := Py.slice_start formatted size;
                      dataset_stats :=
                        compute_stats formatted (Py.slice_stop formatted size)
                          (Py.slice_start formatted size) |})
       end).
Proof.
  intros Hdb Hcontent. unfold loaded_backtest, prepared_signals, prepared_pnl.
  run_steps. rewrite Hdb, Hcontent. run_reduce.
  destruct (backtest_exists w); run_reduce.
  - destruct (backtest_content w) as [e | [|row rows]]; run_reduce.
    + destruct signals as [|s signals]; run_reduce; [eexists; reflexivity|].
      destruct (examples_loop _ (s :: signals) _) as [e' | [|ex exs]];
        eexists; reflexivity.
    + destruct signals as [|s signals]; run_reduce; [eexists; reflexivity|].
      destruct (examples_loop _ (s :: signals) _) as [e' | [|ex exs]];
        eexists; reflexivity.
    + destruct (combine_signals signals (row :: rows)) as [|s' signals'] eqn:Hs;
        run_reduce; [eexists; reflexivity|].
      destruct (examples_loop _ (s' :: signals') _) as [e' | [|ex exs]];
        eexists; reflexivity.
  - destruct signals as [|s signals]; run_reduce; [eexists; reflexivity|].
    destruct (examples_loop _ (s :: signals) _) as [e' | [|ex exs]];
      eexists; reflexivity.
Qed.

(** [run] when the queries of the live database raise. *)
Lemma run_load_error (w : world) (log : list entry) msg :
  db_exists w = true →
  db_content w = inl msg →
  ∃ log',
    run w log =
      (log',
       match loaded_backtest w with
       | [] => inr None
       | _ :: _ => inl (Py.KeyError "timestamp")
       end) ∧
    (loaded_backtest w = [] →
     last log' =
       Some (ERROR, "No trading data found. Cannot proceed with training.")).
Proof.
  intros Hdb Hcontent. unfold loaded_backtest.
  run_steps. rewrite Hdb, Hcontent. run_reduce.
  destruct (backtest_exists w); run_reduce.
  - destruct (backtest_content w) as [e | [|row rows]]; run_reduce;
      (eexists; split; [reflexivity|]); intros; by rewrite ?last_snoc.
  - eexists; split; [reflexivity|]. intros. by rewrite last_snoc.
Qed.

(** [run] when the live database file is absent. *)
Lemma missing_database_is_fatal (w : world) (log : list entry) :
  db_exists w = false →
  ∃ log',
    run w log =
      (log', inl (Py.ValueError "not enough values to unpack (expected 2, got 0)")).
Proof. intros Hdb. run_steps. rewrite Hdb. run_reduce. eauto. Qed.

(** [run] when the queries succeed and no timestamp is out of bounds. *)
Lemma run_within_bounds (w : world) (log : list entry) signals pnl :
  db_exists w = true →
  db_content w = inr (signals, pnl) →
  timestamps_within_bounds (all_signals signals (loaded_backtest w)) →
  ∃ log',
    run w log =
      (log',
       inr match training_examples (prepared_signals signals (loaded_backtest w))
                   (prepared_pnl pnl (loaded_backtest w)) with
           | [] => None
           | ex :: exs =>
             let formatted := format_for_training (ex :: exs) in
             let size := train_size (length formatted) (train_split w) in
             Some {| train_json := Py.slice_stop formatted size;
                     eval_json := Py.slice_start formatted size;
                     dataset_stats :=
                       compute_stats formatted (Py.slice_stop formatted size)
                         (Py.slice_start formatted size) |}
           end).
Proof.
  intros Hdb Hcontent Hbounds.
  destruct (run_loaded w log signals pnl Hdb Hcontent) as [log' Hrun].
  exists log'. rewrite Hrun.
  rewrite examples_loop_within by by apply prepared_within_bounds.
  cbn [app]. by destruct (training_examples _ _).
Qed.

End Run.

(** X1: for tables of the row types of the data model and a split
    fraction between 0 and 1, [run] raises in three situations only: the live database file is absent ([ValueError] from
    the unpacking); its queries raise while the backtest database
    provides at least one row ([KeyError] on the column [timestamp] of
    the empty signal frame); or the queries succeed and a live signal or
    a backtest row with features has a timestamp that is no 64-bit value
    or leaves no room for the hour that is added to it
    ([OutOfBoundsDatetime]). *)
Theorem run_raises_iff (w : Prepare.world) (log : list Prepare.entry) (e : Py.exn) :
  (0 <= Prepare.train_split w)%Q → (Prepare.train_split w <= 1)%Q →
  (∃ log', Prepare.run w log = (log', inl e)) ↔
  Prepare.db_exists w = false ∧
    e = Py.ValueError "not enough values to unpack (expected 2, got 0)" ∨
  Prepare.db_exists w = true ∧
    (∃ msg, Prepare.db_content w = inl msg) ∧ Pipeline.loaded_backtest w ≠ [] ∧
    e = Py.KeyError "timestamp" ∨
  Prepare.db_exists w = true ∧
    (∃ signals pnl,
       Prepare.db_content w = inr (signals, pnl) ∧
       Exists Pipeline.raises_out_of_bounds
         (Pipeline.all_signals signals (Pipeline.loaded_backtest w))) ∧
    e = Py.OutOfBoundsDatetime.
Proof.
  intros _ _.
  destruct (Prepare.db_exists w) eqn:Hdb.
  - destruct (Prepare.db_content w) as [msg | [signals pnl]] eqn:Hcontent.
    + destruct (run_load_error w log msg Hdb Hcontent) as (log1 & Hrun & _).
      rewrite Hrun. split.
      * intros (log' & Heq). right. left. split; [done|]. split; [eauto|].
        destruct (Pipeline.loaded_backtest w); [discriminate Heq|].
        split; [done | congruence].
      * intros [[? _] | [(_ & _ & Hrows & ->) | (_ & (? & ? & ? & _) & _)]];
          [done | | done].
        destruct (Pipeline.loaded_backtest w); [done | eauto].
    + destruct (run_loaded w log signals pnl Hdb Hcontent) as (log1 & Hrun).
      rewrite Hrun.
      destruct (Prepare.examples_loop _ _ _) as [e' | examples] eqn:Hloop.
      * apply examples_loop_raises in Hloop as [Hraises ->].
        rewrite prepared_signals_perm in Hraises. split.
        -- intros (log' & [= <-]). right. right. eauto 6.
        -- intros [[? _] | [(_ & [? ?] & _) | (_ & _ & ->)]]; [done | done | eauto].
      * split.
        -- intros (log' & Heq). by destruct examples.
        -- intros [[? _] | [(_ & [? ?] & _) | (_ & (s & p & [= <- <-] & Hraises) & ->)]];
             [done | done |].
           rewrite <- prepared_signals_perm in Hraises.
           assert (Hinl : Prepare.examples_loop
                            (Prepare.Table (Pipeline.prepared_pnl pnl (Pipeline.loaded_backtest w)))
                            (Pipeline.prepared_signals signals (Pipeline.loaded_backtest w)) []
                          = inl Py.OutOfBoundsDatetime)
             by by apply examples_loop_raises.
           congruence.
  - destruct (missing_database_is_fatal w log Hdb) as (log1 & Hrun).
    rewrite Hrun. split.
    + intros (log' & [= <-]). by left.
    + intros [[_ ->] | [[? _] | [? _]]]; [eauto | done | done].
Qed.

Lemma run_raises_iff_witness :
  ∃ log', Prepare.run Cases.world_far_future [] = (log', inl Py.OutOfBoundsDatetime).
Proof.
  apply (run_raises_iff Cases.world_far_future [] Py.OutOfBoundsDatetime);
    [vm_compute; discriminate | vm_compute; discriminate |].
  right. right. split; [reflexivity|]. split; [|reflexivity].
  exists [Cases.signal_far_future], []. split; [reflexivity|].
  apply Exists_cons_hd. split; [vm_compute; discriminate|].
  right. vm_compute. reflexivity.
Defined.

(** X2: when the queries of the live database raise and there is no
    backtest row, [run] returns without writing anything and without an
    exception, and its last log line is the error "No trading data
    found". *)
Theorem run_aborts_on_load_error (w : Prepare.world) (log : list Prepare.entry)
    (msg : string) :
  Prepare.db_exists w = true →
  Prepare.db_content w = inl msg →
  Pipeline.loaded_backtest w = [] →
  ∃ log',
    Prepare.run w log = (log', inr None) ∧
    last log' =
      Some (Prepare.ERROR, "No trading data found. Cannot proceed with training.").
Proof.
  intros Hdb Hcontent Hrows.
  destruct (run_load_error w log msg Hdb Hcontent) as (log' & Hrun & Hlast).
  rewrite Hrows in Hrun. eauto.
Qed.

Lemma run_aborts_on_load_error_witness :
  ∃ log', Prepare.run Cases.world_unreadable [] = (log', inr None).
Proof.
  destruct (run_aborts_on_load_error Cases.world_unreadable []
              "no such table: signals" eq_refl eq_refl eq_refl)
    as (log' & Hrun & _).
  exists log'. exact Hrun.
Defined.

(** X3: for tables of the row types of the data model: when the queries
    of the live database succeed, the split fraction is between 0 and 1
    and the timestamps of the signals with features are within bounds,
    [run] does not raise.
    It writes nothing exactly when no live signal and no backtest row has
    features; otherwise [total_examples] is the number of those that
    have.  Without backtest rows the training and the evaluation file
    together hold the formatted examples of the two query results, in the
    order of the signal query.  With backtest rows, when the timestamps
    are pairwise distinct in the combined signal table and in the combined
    PnL table, they hold the formatted examples built from the two tables
    in ascending order of timestamp, however the sort arrives at it. *)
Theorem run_writes_prepared_examples (w : Prepare.world) (log : list Prepare.entry)
    (signals : list Prepare.signal_row) (pnl : list Prepare.pnl_row) :
  Prepare.db_exists w = true →
  Prepare.db_content w = inr (signals, pnl) →
  (0 <= Prepare.train_split w)%Q → (Prepare.train_split w <= 1)%Q →
  let backtest := Pipeline.loaded_backtest w in
  let all_signals := Pipeline.all_signals signals backtest in
  let all_pnl := Pipeline.all_pnl pnl backtest in
  Pipeline.timestamps_within_bounds all_signals →
  ∃ log' result,
    Prepare.run w log = (log', inr result) ∧
    (result = None ↔ filter Pipeline.has_features all_signals = []) ∧
    (∀ d, result = Some d →
       Prepare.total_examples (Prepare.dataset_stats d) =
         length (filter Pipeline.has_features all_signals) ∧
       (backtest = [] →
        Prepare.train_json d ++ Prepare.eval_json d =
          Prepare.format_for_training (Prepare.training_examples signals pnl)) ∧
       (backtest ≠ [] →
        NoDup (map Prepare.s_timestamp all_signals) →
        NoDup (map Prepare.p_timestamp all_pnl) →
        ∀ signals' pnl',
          signals' ≡ₚ all_signals →
          StronglySorted (Prepare.key_le Prepare.s_timestamp) signals' →
          pnl' ≡ₚ all_pnl →
          StronglySorted (Prepare.key_le Prepare.p_timestamp) pnl' →
          Prepare.train_json d ++ Prepare.eval_json d =
            Prepare.format_for_training (Prepare.training_examples signals' pnl'))).
Proof.
  intros Hdb Hcontent _ _ backtest all_signals all_pnl Hbounds.
  destruct (run_within_bounds w log signals pnl Hdb Hcontent Hbounds) as (log' & Hrun).
  fold backtest in Hrun.
  set (prepared := Prepare.training_examples
                     (Pipeline.prepared_signals signals backtest)
                     (Pipeline.prepared_pnl pnl backtest)) in *.
  assert (Hcount : length prepared = length (filter Pipeline.has_features all_signals)).
  { unfold prepared. rewrite training_examples_count.
    by rewrite prepared_signals_perm. }
  eexists _, _. split; [exact Hrun|].
  assert (Hwritten : ∀ d,
            match prepared with
            | [] => None
            | ex :: exs =>
              Some {| Prepare.train_json :=
                        Py.slice_stop (Prepare.format_for_training (ex :: exs))
                          (Prepare.train_size
                             (length (Prepare.format_for_training (ex :: exs)))
                             (Prepare.train_split w));
                      Prepare.eval_json :=
                        Py.slice_start (Prepare.format_for_training (ex :: exs))
                          (Prepare.train_size
                             (length (Prepare.format_for_training (ex :: exs)))
                             (Prepare.train_split w));
                      Prepare.dataset_stats :=
                        Prepare.compute_stats (Prepare.format_for_training (ex :: exs))
                          (Py.slice_stop (Prepare.format_for_training (ex :: exs))
                             (Prepare.train_size
                                (length (Prepare.format_for_training (ex :: exs)))
                                (Prepare.train_split w)))
                          (Py.slice_start (Prepare.format_for_training (ex :: exs))
                             (Prepare.train_size
                                (length (Prepare.format_for_training (ex :: exs)))
                                (Prepare.train_split w))) |}
            end = Some d →
            Prepare.total_examples (Prepare.dataset_stats d) = length prepared ∧
            Prepare.train_json d ++ Prepare.eval_json d =
              Prepare.format_for_training prepared).
  { intros d. destruct prepared as [|ex exs]; [done|]. intros [= <-].
    cbn [Prepare.train_json Prepare.eval_json Prepare.dataset_stats
         Prepare.compute_stats Prepare.total_examples].
    split; [|apply slices_partition].
    cbn [length]. f_equal. unfold Prepare.format_for_training. by rewrite length_map. }
  split.
  - rewrite <- length_zero_iff_nil, <- Hcount.
    destruct prepared; [by split | split; [done | cbn; lia]].
  - intros d Hd. destruct (Hwritten d Hd) as [Htotal Hfiles].
    split; [by rewrite Htotal|]. split.
    + intros Hnone. rewrite Hfiles. unfold prepared. by rewrite Hnone.
    + intros Hsome Hsignals Hpnl signals' pnl' Hperm_s Hsorted_s Hperm_p Hsorted_p.
      rewrite Hfiles. unfold prepared. do 2 f_equal.
      * apply (sorted_unique Prepare.s_timestamp).
        -- by rewrite prepared_signals_perm.
        -- by rewrite prepared_signals_perm.
        -- unfold Pipeline.prepared_signals. destruct backtest; [done|].
           apply sort_values_sorted.
        -- done.
      * apply (sorted_unique Prepare.p_timestamp).
        -- by rewrite prepared_pnl_perm.
        -- by rewrite prepared_pnl_perm.
        -- unfold Pipeline.prepared_pnl. destruct backtest; [done|].
           apply sort_values_sorted.
        -- done.
Qed.

Lemma run_writes_prepared_examples_witness :
  ∃ log' d,
    Prepare.run Cases.world_live [] = (log', inr (Some d)) ∧
    Prepare.train_json d ++ Prepare.eval_json d =
      Prepare.format_for_training [Samples.example_loss].
Proof.
  destruct (run_writes_prepared_examples Cases.world_live []
              [Samples.signal_loss] [Samples.pnl_loss] eq_refl eq_refl)
    as (log' & result & Hrun & Hnone & Hsome).
  - vm_compute. discriminate.
  - vm_compute. discriminate.
  - within_bounds_of_table.
  - destruct result as [d|].
    + exists log', d. split; [exact Hrun|].
      apply (proj1 (proj2 (Hsome d eq_refl))). reflexivity.
    + apply proj1 in Hnone. specialize (Hnone eq_refl). vm_compute in Hnone.
      discriminate Hnone.
Defined.

(** ** The split at its extremes *)

Section SplitEdges.

Import Py Prepare.

Lemma int_of_float_lower (x : Q) (a : Z) :
  0 ≤ a → (inject_Z a <= x)%Q → a ≤ int_of_float x.
Proof.
  destruct x as [n d]. unfold Qle, int_of_float, inject_Z. cbn [Qnum Qden].
  intros Ha Hlow. rewrite Z.quot_div_nonneg by nia.
  apply Z.div_le_lower_bound; nia.
Qed.

Lemma int_of_float_small (x : Q) : (0 <= x)%Q → (x < 1)%Q → int_of_float x = 0.
Proof.
  destruct x as [n d]. unfold Qle, Qlt, int_of_float. cbn [Qnum Qden].
  intros H0 H1. apply Z.quot_small. lia.
Qed.

(** The largest binary64 number below 1. *)
Lemma is_double_below_one : is_double (9007199254740991 # 9007199254740992).
Proof. unfold is_double. vm_compute. reflexivity. Qed.

Lemma train_size_full (n : nat) (split : Q) :
  (1 <= split)%Q → Z.of_nat n ≤ 2 ^ 53 → Z.of_nat n ≤ train_size n split.
Proof.
  intros Hsplit Hn. rewrite train_size_product by done.
  assert (Hf : (1 <= nearest_double split)%Q)
    by (apply (nearest_double_lower 1); [lia | done]).
  assert (Hn0 : (0 <= inject_Z (Z.of_nat n))%Q).
  { change 0%Q with (inject_Z 0). rewrite <- Zle_Qle. lia. }
  apply int_of_float_lower; [lia|].
  apply nearest_double_lower; [lia | nra].
Qed.

Lemma train_size_none (n : nat) (split : Q) :
  (0 <= split)%Q → Z.of_nat n ≤ 2 ^ 53 →
  (inject_Z (Z.of_nat n) * nearest_double split
   <= 9007199254740991 # 9007199254740992)%Q →
  train_size n split = 0.
Proof.
  intros Hsplit Hn Hproduct. rewrite train_size_product by done.
  assert (Hf : (0 <= nearest_double split)%Q)
    by (apply (nearest_double_lower 0); [lia | done]).
  assert (Hn0 : (0 <= inject_Z (Z.of_nat n))%Q).
  { change 0%Q with (inject_Z 0). rewrite <- Zle_Qle. lia. }
  apply int_of_float_small.
  - apply (nearest_double_lower 0); [lia|]. change (inject_Z 0) with 0%Q. nra.
  - eapply Qle_lt_trans; [apply (is_double_upper _ _ is_double_below_one Hproduct)|].
    reflexivity.
Qed.

Lemma slices_lengths {A} (l : list A) (k : Z) :
  (length (slice_stop l k) + length (slice_start l k))%nat = length l.
Proof. by rewrite <- length_app, slices_partition. Qed.

End SplitEdges.

(** X4: the counts in the statistics of a written data set add up,
    [train_examples + eval_examples = total_examples], whatever the split
    fraction.  A fraction from 1 up to [2^53] puts every example in the
    training file and leaves the evaluation file empty.  When the exact
    product of the number of examples and the binary64 number that the
    fraction denotes is at most [1 - 2^-53], the largest binary64 number
    below 1 (for instance a single example with the fraction 0.8), the
    training file is empty and every example goes to the evaluation
    file. *)
Theorem split_extremes (split : Q) (examples : list Prepare.formatted_example)
    (log : list Prepare.entry) :
  (∀ log' d,
     Prepare.save_training_data split examples log = (log', inr d) →
     (Prepare.train_examples (Prepare.dataset_stats d) +
      Prepare.eval_examples (Prepare.dataset_stats d) =
      Prepare.total_examples (Prepare.dataset_stats d))%nat) ∧
  ((1 <= split)%Q → (split <= inject_Z (2 ^ 53))%Q →
   Z.of_nat (length examples) ≤ 2 ^ 53 →
   ∃ log' d,
     Prepare.save_training_data split examples log = (log', inr d) ∧
     Prepare.train_json d = examples ∧ Prepare.eval_json d = []) ∧
  ((0 <= split)%Q → Z.of_nat (length examples) ≤ 2 ^ 53 →
   (inject_Z (Z.of_nat (length examples)) * Py.nearest_double split
    <= 9007199254740991 # 9007199254740992)%Q →
   ∃ log' d,
     Prepare.save_training_data split examples log = (log', inr d) ∧
     Prepare.train_json d = [] ∧ Prepare.eval_json d = examples).
Proof.
  destruct (save_training_data_returns split examples log) as [log' Hrun].
  split; [|split].
  - intros log1 d Hd. rewrite Hrun in Hd. injection Hd as _ <-.
    cbn [Prepare.dataset_stats Prepare.compute_stats Prepare.train_examples
         Prepare.eval_examples Prepare.total_examples].
    apply slices_lengths.
  - intros Hge _ Hn. eexists _, _. split; [exact Hrun|].
    cbn [Prepare.train_json Prepare.eval_json].
    pose proof (train_size_full (length examples) split Hge Hn) as Hk.
    unfold Py.slice_stop, Py.slice_start.
    destruct (Z.ltb_spec (Prepare.train_size (length examples) split) 0); [lia|].
    split; [apply take_ge | apply drop_ge]; lia.
  - intros Hpos Hn Hproduct. eexists _, _. split; [exact Hrun|].
    cbn [Prepare.train_json Prepare.eval_json].
    rewrite (train_size_none (length examples) split Hpos Hn Hproduct).
    unfold Py.slice_stop, Py.slice_start. cbn. by rewrite drop_0.
Qed.

Lemma split_extremes_witness :
  ∃ log' d,
    Prepare.save_training_data (8 # 10)
      (Prepare.format_for_training [Samples.example_tp]) [] = (log', inr d) ∧
    Prepare.train_json d = [] ∧
    Prepare.eval_json d = Prepare.format_for_training [Samples.example_tp].
Proof.
  apply (proj2 (proj2 (split_extremes (8 # 10)
                         (Prepare.format_for_training [Samples.example_tp]) [])));
    vm_compute; discriminate.
Defined.

(** ** What the example builder keeps and derives *)

Section Builder.

Import Py Prepare Pipeline.






(** Rows before the signal do not enter its window. *)
Lemma pnl_window_earlier (earlier pnl_df : list pnl_row) (signal : signal_row) :
  Forall (λ row, p_timestamp row < s_timestamp signal) earlier →
  pnl_window (earlier ++ pnl_df) signal = pnl_window pnl_df signal.
Proof.
  intros Hearlier. unfold pnl_window. rewrite filter_app.
  assert (filter (in_window (to_datetime (s_timestamp signal))) earlier = []) as ->;
    [|done].
  induction Hearlier as [|row earlier Hrow _ IH]; [done|].
  rewrite filter_cons, decide_False; [done|].
  unfold in_window, to_datetime. lia.
Qed.

End Builder.

(** X5: the example builder yields exactly one example per signal whose
    parsed feature mapping is non-empty, in the order of the signals:
    signals whose [features] cell is missing, malformed or an empty object
    are dropped, and no other signal is. *)
Theorem one_example_per_signal_with_features
    (signals : list Prepare.signal_row) (pnl_df : list Prepare.pnl_row) :
  map Prepare.timestamp (Prepare.training_examples signals pnl_df) =
    map Prepare.s_timestamp (filter Pipeline.has_features signals) ∧
  length (Prepare.training_examples signals pnl_df) =
    length (filter Pipeline.has_features signals) ∧
  (∀ signal text,
     Prepare.s_features signal = Prepare.FeaturesMissing ∨
     Prepare.s_features signal = Prepare.FeaturesMalformed text ∨
     Prepare.s_features signal = Prepare.FeaturesObject ∅ →
     Prepare.build_example pnl_df signal = None).
Proof.
  pose proof (training_examples_timestamps signals pnl_df) as Hts.
  split; [done|]. split.
  - apply (f_equal length) in Hts. by rewrite !length_map in Hts.
  - intros signal text H. apply build_example_None.
    unfold Pipeline.has_features. intros Hne. apply Hne.
    destruct H as [-> | [-> | ->]]; reflexivity.
Qed.

Lemma one_example_per_signal_with_features_witness :
  Prepare.build_example [Samples.pnl_live]
    {| Prepare.s_timestamp := 5; Prepare.s_decision := "LONG";
       Prepare.s_confidence := 1; Prepare.s_trigger := "e3";
       Prepare.s_features := Prepare.FeaturesMalformed "{price" |} = None.
Proof.
  apply (proj2 (proj2 (one_example_per_signal_with_features [] [Samples.pnl_live]))
           _ "{price").
  right. left. reflexivity.
Defined.



(** X7: PnL records stamped before a signal are never attributed to it:
    putting any number of them in front of the PnL table leaves the
    example of that signal unchanged. *)
Theorem earlier_pnl_is_not_attributed
    (earlier pnl_df : list Prepare.pnl_row) (signal : Prepare.signal_row) :
  Forall (λ row, Prepare.p_timestamp row < Prepare.s_timestamp signal) earlier →
  Prepare.build_example (earlier ++ pnl_df) signal =
    Prepare.build_example pnl_df signal.
Proof.
  intros Hearlier. unfold Prepare.build_example.
  by rewrite pnl_window_earlier.
Qed.

Lemma earlier_pnl_is_not_attributed_witness :
  Prepare.build_example ([Samples.pnl_live] ++ [Samples.pnl_loss]) Samples.signal_loss =
    Prepare.build_example [Samples.pnl_loss] Samples.signal_loss.
Proof.
  apply (earlier_pnl_is_not_attributed [Samples.pnl_live] [Samples.pnl_loss]
           Samples.signal_loss).
  repeat constructor.
Defined.

(** ** The combined collections *)

Section Combined.

Import Prepare Pipeline.

Lemma combine_pnl_rows (pnl_df : frame pnl_row) (backtest : list backtest_row) :
  combine_pnl pnl_df backtest =
    sort_values p_timestamp (frame_rows pnl_df ++ map pnl_of_backtest backtest).
Proof. unfold combine_pnl. by destruct pnl_df as [|[|row rows]]. Qed.


End Combined.

(** X8: the combining step of [run] loses and duplicates no row: the
    combined signal table is a rearrangement of the live signals followed
    by the backtest rows, the combined PnL table a rearrangement of the
    live PnL records followed by one synthetic record per backtest row,
    and both come out in ascending order of timestamp. *)
Theorem combining_keeps_and_orders
    (signals : list Prepare.signal_row) (pnl_df : Prepare.frame Prepare.pnl_row)
    (backtest : list Prepare.backtest_row) :
  Prepare.combine_signals signals backtest ≡ₚ
    signals ++ map Prepare.signal_of_backtest backtest ∧
  StronglySorted (Prepare.key_le Prepare.s_timestamp)
    (Prepare.combine_signals signals backtest) ∧
  Prepare.combine_pnl pnl_df backtest ≡ₚ
    Pipeline.frame_rows pnl_df ++ map Prepare.pnl_of_backtest backtest ∧
  StronglySorted (Prepare.key_le Prepare.p_timestamp)
    (Prepare.combine_pnl pnl_df backtest) ∧
  length (Prepare.combine_signals signals backtest) =
    (length signals + length backtest)%nat.
Proof.
  rewrite combine_pnl_rows. unfold Prepare.combine_signals.
  split; [apply sort_values_perm|]. split; [apply sort_values_sorted|].
  split; [apply sort_values_perm|]. split; [apply sort_values_sorted|].
  by rewrite sort_values_perm, length_app, length_map.
Qed.



(** ** When the extractor fails, and how many signals it gives *)

Section ExtractorBounds.

Import Backtest.

Variable iso : Z → option string.

Lemma mapM_None {A B} (f : A → option B) (l : list A) :
  mapM f l = None ↔ Exists (λ x, f x = None) l.
Proof.
  induction l as [|x l IH]; [by rewrite Exists_nil|].
  rewrite mapM_cons, Exists_cons.
  destruct (f x) as [y|] eqn:Hx; cbn [mbind option_bind].
  - destruct (mapM f l) as [k|]; cbn.
    + split; [done|]. intros [H | H]; [done|]. by apply IH in H.
    + split; [|done]. intros _. right. by apply IH.
  - split; [by left | done].
Qed.

Lemma signal_of_pair_None (pair : trade * trade) :
  signal_of_pair iso pair = None ↔
  iso (ts pair.1) = None ∨ iso (ts pair.2) = None.
Proof.
  unfold signal_of_pair, make_signal.
  destruct (iso (ts pair.1)); cbn; [|by split; [left|]].
  destruct (iso (ts pair.2)); cbn; split; try done; [intros [?|?]; done | by right].
Qed.

Lemma elem_of_entry_exit_pairs (trades : list trade) (entry exit : trade) :
  (entry, exit) ∈ entry_exit_pairs trades ↔
  ∃ i, trades !! i = Some entry ∧ trades !! S i = Some exit ∧
       (side entry = "LONG" ∨ side entry = "SHORT") ∧ side exit = "FLAT".
Proof.
  unfold entry_exit_pairs. rewrite list_elem_of_omap. split.
  - intros (i & _ & Hat). exists i. by apply entry_exit_at_spec.
  - intros (i & Hat). exists i. split; [|by apply entry_exit_at_spec].
    destruct Hat as (Hi & _). apply lookup_lt_Some in Hi.
    apply elem_of_seq. lia.
Qed.

(** A position that holds the exit of a pair holds no entry. *)
Lemma entry_exit_at_next (trades : list trade) (i : nat) :
  is_Some (entry_exit_at trades i) → entry_exit_at trades (S i) = None.
Proof.
  intros [[entry exit] Hat].
  apply entry_exit_at_spec in Hat as (_ & Hexit & _ & Hflat).
  destruct (entry_exit_at trades (S i)) as [[entry' exit']|] eqn:Hnext; [|done].
  apply entry_exit_at_spec in Hnext as (Hentry' & _ & Hside & _).
  rewrite Hexit in Hentry'. injection Hentry' as <-.
  rewrite Hflat in Hside. by destruct Hside.
Qed.

Lemma entry_exit_at_last (trades : list trade) (i : nat) :
  (length trades ≤ S i)%nat → entry_exit_at trades i = None.
Proof.
  intros Hlen. destruct (entry_exit_at trades i) as [[entry exit]|] eqn:Hat; [|done].
  apply entry_exit_at_spec in Hat as (_ & Hexit & _).
  apply lookup_lt_Some in Hexit. lia.
Qed.

Lemma pairs_from_bound (trades : list trade) (m i : nat) :
  (i + S m)%nat = length trades →
  (2 * length (omap (entry_exit_at trades) (seq i (S m))) + 1 ≤
   S m + match entry_exit_at trades i with Some _ => 1 | None => 0 end)%nat.
Proof.
  revert i. induction m as [|m IH]; intros i Hlen.
  - cbn [seq]. rewrite omap_cons.
    rewrite (entry_exit_at_last trades i) by lia. cbn. lia.
  - specialize (IH (S i) ltac:(lia)).
    change (seq i (S (S m))) with (i :: seq (S i) (S m)).
    rewrite omap_cons.
    destruct (entry_exit_at trades i) as [pair|] eqn:Hat.
    + rewrite (entry_exit_at_next trades i) in IH by (rewrite Hat; eauto).
      cbn [length]. lia.
    + destruct (entry_exit_at trades (S i)); lia.
Qed.

Lemma entry_exit_pairs_bound (trades : list trade) :
  (2 * length (entry_exit_pairs trades) ≤ length trades)%nat.
Proof.
  unfold entry_exit_pairs. destruct (length trades) as [|m] eqn:Hlen; [cbn; lia|].
  pose proof (pairs_from_bound trades m 0 ltac:(lia)) as H.
  destruct (entry_exit_at trades 0); lia.
Qed.

End ExtractorBounds.

(** X10: a trade list without any [FLAT] trade, or without any [LONG] or
    [SHORT] trade, yields the empty list of signals, and this never
    raises: no timestamp is rendered. *)
Theorem no_exit_no_signal (iso : Z → option string) (trades : list Backtest.trade) :
  (∀ t, t ∈ trades → Backtest.side t ≠ "FLAT") ∨
  (∀ t, t ∈ trades → Backtest.side t ≠ "LONG" ∧ Backtest.side t ≠ "SHORT") →
  Backtest.extract_trading_signals iso trades = Some [].
Proof.
  intros Hnone. rewrite extract_trading_signals_paired.
  unfold Backtest.paired_signals.
  destruct (Backtest.entry_exit_pairs trades) as [|[entry exit] pairs] eqn:Hpairs;
    [done|].
  assert (Hin : (entry, exit) ∈ Backtest.entry_exit_pairs trades)
    by (rewrite Hpairs; left).
  apply elem_of_entry_exit_pairs in Hin as (i & Hentry & Hexit & Hside & Hflat).
  apply list_elem_of_lookup_2 in Hentry, Hexit.
  destruct Hnone as [Hnone | Hnone].
  - by destruct (Hnone _ Hexit).
  - destruct (Hnone _ Hentry) as [Hl Hs]. by destruct Hside.
Qed.

Lemma no_exit_no_signal_witness :
  Backtest.extract_trading_signals (λ _, None)
    [Backtest.Trade "LONG" 100 0; Backtest.Trade "SHORT" 110 60000] = Some [].
Proof.
  apply no_exit_no_signal. left.
  intros t Hin.
  apply elem_of_cons in Hin as [-> | Hin]; [discriminate|].
  apply elem_of_cons in Hin as [-> | Hin]; [discriminate|].
  by apply elem_of_nil in Hin.
Defined.

(** X11: the extractor raises exactly when some entry that is immediately
    followed by a [FLAT] trade, or that [FLAT] trade, has a timestamp that
    [datetime.fromtimestamp] cannot render; timestamps of unpaired trades
    are never rendered. *)
Theorem extractor_raises_iff (iso : Z → option string) (trades : list Backtest.trade) :
  Backtest.extract_trading_signals iso trades = None ↔
  ∃ i entry exit,
    trades !! i = Some entry ∧ trades !! S i = Some exit ∧
    (Backtest.side entry = "LONG" ∨ Backtest.side entry = "SHORT") ∧
    Backtest.side exit = "FLAT" ∧
    (iso (Backtest.ts entry) = None ∨ iso (Backtest.ts exit) = None).
Proof.
  rewrite extract_trading_signals_paired. unfold Backtest.paired_signals.
  rewrite mapM_None, Exists_exists. split.
  - intros ([entry exit] & Hin & Hnone).
    apply elem_of_entry_exit_pairs in Hin as (i & Hentry & Hexit & Hside & Hflat).
    apply signal_of_pair_None in Hnone. by exists i, entry, exit.
  - intros (i & entry & exit & Hentry & Hexit & Hside & Hflat & Hnone).
    exists (entry, exit). split.
    + apply elem_of_entry_exit_pairs. by exists i.
    + by apply signal_of_pair_None.
Qed.

(** X12: each [FLAT] trade closes at most one entry and no trade is both:
    the extractor never returns more signals than half the number of
    trades. *)
Theorem signals_at_most_half_the_trades
    (iso : Z → option string) (trades : list Backtest.trade)
    (signals : list Backtest.signal) :
  Backtest.extract_trading_signals iso trades = Some signals →
  (2 * length signals ≤ length trades)%nat.
Proof.
  rewrite extract_trading_signals_paired. unfold Backtest.paired_signals.
  intros Hrun%mapM_Some%Forall2_length. rewrite <- Hrun.
  apply entry_exit_pairs_bound.
Qed.

Lemma signals_at_most_half_the_trades_witness :
  (2 * length [Backtest.Signal 0 "LONG" 100 110 10 (60000 # 60000) true "0" "60000"]
   ≤ length [Backtest.Trade "LONG" 100 0; Backtest.Trade "FLAT" 110 60000;
             Backtest.Trade "SHORT" 110 120000])%nat.
Proof.
  apply (signals_at_most_half_the_trades Samples.iso_stub).
  vm_compute. reflexivity.
Defined.

(** ** The backtest signal store, written and read back *)

Section Store.

Import BacktestStore.

Lemma row_of_signal_raises (signal : Backtest.signal) (e : Py.exn) :
  row_of_signal signal = inl e ↔
  e = Py.ZeroDivisionError ∧ (Backtest.entry_price signal == 0)%Q ∨
  e = Py.OverflowError ∧ ¬ (Backtest.entry_price signal == 0)%Q ∧
    ¬ sqlite_integer (Backtest.timestamp signal).
Proof.
  unfold row_of_signal, features_of_signal.
  destruct (Qeq_bool (Backtest.entry_price signal) 0) eqn:Hzero.
  - apply Qeq_bool_iff in Hzero. split; [intros [= <-]; by left|].
    by intros [[-> _] | (_ & ? & _)].
  - assert (Hne : ¬ (Backtest.entry_price signal == 0)%Q).
    { intros Heq%Qeq_bool_iff. congruence. }
    case_bool_decide as Hts.
    + split; [done | by intros [[_ ?] | (_ & _ & ?)]].
    + split; [intros [= <-]; by right | by intros [[_ ?] | (-> & _)]].
Qed.

Lemma row_of_signal_inserts (signal : Backtest.signal) :
  (∃ row, row_of_signal signal = inr row) ↔ insertable signal.
Proof.
  unfold insertable. destruct (row_of_signal signal) as [e | row] eqn:Hrow.
  - apply row_of_signal_raises in Hrow.
    split; [by intros [? ?]|].
    intros [Hprice Hts]. by destruct Hrow as [[_ ?] | (_ & _ & ?)].
  - split; [intros _ | eauto].
    assert (Hnot : ∀ e, row_of_signal signal ≠ inl e) by congruence.
    split.
    + intros Hzero. apply (Hnot Py.ZeroDivisionError).
      apply row_of_signal_raises. by left.
    + destruct (decide (sqlite_integer (Backtest.timestamp signal))) as [|Hts]; [done|].
      destruct (Qeq_dec (Backtest.entry_price signal) 0) as [Hzero | Hne].
      * destruct (Hnot Py.ZeroDivisionError). apply row_of_signal_raises. by left.
      * destruct (Hnot Py.OverflowError). apply row_of_signal_raises. by right.
Qed.

Lemma row_of_signal_fields (signal : Backtest.signal) (row : stored_signal) :
  row_of_signal signal = inr row →
  timestamp row = Backtest.timestamp signal ∧
  side row = Backtest.signal_side signal ∧
  pnl row = Backtest.pnl signal ∧
  hold_time row = Backtest.hold_time signal ∧
  (profitable row = 1 ↔ Backtest.profitable signal = true) ∧
  (profitable row = 0 ↔ Backtest.profitable signal = false).
Proof.
  unfold row_of_signal. destruct (features_of_signal signal); [|done].
  case_bool_decide; [|done].
  intros [= <-]. cbn. by destruct (Backtest.profitable signal).
Qed.

(** The loop stops at the first signal that cannot be inserted, with the
    exception of that signal; otherwise it inserts one row per signal, in
    order. *)
Lemma insert_signals_result (signals : list Backtest.signal) (inserted : list stored_signal) :
  match insert_signals signals inserted with
  | inr table =>
    ∃ rows, table = inserted ++ rows ∧
            Forall2 (λ s row, row_of_signal s = inr row) signals rows
  | inl e =>
    ∃ i s, signals !! i = Some s ∧ row_of_signal s = inl e ∧
           ∀ j s', (j < i)%nat → signals !! j = Some s' →
                   ∃ row, row_of_signal s' = inr row
  end.
Proof.
  revert inserted. induction signals as [|signal signals IH]; intros inserted.
  - cbn. exists []. by rewrite app_nil_r.
  - cbn [insert_signals].
    destruct (row_of_signal signal) as [e | row] eqn:Hrow.
    + exists 0%nat, signal. split; [done|]. split; [done|]. intros; lia.
    + specialize (IH (inserted ++ [row])).
      destruct (insert_signals signals (inserted ++ [row])) as [e | table].
      * destruct IH as (i & s & Hi & Hs & Hbefore).
        exists (S i), s. split; [done|]. split; [done|].
        intros [|j] s' Hj Hs'; [cbn in Hs'; injection Hs' as <-; eauto|].
        apply (Hbefore j); [lia | done].
      * destruct IH as (rows & -> & Hrows).
        exists (row :: rows). split; [by rewrite <- app_assoc|]. by constructor.
Qed.

Lemma save_rows (signals : list Backtest.signal) (db : store)
    (table : list stored_signal) :
  save_backtest_signals signals db = Saved table →
  ∃ rows, table = default [] db ++ rows ∧
          Forall2 (λ s row, row_of_signal s = inr row) signals rows.
Proof.
  unfold save_backtest_signals.
  pose proof (insert_signals_result signals []) as Hresult.
  destruct (insert_signals signals []) as [e | inserted]; [done|].
  intros [= <-]. destruct Hresult as (rows & -> & Hrows). eauto.
Qed.

Lemma query_row_has_features (row : stored_signal) :
  Prepare.parse_features (Prepare.b_features (query_row row)) ≠ ∅.
Proof. cbn. apply insert_non_empty. Qed.

Lemma backtest_query_perm (table : list stored_signal) :
  backtest_query table ≡ₚ map query_row table.
Proof. apply sort_values_perm. Qed.

End Store.

(** X13: [save_backtest_signals] inserts the signals in order and stops
    at the first one whose iteration raises: [ZeroDivisionError] when its
    entry price is zero (the division for [price_change_pct]), otherwise
    [OverflowError] when its timestamp is no 64-bit integer (the binding
    of the [INSERT]).  When no signal raises, it commits the old rows
    followed by one row per signal, in order; when one does, nothing is
    committed and the table keeps its old rows.  In both cases the
    database file exists afterwards. *)
Theorem save_is_all_or_nothing
    (signals : list Backtest.signal) (db : BacktestStore.store) :
  let old := default [] db in
  match BacktestStore.save_backtest_signals signals db with
  | BacktestStore.Saved table =>
    Forall BacktestStore.insertable signals ∧
    ∃ rows, table = old ++ rows ∧
            Forall2 (λ s row, BacktestStore.row_of_signal s = inr row) signals rows
  | BacktestStore.Raised e table =>
    table = old ∧
    ∃ i s, signals !! i = Some s ∧
           Forall BacktestStore.insertable (take i signals) ∧
           (e = Py.ZeroDivisionError ∧ (Backtest.entry_price s == 0)%Q ∨
            e = Py.OverflowError ∧ ¬ (Backtest.entry_price s == 0)%Q ∧
              ¬ BacktestStore.sqlite_integer (Backtest.timestamp s))
  end ∧
  is_Some (BacktestStore.store_after (BacktestStore.save_backtest_signals signals db)).
Proof.
  intros old. unfold BacktestStore.save_backtest_signals. fold old.
  pose proof (insert_signals_result signals []) as Hresult.
  destruct (BacktestStore.insert_signals signals []) as [e | inserted]; cbn.
  - split; [|eauto]. split; [done|].
    destruct Hresult as (i & s & Hi & Hs & Hbefore).
    exists i, s. split; [done|]. split; [|by apply row_of_signal_raises].
    apply Forall_forall. intros s' Hs'.
    apply list_elem_of_lookup in Hs' as [j Hj].
    apply lookup_take_Some in Hj as [Hj Hlt].
    apply row_of_signal_inserts. by apply (Hbefore j).
  - split; [|eauto]. destruct Hresult as (rows & -> & Hrows).
    split; [|eauto].
    apply Forall_forall. intros s Hs.
    apply list_elem_of_lookup in Hs as [i Hi].
    destruct (Forall2_lookup_l _ _ _ _ _ Hrows Hi) as (row & _ & Hrow).
    apply row_of_signal_inserts. eauto.
Qed.

Example save_stops_at_a_timestamp_too_large :
  BacktestStore.save_backtest_signals [Cases.signal_short; Cases.signal_too_large] None =
    BacktestStore.Raised Py.OverflowError [].
Proof. vm_compute. reflexivity. Qed.

(** X14: a signal saved to the store is read back by the query of
    [load_backtest_data] with its timestamp, its side as [decision], its
    pnl and hold time, [profitable] as 1 or 0 according to the flag, and a
    non-empty feature mapping; the rows read come in ascending order of
    timestamp and are as many as the table holds. *)
Theorem saved_signals_are_read_back
    (signals : list Backtest.signal) (db : BacktestStore.store)
    (table : list BacktestStore.stored_signal) :
  BacktestStore.save_backtest_signals signals db = BacktestStore.Saved table →
  (∀ s, s ∈ signals →
     ∃ b, b ∈ BacktestStore.backtest_query table ∧
          Prepare.b_timestamp b = Backtest.timestamp s ∧
          Prepare.b_decision b = Backtest.signal_side s ∧
          Prepare.b_pnl b = Backtest.pnl s ∧
          Prepare.b_hold_time b = Backtest.hold_time s ∧
          (Prepare.b_profitable b = 1 ↔ Backtest.profitable s = true) ∧
          Prepare.parse_features (Prepare.b_features b) ≠ ∅) ∧
  StronglySorted (Prepare.key_le Prepare.b_timestamp)
    (BacktestStore.backtest_query table) ∧
  length (BacktestStore.backtest_query table) =
    (length (default [] db) + length signals)%nat.
Proof.
  intros Hsave.
  pose proof (save_rows signals db table Hsave) as (rows & -> & Hrows).
  split; [|split].
  - intros s Hs. apply list_elem_of_lookup in Hs as [i Hi].
    destruct (Forall2_lookup_l _ _ _ _ _ Hrows Hi) as (row & Hrow & Hmake).
    exists (BacktestStore.query_row row). split.
    + rewrite backtest_query_perm. apply list_elem_of_fmap_2.
      apply elem_of_app. right. by apply list_elem_of_lookup_2 in Hrow.
    + apply row_of_signal_fields in Hmake as (Hts & Hside & Hpnl & Hhold & Hflag & _).
      cbn. split; [done|]. split; [done|]. split; [done|]. split; [done|].
      split; [exact Hflag|]. apply insert_non_empty.
  - apply sort_values_sorted.
  - rewrite backtest_query_perm, length_map, length_app.
    apply Forall2_length in Hrows. lia.
Qed.

Lemma saved_signals_are_read_back_witness :
  ∃ b, b ∈ BacktestStore.backtest_query Cases.table_short ∧
       Prepare.b_timestamp b = 0 ∧ Prepare.b_decision b = "SHORT" ∧
       (Prepare.b_profitable b = 1 ↔ true = true).
Proof.
  destruct (saved_signals_are_read_back [Cases.signal_short] None Cases.table_short)
    as (Hread & _).
  - reflexivity.
  - destruct (Hread Cases.signal_short) as (b & Hin & Hts & Hside & _ & _ & Hflag & _).
    + left.
    + exists b. split; [exact Hin|]. split; [exact Hts|]. split; [exact Hside | exact Hflag].
Defined.

(** ** From the backtest trades to the training examples *)

Section EndToEnd.

Import Prepare Pipeline.

Lemma make_signal_side (iso : Z → option string) (entry exit : Backtest.trade)
    (s : Backtest.signal) :
  Backtest.make_signal iso entry exit = Some s →
  Backtest.signal_side s = Backtest.side entry.
Proof.
  unfold Backtest.make_signal.
  destruct (iso (Backtest.ts entry)); cbn; [|done].
  destruct (iso (Backtest.ts exit)); cbn; [|done].
  by intros [= <-].
Qed.

Lemma filter_has_features_backtest (rows : list BacktestStore.stored_signal) :
  filter has_features (map signal_of_backtest (map BacktestStore.query_row rows)) =
    map signal_of_backtest (map BacktestStore.query_row rows).
Proof.
  induction rows as [|row rows IH]; [done|].
  cbn [map]. rewrite filter_cons, decide_True, IH; [done|].
  unfold has_features. cbn. apply insert_non_empty.
Qed.

Lemma combined_examples_count (signals : list signal_row) (pnl_df : list pnl_row)
    (table : list BacktestStore.stored_signal) :
  let backtest := BacktestStore.backtest_query table in
  length (training_examples (prepared_signals signals backtest)
            (prepared_pnl pnl_df backtest)) =
  (length (filter has_features signals) + length table)%nat.
Proof.
  cbv zeta. rewrite training_examples_count, prepared_signals_perm.
  unfold all_signals. rewrite filter_app, length_app. f_equal.
  assert (Hperm : map signal_of_backtest (BacktestStore.backtest_query table) ≡ₚ
                  map signal_of_backtest (map BacktestStore.query_row table))
    by apply Permutation_map, backtest_query_perm.
  rewrite Hperm, filter_has_features_backtest. by rewrite !length_map.
Qed.

Lemma stored_within_bounds (signals : list signal_row)
    (table : list BacktestStore.stored_signal) :
  timestamps_within_bounds signals →
  Forall (λ row, within_bounds (BacktestStore.timestamp row)) table →
  timestamps_within_bounds (all_signals signals (BacktestStore.backtest_query table)).
Proof.
  intros Hsignals Htable signal Hin Hfeatures. unfold all_signals in Hin.
  apply elem_of_app in Hin as [Hin | Hin]; [by apply Hsignals|].
  apply list_elem_of_fmap in Hin as (b & -> & Hb).
  rewrite backtest_query_perm in Hb.
  apply list_elem_of_fmap in Hb as (row & -> & Hrow).
  rewrite Forall_forall in Htable. by apply Htable.
Qed.

Lemma loaded_backtest_with_store (w : world) (table : list BacktestStore.stored_signal) :
  loaded_backtest (BacktestStore.with_store w (Some table)) =
    BacktestStore.backtest_query table.
Proof.
  unfold loaded_backtest, BacktestStore.with_store.
  cbn [backtest_exists backtest_content default].
  by rewrite bool_decide_true by eauto.
Qed.

End EndToEnd.

(** X15: for signals extracted from a trade list and saved to a fresh
    store, every row that [load_backtest_data] reads back has decision
    [LONG] or [SHORT], a [profitable] column that is 1 exactly when the
    row's pnl is positive and 0 otherwise, and a non-empty feature
    mapping. *)
Theorem extracted_rows_are_consistent
    (iso : Z → option string) (trades : list Backtest.trade)
    (signals : list Backtest.signal) (table : list BacktestStore.stored_signal)
    (b : Prepare.backtest_row) :
  Backtest.extract_trading_signals iso trades = Some signals →
  BacktestStore.save_backtest_signals signals None = BacktestStore.Saved table →
  b ∈ BacktestStore.backtest_query table →
  (Prepare.b_decision b = "LONG" ∨ Prepare.b_decision b = "SHORT") ∧
  (Prepare.b_profitable b = 1 ↔ (0 < Prepare.b_pnl b)%Q) ∧
  (Prepare.b_profitable b = 1 ∨ Prepare.b_profitable b = 0) ∧
  Prepare.parse_features (Prepare.b_features b) ≠ ∅.
Proof.
  intros Hextract Hsave Hb.
  apply save_rows in Hsave as (rows & -> & Hrows).
  cbn [default app] in Hb.
  rewrite backtest_query_perm in Hb.
  apply list_elem_of_fmap in Hb as (row & -> & Hrow).
  apply list_elem_of_lookup in Hrow as [k Hk].
  destruct (Forall2_lookup_r _ _ _ _ _ Hrows Hk) as (s & Hs & Hmake).
  rewrite extract_trading_signals_paired in Hextract.
  apply mapM_Some in Hextract.
  destruct (Forall2_lookup_r _ _ _ _ _ Hextract Hs) as ([entry exit] & Hpair & Hsignal).
  apply list_elem_of_lookup_2, elem_of_entry_exit_pairs in Hpair
    as (i & _ & _ & Hside & _).
  unfold Backtest.signal_of_pair in Hsignal. cbn [fst snd] in Hsignal.
  pose proof (make_signal_side _ _ _ _ Hsignal) as Hss.
  apply make_signal_fields in Hsignal as (_ & _ & _ & Hprof).
  apply row_of_signal_fields in Hmake as (_ & Hrside & Hrpnl & _ & Hone & Hzero).
  cbn. rewrite Hrside, Hss, Hrpnl.
  split; [done|]. split; [|split; [|apply insert_non_empty]].
  - rewrite Hone, Hprof. apply Qgtb_zero.
  - destruct (Backtest.profitable s); [left; by apply Hone | right; by apply Hzero].
Qed.

Lemma extracted_rows_are_consistent_witness :
  Prepare.b_decision (BacktestStore.query_row Cases.stored_short) = "SHORT" ∧
  (Prepare.b_profitable (BacktestStore.query_row Cases.stored_short) = 1 ↔
   (0 < Prepare.b_pnl (BacktestStore.query_row Cases.stored_short))%Q).
Proof.
  split; [reflexivity|].
  apply (extracted_rows_are_consistent Samples.iso_stub
           [Backtest.Trade "SHORT" 50 0; Backtest.Trade "FLAT" 45 120000]
           [Cases.signal_short] Cases.table_short).
  - vm_compute. reflexivity.
  - vm_compute. reflexivity.
  - vm_compute. left.
Defined.

(** X16: no stored backtest signal is lost on the way to the data set:
    when the live queries succeed, the backtest store holds at least one
    row, the split fraction is between 0 and 1, and the timestamps of the
    live signals with features and of the stored rows are within bounds,
    [run] writes a data set whose
    [total_examples] is the number of live signals with features plus the
    number of stored backtest signals. *)
Theorem stored_signals_all_become_examples
    (w : Prepare.world) (log : list Prepare.entry)
    (signals : list Prepare.signal_row) (pnl : list Prepare.pnl_row)
    (table : list BacktestStore.stored_signal) :
  Prepare.db_exists w = true →
  Prepare.db_content w = inr (signals, pnl) →
  table ≠ [] →
  (0 <= Prepare.train_split w)%Q → (Prepare.train_split w <= 1)%Q →
  Pipeline.timestamps_within_bounds signals →
  Forall (λ row, Prepare.within_bounds (BacktestStore.timestamp row)) table →
  ∃ log' d,
    Prepare.run (BacktestStore.with_store w (Some table)) log = (log', inr (Some d)) ∧
    Prepare.total_examples (Prepare.dataset_stats d) =
      (length (filter Pipeline.has_features signals) + length table)%nat.
Proof.
  intros Hdb Hcontent Htable _ _ Hsignals Hrows.
  pose proof (stored_within_bounds signals table Hsignals Hrows) as Hbounds.
  rewrite <- (loaded_backtest_with_store w) in Hbounds.
  destruct (run_within_bounds (BacktestStore.with_store w (Some table)) log signals pnl
              Hdb Hcontent Hbounds) as (log' & Hrun).
  rewrite loaded_backtest_with_store in Hrun.
  pose proof (combined_examples_count signals pnl table) as Hcount.
  cbv zeta in Hcount.
  destruct (Prepare.training_examples _ _) as [|ex exs] eqn:Hex.
  - cbn [length] in Hcount. destruct table; [done | cbn [length] in Hcount; lia].
  - eexists _, _. split; [exact Hrun|].
    cbn [Prepare.dataset_stats Prepare.compute_stats Prepare.total_examples].
    unfold Prepare.format_for_training. by rewrite length_map.
Qed.

Lemma stored_signals_all_become_examples_witness :
  ∃ log' d,
    Prepare.run Cases.world_both [] = (log', inr (Some d)) ∧
    Prepare.total_examples (Prepare.dataset_stats d) = 2%nat.
Proof.
  destruct (stored_signals_all_become_examples Cases.world_live []
              [Samples.signal_loss] [Samples.pnl_loss] Cases.table_short
              eq_refl eq_refl ltac:(discriminate))
    as (log' & d & Hrun & Htotal).
  - vm_compute. discriminate.
  - vm_compute. discriminate.
  - within_bounds_of_table.
  - constructor; [|constructor].
    vm_compute. split; [reflexivity | discriminate].
  - exists log', d. split; [exact Hrun | exact Htotal].
Defined.

(** ** The metrics of the evaluator *)

Section MetricsFacts.

Import Evaluate Metrics.

Lemma ratio_bounds (a b : nat) :
  (0 < b)%nat → (a ≤ b)%nat → (0 <= ratio a b)%Q ∧ (ratio a b <= 1)%Q.
Proof.
  intros Hb Hab. unfold ratio.
  assert (Hpos : (0 < inject_Z (Z.of_nat b))%Q).
  { change 0%Q with (inject_Z 0). rewrite <- Zlt_Qlt. lia. }
  split.
  - apply Qle_shift_div_l; [done|]. rewrite Qmult_0_l.
    change 0%Q with (inject_Z 0). rewrite <- Zle_Qle. lia.
  - apply Qle_shift_div_r; [done|]. rewrite Qmult_1_l.
    rewrite <- Zle_Qle. lia.
Qed.

Lemma guarded_ratio_bounds (a b : nat) :
  (a ≤ b)%nat →
  let r := if bool_decide (0 < b)%nat then ratio a b else 0%Q in
  (0 <= r)%Q ∧ (r <= 1)%Q.
Proof.
  intros Hab. cbv zeta. case_bool_decide; [by apply ratio_bounds|].
  split; [apply Qle_refl | discriminate].
Qed.

Lemma f1_bounds (p r : Q) :
  (0 <= p)%Q → (p <= 1)%Q → (0 <= r)%Q → (r <= 1)%Q →
  let f1 := if Py.Qgtb (p + r) 0 then (2 * (p * r) / (p + r))%Q else 0%Q in
  (0 <= f1)%Q ∧ (f1 <= 1)%Q.
Proof.
  intros Hp0 Hp1 Hr0 Hr1. cbv zeta.
  destruct (Py.Qgtb (p + r) 0) eqn:Hsum; [|split; [apply Qle_refl | discriminate]].
  apply Qgtb_zero in Hsum. split.
  - apply Qle_shift_div_l; [done|]. nra.
  - apply Qle_shift_div_r; [done|]. nra.
Qed.

Lemma count_predictions_le (p e : string) (predictions : list prediction)
    (f : prediction → bool) :
  (∀ x, x ∈ predictions →
        Py.contains p (predicted x) && Py.contains e (expected x) = true → f x = true) →
  (count_predictions p e predictions ≤ length (List.filter f predictions))%nat.
Proof.
  unfold count_predictions.
  induction predictions as [|x l IH]; intros Himpl; [done|].
  assert (IH' := IH (λ y Hy, Himpl y (list_elem_of_further _ _ _ Hy))).
  cbn [List.filter].
  destruct (Py.contains p (predicted x) && Py.contains e (expected x)) eqn:Hx.
  - rewrite (Himpl x (list_elem_of_here _ _) Hx). cbn [length]. lia.
  - destruct (f x); cbn [length]; lia.
Qed.

Lemma count_predictions_none (p e : string) (predictions : list prediction) :
  (∀ x, x ∈ predictions → Py.contains p (predicted x) = false) →
  count_predictions p e predictions = 0%nat.
Proof.
  unfold count_predictions.
  induction predictions as [|x l IH]; intros Hnone; [done|].
  cbn [List.filter]. rewrite (Hnone x (list_elem_of_here _ _)). cbn [andb].
  apply IH. intros y Hy. apply Hnone. by right.
Qed.

Lemma evaluate_predictions_records generate test_data :
  predictions (evaluate_predictions generate test_data) =
    imap (λ k ex,
      let text := generate k (response_prompt ex) in
      {| prompt := Prepare.instruction ex; expected := Prepare.output ex;
         predicted := text;
         correct := is_prediction_correct text (Prepare.output ex) |})
      (take 50 test_data).
Proof. unfold evaluate_predictions. by rewrite evaluate_loop_predictions. Qed.

Lemma evaluate_predictions_counts generate test_data :
  let results := evaluate_predictions generate test_data in
  total results = length (predictions results) ∧
  correct_count results = length (List.filter correct (predictions results)).
Proof.
  unfold evaluate_predictions.
  pose proof (evaluate_loop_counts generate 0 (take 50 test_data)
    {| correct_count := 0; total := 0; predictions := [] |}) as [Ht Hc].
  cbn in Ht, Hc. done.
Qed.

Lemma filter_length_le {A} (f : A → bool) (l : list A) :
  (length (List.filter f l) ≤ length l)%nat.
Proof. induction l as [|x l IH]; cbn; [done|]. destruct (f x); cbn; lia. Qed.

End MetricsFacts.

Section MetricsFormulas.

Import Evaluate Metrics.






End MetricsFormulas.

(** X17: whatever the predictions, precision, recall and F1 computed by
    [calculate_metrics] lie between 0 and 1, and no division by zero
    occurs; for the results of [evaluate_predictions] the accuracy lies
    between 0 and 1 as well. *)
Theorem metrics_within_unit_interval :
  (∀ r : Evaluate.model_results,
     let m := Metrics.model_metrics r in
     (0 <= Metrics.precision m)%Q ∧ (Metrics.precision m <= 1)%Q ∧
     (0 <= Metrics.recall m)%Q ∧ (Metrics.recall m <= 1)%Q ∧
     (0 <= Metrics.f1_score m)%Q ∧ (Metrics.f1_score m <= 1)%Q) ∧
  (∀ generate test_data,
     let m := Metrics.model_metrics
                (Evaluate.evaluate_predictions generate test_data) in
     (0 <= Metrics.accuracy m)%Q ∧ (Metrics.accuracy m <= 1)%Q).
Proof.
  split.
  - intros r. cbv zeta. unfold Metrics.model_metrics.
    cbn [Metrics.precision Metrics.recall Metrics.f1_score].
    destruct (guarded_ratio_bounds (Metrics.true_positives r)
                (Metrics.true_positives r + Metrics.false_positives r) ltac:(lia))
      as [Hp0 Hp1].
    destruct (guarded_ratio_bounds (Metrics.true_positives r)
                (Metrics.true_positives r + Metrics.false_negatives r) ltac:(lia))
      as [Hr0 Hr1].
    cbv zeta in Hp0, Hp1, Hr0, Hr1.
    destruct (f1_bounds _ _ Hp0 Hp1 Hr0 Hr1) as [Hf0 Hf1].
    done.
  - intros generate test_data. cbv zeta. unfold Metrics.model_metrics.
    cbn [Metrics.accuracy].
    destruct (evaluate_predictions_counts generate test_data) as [Ht Hc].
    apply guarded_ratio_bounds. rewrite Ht, Hc. apply filter_length_le.
Qed.

(** X18: a model whose predictions never contain [Profitable: True] gets
    precision 0, recall 0 and F1 0, whatever its accuracy. *)
Theorem never_positive_scores_zero (r : Evaluate.model_results) :
  (∀ p, p ∈ Evaluate.predictions r →
        Py.contains "Profitable: True" (Evaluate.predicted p) = false) →
  let m := Metrics.model_metrics r in
  Metrics.precision m = 0%Q ∧ (Metrics.recall m == 0)%Q ∧ Metrics.f1_score m = 0%Q.
Proof.
  intros Hnone. cbv zeta. unfold Metrics.model_metrics.
  cbn [Metrics.precision Metrics.recall Metrics.f1_score].
  assert (Htp : Metrics.true_positives r = 0%nat)
    by by apply count_predictions_none.
  assert (Hfp : Metrics.false_positives r = 0%nat)
    by by apply count_predictions_none.
  rewrite Htp, Hfp. cbn [Nat.add].
  rewrite (bool_decide_false (0 < 0)%nat) by lia.
  assert (Hrecall : ((if bool_decide (0 < Metrics.false_negatives r)%nat
                      then Metrics.ratio 0 (Metrics.false_negatives r) else 0) == 0)%Q).
  { case_bool_decide; [|done]. unfold Metrics.ratio, Qdiv. apply Qmult_0_l. }
  split; [done|]. split; [done|].
  destruct (Py.Qgtb _ 0) eqn:Hsum; [|done].
  apply Qgtb_zero in Hsum. rewrite Hrecall in Hsum. lra.
Qed.

Lemma never_positive_scores_zero_witness :
  Metrics.f1_score (Metrics.model_metrics Cases.results_always_false) = 0%Q.
Proof.
  apply (never_positive_scores_zero Cases.results_always_false).
  intros p Hp. vm_compute in Hp.
  apply elem_of_cons in Hp as [-> | Hp]; [reflexivity | by apply elem_of_nil in Hp].
Defined.



(** X20: in the results of [evaluate_predictions] every true positive was
    scored correct, and no more predictions are scored correct than were
    made: [TP <= correct <= total]. *)
Theorem true_positives_are_correct (generate : nat → string → string)
    (test_data : list Prepare.formatted_example) :
  let r := Evaluate.evaluate_predictions generate test_data in
  (Metrics.true_positives r ≤ Evaluate.correct_count r)%nat ∧
  (Evaluate.correct_count r ≤ Evaluate.total r)%nat.
Proof.
  cbv zeta.
  destruct (evaluate_predictions_counts generate test_data) as [Ht Hc].
  rewrite Ht, Hc. split; [|apply filter_length_le].
  apply count_predictions_le.
  intros x Hx Hboth. rewrite evaluate_predictions_records in Hx.
  apply elem_of_lookup_imap in Hx as (k & ex & -> & _).
  cbn in *. apply andb_prop in Hboth as [Hp He].
  unfold Evaluate.is_prediction_correct. by rewrite Hp, He.
Qed.

(** X21: [evaluate_predictions] scores at most 50 examples: the first
    [min(50, n)] of the test data, in order, each against its own
    [output]. *)
Theorem at_most_fifty_examples (generate : nat → string → string)
    (test_data : list Prepare.formatted_example) :
  let r := Evaluate.evaluate_predictions generate test_data in
  Evaluate.total r = (50 `min` length test_data)%nat ∧
  map Evaluate.expected (Evaluate.predictions r) =
    map Prepare.output (take 50 test_data) ∧
  map Evaluate.prompt (Evaluate.predictions r) =
    map Prepare.instruction (take 50 test_data).
Proof.
  cbv zeta.
  destruct (evaluate_predictions_counts generate test_data) as [Ht _].
  rewrite Ht, evaluate_predictions_records.
  split; [by rewrite length_imap, length_take|].
  generalize (take 50 test_data). intros data.
  split; apply list_eq; intros i;
    rewrite !list_lookup_fmap, list_lookup_imap;
    by destruct (data !! i).
Qed.

(** X22: [calculate_metrics] gives one entry per model that has results
    and skips a model whose results are [None], so without an adapter only
    the base model is reported; each entry copies the totals of its
    results. *)
Theorem metrics_skip_absent_model
    (results : list (string * option Evaluate.model_results)) :
  map fst (Metrics.calculate_metrics results) =
    map fst (filter (λ entry, is_Some entry.2) results) ∧
  (∀ base, Metrics.calculate_metrics
             [("base_model", Some base); ("lora_model", None)] =
           [("base_model", Metrics.model_metrics base)]) ∧
  (∀ name m, (name, m) ∈ Metrics.calculate_metrics results →
     ∃ r, (name, Some r) ∈ results ∧
          Metrics.total_examples m = Evaluate.total r ∧
          Metrics.correct_predictions m = Evaluate.correct_count r).
Proof.
  split; [|split].
  - unfold Metrics.calculate_metrics.
    induction results as [|[name [r|]] results IH]; [done| |].
    + rewrite omap_cons, filter_cons. cbn [mbind option_bind].
      rewrite decide_True by (cbn; eauto). cbn. by rewrite IH.
    + rewrite omap_cons, filter_cons. cbn [mbind option_bind].
      rewrite decide_False by (cbn; by intros [? ?]). done.
  - reflexivity.
  - intros name m Hin. unfold Metrics.calculate_metrics in Hin.
    apply list_elem_of_omap in Hin as ([name' [r|]] & Hentry & Heq); [|done].
    cbn in Heq. injection Heq as <- <-. by exists r.
Qed.

(** ** The text the trainer tokenizes *)

Section TrainingText.

Import Py.

Lemma startswith_app (a b : string) : startswith a (a +:+ b) = true.
Proof.
  induction a as [|x a IH]; [done|].
  rewrite append_cons. cbn. by rewrite Ascii.eqb_refl.
Qed.

Lemma startswith_contains (p s : string) : startswith p s = true → contains p s = true.
Proof. intros H. destruct s; cbn; by rewrite H. Qed.

Lemma contains_app_r (p a b : string) :
  contains p b = true → contains p (a +:+ b) = true.
Proof.
  intros Hb. induction a as [|x a IH]; [done|].
  rewrite append_cons. cbn. rewrite IH. apply orb_true_r.
Qed.

Lemma startswith_app_l (p a b : string) :
  startswith p a = true → startswith p (a +:+ b) = true.
Proof.
  revert a. induction p as [|c p IH]; intros a; [done|].
  destruct a as [|x a]; [done|]. rewrite append_cons. cbn.
  destruct (Ascii.eqb c x); [apply IH | done].
Qed.

Lemma contains_app_l (p a b : string) :
  contains p a = true → contains p (a +:+ b) = true.
Proof.
  induction a as [|x a IH].
  - cbn. rewrite orb_false_r. intros Hp. destruct p; [|done]. by destruct b.
  - rewrite append_cons. cbn. intros [Hs | Hc]%orb_prop.
    + rewrite <- append_cons, (startswith_app_l _ _ _ Hs). done.
    + rewrite (IH Hc). apply orb_true_r.
Qed.

End TrainingText.

(** X23: the text the trainer builds for a formatted example is the
    prompt the evaluator sends for it, followed by the example's output
    and the end-of-sequence token: the evaluation prompt is a prefix of
    the training text, and for an example labelled profitable the training
    text contains [Profitable: True].  One text is built per example. *)
Theorem training_text_extends_evaluation_prompt (eos_token : string) :
  (∀ ex : Prepare.formatted_example,
     Trainer.training_text eos_token (Prepare.instruction ex) (Prepare.output ex) =
       Evaluate.response_prompt ex +:+ Prepare.output ex +:+ eos_token ∧
     Py.startswith (Evaluate.response_prompt ex)
       (Trainer.training_text eos_token (Prepare.instruction ex) (Prepare.output ex))
       = true) ∧
  (∀ data : list Prepare.formatted_example,
     Trainer.training_texts eos_token
       (map Prepare.instruction data) (map Prepare.output data) =
     map (λ ex, Evaluate.response_prompt ex +:+ Prepare.output ex +:+ eos_token) data) ∧
  (∀ ex : Prepare.example,
     Prepare.profitable (Prepare.labels_of ex) = true →
     Py.contains "Profitable: True"
       (Trainer.training_text eos_token
          (Prepare.instruction (Prepare.format_example ex))
          (Prepare.output (Prepare.format_example ex))) = true).
Proof.
  assert (Htext : ∀ ex : Prepare.formatted_example,
    Trainer.training_text eos_token (Prepare.instruction ex) (Prepare.output ex) =
      Evaluate.response_prompt ex +:+ Prepare.output ex +:+ eos_token).
  { intros ex. unfold Trainer.training_text, Evaluate.response_prompt.
    by rewrite !append_assoc. }
  split; [|split].
  - intros ex. split; [apply Htext|]. rewrite Htext. apply startswith_app.
  - intros data. unfold Trainer.training_texts.
    induction data as [|ex data IH]; [done|].
    cbn [map zip_with]. by rewrite IH, Htext.
  - intros ex Hprofitable. rewrite Htext.
    apply contains_app_r, contains_app_l. cbn [Prepare.output Prepare.format_example].
    rewrite contains_true_render_target, Hprofitable. done.
Qed.

Lemma training_text_extends_evaluation_prompt_witness :
  Py.contains "Profitable: True"
    (Trainer.training_text "</s>"
       (Prepare.instruction (Prepare.format_example Samples.example_tp))
       (Prepare.output (Prepare.format_example Samples.example_tp))) = true.
Proof.
  apply (proj2 (proj2 (training_text_extends_evaluation_prompt "</s>"))
           Samples.example_tp).
  reflexivity.
Defined.

(** ** The label at the head of the target, and the features of backtest
    examples *)

Section TargetHead.

Import Py Prepare.

Lemma render_target_head (l : labels) :
  ∃ rest,
    render_target l =
      ("Trade Analysis:" +:+ nl +:+ "Profitable: " +:+ str_bool (profitable l) +:+ nl)
      +:+ rest.
Proof.
  eexists. unfold render_target. by rewrite !append_assoc.
Qed.

Lemma get_backtest_feature (change minutes : Q) (key : string) :
  key ≠ "price_change_pct" → key ≠ "hold_time_minutes" →
  get (<["price_change_pct" := change]> {["hold_time_minutes" := minutes]}) key = 0%Q.
Proof.
  intros H1 H2. unfold get.
  by rewrite lookup_insert_ne, lookup_singleton_ne.
Qed.

End TargetHead.

(** X24: the label can be read back exactly from the head of the rendered
    target: the target starts with the line [Trade Analysis:] followed by
    the line [Profitable: True] exactly when the example is labelled
    profitable, and with [Profitable: False] exactly when it is not,
    whatever the exit reason says. *)
Theorem label_is_the_second_line (l : Prepare.labels) :
  Py.startswith
    ("Trade Analysis:" +:+ Prepare.nl +:+ "Profitable: True" +:+ Prepare.nl)
    (Prepare.render_target l) = Prepare.profitable l ∧
  Py.startswith
    ("Trade Analysis:" +:+ Prepare.nl +:+ "Profitable: False" +:+ Prepare.nl)
    (Prepare.render_target l) = negb (Prepare.profitable l).
Proof.
  destruct (render_target_head l) as [rest Hrest]. rewrite Hrest.
  destruct (Prepare.profitable l); split;
    first [apply startswith_app | reflexivity].
Qed.

(** X25: a backtest signal read from the store carries none of the ten
    features the example builder reads: its example has every input
    feature equal to the default 0. *)
Theorem backtest_examples_have_default_features
    (pnl_df : list Prepare.pnl_row) (row : BacktestStore.stored_signal)
    (ex : Prepare.example) :
  Prepare.build_example pnl_df
    (Prepare.signal_of_backtest (BacktestStore.query_row row)) = Some ex →
  Prepare.features_of ex = Prepare.InputFeatures 0 0 0 0 0 0 0 0 0 0.
Proof.
  unfold Prepare.build_example. case_bool_decide; [done|].
  intros [= <-]. cbn [Prepare.features_of Prepare.s_features
                      Prepare.signal_of_backtest Prepare.b_features
                      BacktestStore.query_row].
  by rewrite !get_backtest_feature by done.
Qed.

Lemma backtest_examples_have_default_features_witness :
  ∃ ex,
    Prepare.build_example []
      (Prepare.signal_of_backtest (BacktestStore.query_row Cases.stored_short))
      = Some ex ∧
    Prepare.features_of ex = Prepare.InputFeatures 0 0 0 0 0 0 0 0 0 0.
Proof.
  destruct (build_example_is_Some []
              (Prepare.signal_of_backtest (BacktestStore.query_row Cases.stored_short)))
    as [ex Hex].
  - vm_compute. discriminate.
  - exists ex. split; [exact Hex|].
    apply (backtest_examples_have_default_features [] Cases.stored_short ex Hex).
Defined.
